(** * Bridgy Fed: Nostr hub, Nostr and ATProto send paths, shadow creation

    A shallow embedding of the parts of [nostr_hub.py], [nostr.py] and
    [atproto.py] that decide which events are enqueued, what a relay
    subscription asks for, what the NIP-05 endpoint answers, and how
    [copies] evolves on [send] and [create_for].

    Conventions.  Python values that come off the wire are [json] values.
    Calls into other packages (granary, arroba, the datastore, the relay
    websocket) are oracles: Section variables, or fields of a record that
    lists what each call answered.  A Python exception that leaves the
    modelled function is an explicit [Raised] outcome. *)

From Stdlib Require Import ZArith Bool.
From stdpp Require Import gmap strings list sorting.

Local Open Scope Z_scope.
Set Warnings "-register-all".

(** ** JSON values, as [json_loads] returns them *)

Inductive json : Type :=
| JNull
| JBool (b : bool)
| JNum (n : Z)
| JStr (s : string)
| JArr (items : list json)
| JObj (fields : list (string * json)).

Module Py.

(** [d.get(key)] on a parsed object; [None] is Python's missing key. *)
Fixpoint assoc (key : string) (fields : list (string * json)) : option json :=
  match fields with
  | [] => None
  | (k, v) :: rest => if String.eqb k key then Some v else assoc key rest
  end.

(** [event.get(key)]: a missing key and an explicit JSON null both read
    as Python [None]. *)
Definition get (key : string) (fields : list (string * json)) : json :=
  match assoc key fields with
  | Some v => v
  | None => JNull
  end.

(** Python truthiness of a parsed JSON value. *)
Definition truthy (v : json) : bool :=
  match v with
  | JNull => false
  | JBool b => b
  | JNum n => negb (n =? 0)%Z
  | JStr s => negb (String.eqb s "")
  | JArr l => match l with [] => false | _ => true end
  | JObj f => match f with [] => false | _ => true end
  end.

Definition is_none (v : json) : bool :=
  match v with JNull => true | _ => false end.

(** Values that can be a set member or be looked up in a set; lists and
    dicts raise [TypeError: unhashable type]. *)
Definition hashable (v : json) : bool :=
  match v with
  | JArr _ | JObj _ => false
  | _ => true
  end.

(** [v[i]] for a non-negative integer [i]; [None] is the exception Python
    raises ([IndexError], [KeyError] or [TypeError]).  A string is indexed
    by byte here; the code only compares the result with ASCII text. *)
Definition subscript (v : json) (i : nat) : option json :=
  match v with
  | JArr l => l !! i
  | JStr s => match String.get i s with
              | Some c => Some (JStr (String c EmptyString))
              | None => None
              end
  | _ => None
  end.

(** [for x in v]: a list yields its items, a string its characters, a
    dict its keys; anything else is not iterable. *)
Fixpoint chars (s : string) : list json :=
  match s with
  | EmptyString => []
  | String c rest => JStr (String c EmptyString) :: chars rest
  end.

Definition iterate (v : json) : option (list json) :=
  match v with
  | JArr l => Some l
  | JStr s => Some (chars s)
  | JObj f => Some (map (fun kv => JStr (fst kv)) f)
  | _ => None
  end.

(** [v == 'p'] *)
Definition eq_str (v : json) (s : string) : bool :=
  match v with
  | JStr t => String.eqb t s
  | _ => false
  end.

(** [v == n] for an integer constant other than 0 and 1 (which also
    equal [False] and [True]). *)
Definition eq_num (v : json) (n : Z) : bool :=
  match v with
  | JNum m => (m =? n)%Z
  | _ => false
  end.

(** [v in s] for a set of strings [s]. *)
Definition in_strings (v : json) (s : gset string) : option bool :=
  match v with
  | JStr t => Some (bool_decide (t ∈ s))
  | JArr _ | JObj _ => None
  | _ => Some false
  end.

End Py.

(** ** Targets and copies ([models.py]) *)

Record Target := mkTarget { uri : string; protocol : string }.

Global Instance Target_eq_dec : EqDecision Target.
Proof. solve_decision. Defined.

Module Models.

(** Modelled from the spec: [models.py] is not among the sources.  The
    spec gives [copies] as a set of [Target{uri, protocol}] values, so
    [entity.add('copies', t)] appends [t] unless an equal [Target] is
    already there. *)
Definition add (copies : list Target) (t : Target) : list Target :=
  if bool_decide (t ∈ copies) then copies else copies ++ [t].

(** Modelled from the spec: [entity.get_copy(proto)] is the uri of the
    copy of the entity in protocol [proto], the first [Target] of
    [copies] with that protocol label, or [None]. *)
Fixpoint get_copy (label : string) (copies : list Target) : option string :=
  match copies with
  | [] => None
  | t :: rest =>
      if String.eqb (protocol t) label then Some (uri t) else get_copy label rest
  end.

(** [after] is [before] with exactly one more entry, of protocol [label]. *)
Definition gains_one_copy (label : string) (before after : list Target) : Prop :=
  ∃ t, protocol t = label ∧ (t ∉ before) ∧ (t ∈ after) ∧
       length after = S (length before).

(** The copies of one protocol: [[c for c in copies if c.protocol == label]]. *)
Definition copies_in (label : string) (copies : list Target) : list Target :=
  filter (fun c => protocol c = label) copies.

End Models.

(** ** [nostr_hub.py] *)

Module NostrHub.

Definition KIND_DELETE : Z := 5.
Definition KIND_REACTION : Z := 7.
Definition Nostr_LABEL : string := "nostr".

(** Arguments of one [create_task] call. *)
Record task := mkTask {
  queue : string;
  task_id : string;
  source_protocol : string;
  authed_as : string;
  nostr : json;
  delay : option Z;
}.

Inductive outcome : Type :=
| Ignored                (* handle returned without calling create_task *)
| Enqueued (t : task)    (* handle called create_task with these arguments *)
| Raised.                (* an exception left handle before create_task *)

(** [set(tag[1] for tag in tags if tag[0] == 'p')], in iteration order;
    [None] when a subscript fails or an element is unhashable. *)
Fixpoint mentions_of (tags : list json) : option (list json) :=
  match tags with
  | [] => Some []
  | tag :: rest =>
      match Py.subscript tag 0 with
      | None => None
      | Some t0 =>
          if Py.eq_str t0 "p" then
            match Py.subscript tag 1 with
            | None => None
            | Some t1 =>
                if Py.hashable t1 then
                  match mentions_of rest with
                  | Some ms => Some (t1 :: ms)
                  | None => None
                  end
                else None
            end
          else mentions_of rest
      end
  end.

(** [mentions & bridged_pubkeys] is non-empty. *)
Definition mentions_bridged (ms : list json) (bridged : gset string) : bool :=
  existsb (fun m => match m with
                    | JStr s => bool_decide (s ∈ bridged)
                    | _ => false
                    end) ms.

Section Handle.
(** granary.nostr: [verify(event)], [uri_for(event)] and
    [id_to_uri(prefix, id)].  [verify] answers [None] when it raises;
    the other two answer [None] for the [TypeError]/[ValueError] that
    [handle] catches. *)
Variable verify : json → option bool.
Variable uri_for : json → option string.
Variable id_to_uri : string → json → option string.
(** protocol.py: [DELETE_TASK_DELAY], in seconds. *)
Variable DELETE_TASK_DELAY : Z.
(** The globals that [_load_users] fills. *)
Variable nostr_pubkeys bridged_pubkeys : gset string.

(** The first [if] of [handle]: [event] is a dict with a [kind] that is
    not [None] and truthy [pubkey], [id] and [sig]. *)
Definition well_formed (event : json) : bool :=
  match event with
  | JObj f =>
      negb (Py.is_none (Py.get "kind" f))
      && Py.truthy (Py.get "pubkey" f)
      && Py.truthy (Py.get "id" f)
      && Py.truthy (Py.get "sig" f)
  | _ => false
  end.

Definition handle (event : json) : outcome :=
  match event with
  | JObj f =>
      if negb (well_formed event) then Ignored else
      let pubkey := Py.get "pubkey" f in
      (* event.get('tags', []) *)
      let tags := match Py.assoc "tags" f with Some v => v | None => JArr [] end in
      match Py.iterate tags with
      | None => Raised
      | Some tag_list =>
          match mentions_of tag_list with
          | None => Raised
          | Some mentions =>
              match Py.in_strings pubkey nostr_pubkeys with
              | None => Raised
              | Some from_native =>
                  if negb (from_native || mentions_bridged mentions bridged_pubkeys)
                  then Ignored else
                  match verify event with
                  | None => Raised
                  | Some false => Ignored
                  | Some true =>
                      match uri_for event with
                      | None => Ignored
                      | Some obj_id =>
                          match id_to_uri "npub" pubkey with
                          | None => Ignored
                          | Some npub_uri =>
                              let delay :=
                                if Py.eq_num (Py.get "kind" f) KIND_DELETE
                                then Some DELETE_TASK_DELAY else None in
                              Enqueued (mkTask "receive" obj_id Nostr_LABEL
                                               npub_uri event delay)
                          end
                      end
                  end
              end
          end
      end
  | _ => Ignored
  end.

End Handle.

(** *** [subscribe]: the REQ / receive loop on one relay websocket *)

(** [sorted(...)] of a set of strings: Python orders [str] by code point. *)
Definition str_le (a b : string) : Prop := String.leb a b = true.

Global Instance str_le_dec a b : Decision (str_le a b).
Proof. unfold str_le. apply _. Defined.

Definition sorted (s : gset string) : list string :=
  merge_sort str_le (elements s).

(** What the subscriber observes at [ws.recv], or between two iterations. *)
Inductive ws_event : Type :=
| Frame (resp : json)     (* recv returned a message; resp = json_loads(msg) *)
| Timeout                 (* recv raised TimeoutError *)
| Loaded (new_nostr new_bridged : gset string).
                          (* _load_users ran in its thread and added pubkeys *)

Inductive action : Type :=
| Connect (relay : string)     (* connect(relay, ...) *)
| Send (msg : json)            (* ws.send(json_dumps(msg)) *)
| CreateTask (t : task).       (* create_task(...) inside handle *)

Inductive ending : Type :=
| Returned          (* limit reached *)
| Disconnected      (* recv raised ConnectionClosed: no more input *)
| Failed.           (* another exception left subscribe *)

(** Locals and globals of [subscribe] while a query is open. *)
Record sub_state := mkSub {
  nostr_pubkeys : gset string;
  bridged_pubkeys : gset string;
  nostr_pubkeys_count : nat;
  bridged_pubkeys_count : nat;
  subscription : string;
  queries : nat;        (* calls to secrets.token_urlsafe so far *)
  received : nat;
}.

Section Subscribe.
Variable verify : json → option bool.
Variable uri_for : json → option string.
Variable id_to_uri : string → json → option string.
Variable DELETE_TASK_DELAY : Z.
(** nostr.py of this revision does not define [Nostr.SUPPORTED_KINDS];
    it is taken as given. *)
Variable SUPPORTED_KINDS : gset Z.
(** [secrets.token_urlsafe(16)], by call number. *)
Variable token : nat → string.
(** The [limit] argument; [None] outside of tests. *)
Variable limit : option nat.

(** [list(Nostr.SUPPORTED_KINDS - {KIND_REACTION})] *)
Definition AUTHOR_FILTER_KINDS : list Z :=
  elements (SUPPORTED_KINDS ∖ {[KIND_REACTION]}).

Definition req (sub : string) (np bp : gset string) : json :=
  JArr [ JStr "REQ"; JStr sub;
         JObj [ ("#p", JArr (JStr <$> sorted bp));
                ("kinds", JArr (JNum <$> elements SUPPORTED_KINDS)) ];
         JObj [ ("authors", JArr (JStr <$> sorted np));
                ("kinds", JArr (JNum <$> AUTHOR_FILTER_KINDS)) ] ].

Definition close (sub : string) : json := JArr [JStr "CLOSE"; JStr sub].

(** A REQ built by [req] from pubkey sets that include [np] and [bp]. *)
Definition req_for (np bp : gset string) (msg : json) : Prop :=
  ∃ sub np' bp', np ⊆ np' ∧ bp ⊆ bp' ∧ msg = req sub np' bp'.

(** Head of the outer [while True]: take the counts, reset [received],
    draw a subscription id and send the REQ. *)
Definition open_query (np bp : gset string) (n : nat) : list action * sub_state :=
  let sub := token n in
  ([Send (req sub np bp)],
   mkSub np bp (size np) (size bp) sub (S n) 0).

(** The check at the top of the inner loop.  When a count changed the
    code sends CLOSE and breaks to the outer loop, whose head runs
    before the next [recv]; the counts are equal again after it. *)
Definition recheck (st : sub_state) : list action * sub_state :=
  if bool_decide (nostr_pubkeys_count st ≠ size (nostr_pubkeys st)
                  ∨ bridged_pubkeys_count st ≠ size (bridged_pubkeys st))
  then
    let '(acts, st') := open_query (nostr_pubkeys st) (bridged_pubkeys st) (queries st) in
    (Send (close (subscription st)) :: acts, st')
  else ([], st).

Definition prepend (acts : list action) (r : list action * ending)
  : list action * ending :=
  (acts ++ fst r, snd r).

(** [received += 1; if limit and received >= limit: return] *)
Definition limit_reached (received' : nat) : bool :=
  match limit with
  | Some l => negb (l =? 0)%nat && (l <=? received')%nat
  | None => false
  end.

Definition bump (st : sub_state) : sub_state :=
  mkSub (nostr_pubkeys st) (bridged_pubkeys st) (nostr_pubkeys_count st)
        (bridged_pubkeys_count st) (subscription st) (queries st)
        (S (received st)).

Definition load (st : sub_state) (nn nb : gset string) : sub_state :=
  mkSub (nostr_pubkeys st ∪ nn) (bridged_pubkeys st ∪ nb)
        (nostr_pubkeys_count st) (bridged_pubkeys_count st)
        (subscription st) (queries st) (received st).

(** The inner [while True], from its top, over what the socket and the
    loader thread do next. *)
Fixpoint receive_loop (evs : list ws_event) (st : sub_state)
  : list action * ending :=
  let '(pre, st) := recheck st in
  match evs with
  | [] => (pre, Disconnected)
  | Timeout :: rest => prepend pre (receive_loop rest st)
  | Loaded nn nb :: rest => prepend pre (receive_loop rest (load st nn nb))
  | Frame resp :: rest =>
      match Py.subscript resp 0 with
      | None => (pre, Failed)
      | Some kind =>
          if Py.eq_str kind "CLOSED" then
            (* relay closed our query: break, then the outer loop's head *)
            let '(acts, st') :=
              open_query (nostr_pubkeys st) (bridged_pubkeys st) (queries st) in
            prepend (pre ++ acts) (receive_loop rest st')
          else
            let handled :=
              if Py.eq_str kind "EVENT" then
                match Py.subscript resp 2 with
                | None => None
                | Some event =>
                    match handle verify uri_for id_to_uri DELETE_TASK_DELAY
                                 (nostr_pubkeys st) (bridged_pubkeys st) event with
                    | Raised => None
                    | Ignored => Some []
                    | Enqueued t => Some [CreateTask t]
                    end
                end
              else Some [] in
            match handled with
            | None => (pre, Failed)
            | Some acts =>
                if limit_reached (S (received st))
                then (pre ++ acts, Returned)
                else prepend (pre ++ acts) (receive_loop rest (bump st))
            end
      end
  end.

Definition subscribe (relay : string) (np bp : gset string)
           (evs : list ws_event) : list action * ending :=
  let '(acts, st) := open_query np bp 0 in
  prepend (Connect relay :: acts) (receive_loop evs st).

End Subscribe.

(** The globals [nostr_pubkeys] and [bridged_pubkeys] after the runs of
    the loader among [evs], from [np] and [bp]. *)
Definition loaded (np bp : gset string) (evs : list ws_event)
  : gset string * gset string :=
  foldl (λ sets ev, match ev with
                    | Loaded nn nb => (sets.1 ∪ nn, sets.2 ∪ nb)
                    | _ => sets
                    end) (np, bp) evs.

(** The messages [subscribe] sent, in order. *)
Definition sent (log : list action) : list json :=
  omap (fun a => match a with Send m => Some m | _ => None end) log.

Definition is_req (msg : json) : bool :=
  match msg with
  | JArr (kind :: _) => Py.eq_str kind "REQ"
  | _ => false
  end.

(** The filters of a client message, and the [since] value of each
    filter that has one. *)
Definition filters (msg : json) : list json :=
  match msg with
  | JArr (_ :: _ :: fs) => fs
  | _ => []
  end.

Definition since_of (filter : json) : option json :=
  match filter with
  | JObj f => Py.assoc "since" f
  | _ => None
  end.

End NostrHub.

(** ** Outcomes of a call that can raise *)

Inductive result (A : Type) : Type :=
| Return (a : A)
| Raise (site : string).   (* the call whose exception left the function *)

Arguments Return {A} a.
Arguments Raise {A} site.

(** ** [nostr.py] *)

Module Nostr.

(** The protocol label that [Protocol] gives the class; the tests compare
    [Nostr.LABEL] and the [protocol] of Nostr copies with ['nostr']. *)
Definition LABEL : string := "nostr".

(** *** [Nostr.send] *)

(** What happened on the websocket inside the [with connect(...)] block. *)
Inductive relay_answer : Type :=
| Answered            (* send and recv went through *)
| ClosedOK            (* ConnectionClosedOK, which send catches *)
| RelayError.         (* connect, send or recv raised something else *)

(** The in-memory [obj] after the call, and whether [obj.put()] stored
    it. *)
Record obj_after := mkAfter {
  copies_after : list Target;
  stored : bool;
}.

Section Send.
(** granary.nostr: [bech32_prefix_for(event)] and [id_to_uri(prefix, id)];
    [None] when they raise. *)
Variable bech32_prefix_for : json → option string.
Variable id_to_uri : string → json → option string.

(** [from_user] is the sender's hex pubkey ([from_user.hex_pubkey()]),
    [None] when no user is passed; [converted] is what
    [to_cls.convert(obj, from_user)] returned, [None] when it raised or
    did not return a dict; [put_ok] says whether the closing [obj.put()]
    goes through. *)
Definition send (copies : list Target) (from_user : option string)
           (converted : option (list (string * json)))
           (relay : relay_answer) (put_ok : bool) : result bool * obj_after :=
  match from_user with
  | None => (Raise "assert from_user", mkAfter copies false)
  | Some hex_pubkey =>
      match converted with
      | None => (Raise "convert", mkAfter copies false)
      | Some event =>
          if negb (Py.eq_str (Py.get "pubkey" event) hex_pubkey)
          then (Raise "assert pubkey", mkAfter copies false)
          else if negb (Py.truthy (Py.get "sig" event))
          then (Raise "assert sig", mkAfter copies false)
          else
            match relay with
            | RelayError => (Raise "websocket", mkAfter copies false)
            | ClosedOK => (Return false, mkAfter copies false)
            | Answered =>
                (* obj.copies = [copy for copy in obj.copies
                                 if copy.protocol != 'nostr'] *)
                let kept := filter (fun c => protocol c ≠ "nostr") copies in
                match bech32_prefix_for (JObj event) with
                | None => (Raise "bech32_prefix_for", mkAfter kept false)
                | Some prefix =>
                    match Py.assoc "id" event with
                    | None => (Raise "event['id']", mkAfter kept false)
                    | Some id =>
                        match id_to_uri prefix id with
                        | None => (Raise "id_to_uri", mkAfter kept false)
                        | Some uri =>
                            let added := Models.add kept (mkTarget uri LABEL) in
                            if put_ok then (Return true, mkAfter added true)
                            else (Raise "obj.put", mkAfter added false)
                        end
                    end
                end
            end
      end
  end.
End Send.

(** *** The NIP-05 endpoint, [/.well-known/nostr.json] *)

(** A stored user of some protocol, as the query and the handler see it. *)
Record user := mkUser {
  key_id : string;
  handle : option string;
  handle_as_domain : option string;
  is_enabled_nostr : bool;       (* user.is_enabled(Nostr) *)
  copies : list Target;
}.

Inductive response : Type :=
| Names (name hex_pubkey : string)   (* 200, {'names': {name: hex_pubkey}} *)
| NotFound                           (* 404 *)
| BadRequest                         (* 400, from get_required_param *)
| ServerError.                       (* an exception left the handler *)

Section Nip05.
(** The datastore: the users of each protocol label, in the order the
    query returns them. *)
Variable users_of : string → list user.
(** granary.nostr [uri_to_id]; [None] when it raises. *)
Variable uri_to_id : string → option string.

(** [OR(handle == name, handle_as_domain == name, key == Key(proto, name))] *)
Definition matches (name : string) (u : user) : bool :=
  bool_decide (handle u = Some name)
  || bool_decide (handle_as_domain u = Some name)
  || String.eqb (key_id u) name.

(** [proto.query(...).get()]: the first entity of the result. *)
Definition query_get (proto name : string) : option user :=
  find (matches name) (users_of proto).

(** [name] is the request's [name] parameter, [for_request] the label of
    [Protocol.for_request()]. *)
Definition nip_05 (name : option string) (for_request : option string) : response :=
  match name with
  | None => BadRequest
  | Some name =>
      if String.eqb name "" then BadRequest else
      match for_request with
      | None => NotFound
      | Some proto =>
          if String.eqb proto LABEL then NotFound else
          match query_get proto name with
          | None => NotFound
          | Some u =>
              if is_enabled_nostr u then
                match Models.get_copy LABEL (copies u) with
                | None => NotFound
                | Some npub =>
                    if String.eqb npub "" then NotFound else
                    match uri_to_id npub with
                    | Some hex => Names name hex
                    | None => ServerError
                    end
                end
              else NotFound
          end
      end
  end.

(** The copy that the handler answers with: the Nostr copy of the first
    user the query returns, when the requesting protocol is not Nostr
    and that user is enabled for Nostr. *)
Definition listed (name : string) (for_request : option string) (npub : string)
  : Prop :=
  ∃ proto u,
    for_request = Some proto ∧ proto ≠ LABEL ∧
    query_get proto name = Some u ∧
    is_enabled_nostr u = true ∧
    Models.get_copy LABEL (copies u) = Some npub ∧
    npub ≠ "".
End Nip05.

End Nostr.

(** ** [atproto.py] *)

Module ATProto.

Definition LABEL : string := "atproto".
(** arroba.util [TOMBSTONED] *)
Definition TOMBSTONED : string := "tombstoned".

Inductive Action : Type := CREATE | UPDATE | DELETE.

(** arroba.storage [Write] *)
Record Write := mkWrite {
  action : Action;
  collection : option string;
  rkey : option string;
  record : option json;
}.

(** The log of a run, in order: the calls that write to the datastore or
    a repo or reach another service, entered when they have gone
    through, and the three lookups of [send] that can fetch from the
    network or create the user on their way, entered when they are
    called.  Reads of the datastore, and the loads and conversions of
    [create_for], are answered by the oracle without an entry. *)
Inductive effect : Type :=
| PlcCreate (handle did : string)          (* did.create_plc posts a PLC operation *)
| StoreDidDoc (did : string)               (* Object.get_or_create(did, raw=doc) *)
| SetDns (handle did : string)             (* cls.set_dns *)
| RemoveDns (handle : string)              (* cls.remove_dns *)
| ReloadProfile                            (* user.reload_profile() *)
| RepoCreate (did handle : string)         (* Repo.create *)
| Commit (did : string) (writes : list Write)   (* storage.commit(repo, writes) *)
| ActivateRepo (did : string)
| DeactivateRepo (did : string)
| CreateTask (queue : string)              (* common.create_task *)
| PutFeatured (uri : string)               (* featured_obj.add('copies', ...); put() *)
| PutProfile                               (* user.obj.put() *)
| PutUser                                  (* user.put() *)
| PutBase                                  (* base_obj.put() *)
| CreateReport
| SendChat (to_did : string)
| ConvertBase                              (* to_cls.convert(base_obj, fetch_blobs=True, ...) *)
| GetOrCreateUser                          (* from_cls.get_or_create(..., propagate=True) *)
| LoadDidDoc (did : string).               (* to_cls.load(did, did_doc=True) *)

(** [not x] for a string or [None] *)
Definition falsy (x : option string) : bool :=
  match x with
  | None => true
  | Some s => String.eqb s ""
  end.

(** [if x := e]: the value when it is truthy *)
Definition truthy_value (x : option string) : option string :=
  match x with
  | Some s => if String.eqb s "" then None else Some s
  | None => None
  end.

(** *** [ATProto.create_for] *)

(** [user.obj], as far as [create_for] reads and writes it. *)
Record profile := mkProfile {
  profile_copies : list Target;
  has_as1 : bool;                 (* user.obj.as1 is truthy *)
}.

Record state := mkState {
  is_atproto : bool;              (* isinstance(user, ATProto) *)
  user_copies : list Target;      (* user.copies *)
  user_obj : option profile;      (* user.obj *)
  repos : gmap string (option string);
                                  (* arroba storage: DID to repo.status *)
  log : list effect;
}.

(** What each outside call of one [create_for] run answers. *)
Record oracle := mkOracle {
  handle_as : option string;      (* user.handle_as('atproto'); None: raised *)
  handle_in_superdomain : bool;   (* handle.endswith(SUPERDOMAIN) *)
  activate_repo_ok : bool;
  create_task_ok : bool;
  create_plc : option string;     (* the new DID; None: did.create_plc raised *)
  store_did_doc_ok : bool;
  set_dns_ok : bool;
  reload_profile : option (option profile);
                                  (* user.reload_profile(): user.obj afterwards,
                                     None when it raised.  As Nostr.reload_profile
                                     in nostr.py does, it sets the profile object
                                     and puts the user; copies are not touched. *)
  repo_create_ok : bool;
  pinned_post : option (option (json * string));
                                  (* the converted pinned post and its rkey,
                                     Some None when there is none to store,
                                     None when loading or converting raised *)
  commit_initial_ok : bool;
  convert_profile : option (option json);
                                  (* cls.convert(user.obj); Some None: falsy *)
  derived_writes : list Write;
  commit_profile_ok : bool;
  put_profile_ok : bool;
  put_user_ok : bool;
}.

(** State and exceptions. *)
Definition M (A : Type) : Type := state → result A * state.

Global Instance M_ret : MRet M := λ A a s, (Return a, s).
Global Instance M_bind : MBind M := λ A B f m s,
  match m s with
  | (Return a, s') => f a s'
  | (Raise site, s') => (Raise site, s')
  end.

Definition raise {A} (site : string) : M A := λ s, (Raise site, s).
Definition get_state : M state := λ s, (Return s, s).
Definition emit (e : effect) : M unit := λ s,
  (Return (), mkState (is_atproto s) (user_copies s) (user_obj s) (repos s)
                      (log s ++ [e])).
Definition set_user_copies (c : list Target) : M unit := λ s,
  (Return (), mkState (is_atproto s) c (user_obj s) (repos s) (log s)).
Definition set_user_obj (p : option profile) : M unit := λ s,
  (Return (), mkState (is_atproto s) (user_copies s) p (repos s) (log s)).
Definition set_repo (did : string) (status : option string) : M unit := λ s,
  (Return (), mkState (is_atproto s) (user_copies s) (user_obj s)
                      (<[did := status]> (repos s)) (log s)).

(** An outside call: it either goes through, with its effect, or raises. *)
Definition call (site : string) (ok : bool) (e : effect) : M unit :=
  if ok then emit e else raise site.

Definition chat_declaration : json :=
  JObj [("$type", JStr "chat.bsky.actor.declaration");
        ("allowIncoming", JStr "none")].

Definition at_uri (did collection rkey : string) : string :=
  "at://" +:+ did +:+ "/" +:+ collection +:+ "/" +:+ rkey.

Definition profile_has_as1 (p : option profile) : bool :=
  match p with
  | Some p => has_as1 p
  | None => false
  end.

(** From [# create new DID] to the end of [create_for]. *)
Definition create_new_did (o : oracle) (handle : string) : M unit :=
  did ← (match create_plc o with
         | Some did => emit (PlcCreate handle did) ;; mret did
         | None => raise "did.create_plc"
         end);
  call "Object.get_or_create" (store_did_doc_ok o) (StoreDidDoc did) ;;
  call "set_dns" (set_dns_ok o) (SetDns handle did) ;;
  (* fetch user profile *)
  s ← get_state;
  (if negb (profile_has_as1 (user_obj s)) then
     match reload_profile o with
     | Some p => emit ReloadProfile ;; set_user_obj p
     | None => raise "user.reload_profile"
     end
   else mret ()) ;;
  (* create repo *)
  call "Repo.create" (repo_create_ok o) (RepoCreate did handle) ;;
  set_repo did None ;;
  (* chat declaration and pinned post *)
  s ← get_state;
  pinned ← (if profile_has_as1 (user_obj s) then
              match pinned_post o with
              | None => raise "pinned post"
              | Some None => mret []
              | Some (Some (post, rk)) =>
                  emit (PutFeatured (at_uri did "app.bsky.feed.post" rk)) ;;
                  mret [mkWrite CREATE (Some "app.bsky.feed.post") (Some rk) (Some post)]
              end
            else mret []);
  call "storage.commit" (commit_initial_ok o)
       (Commit did (mkWrite CREATE (Some "chat.bsky.actor.declaration")
                            (Some "self") (Some chat_declaration) :: pinned)) ;;
  (* user profile *)
  (match user_obj s with
   | Some p =>
       if has_as1 p then
         match convert_profile o with
         | None => raise "convert"
         | Some None => raise "ValueError: couldn't convert profile"
         | Some (Some rec) =>
             call "storage.commit" (commit_profile_ok o)
                  (Commit did (mkWrite CREATE (Some "app.bsky.actor.profile")
                                       (Some "self") (Some rec) :: derived_writes o)) ;;
             set_user_obj
               (Some (mkProfile
                        (Models.add (profile_copies p)
                           (mkTarget (at_uri did "app.bsky.actor.profile" "self")
                                     "atproto"))
                        (has_as1 p))) ;;
             call "user.obj.put" (put_profile_ok o) PutProfile
         end
       else mret ()
   | None => mret ()
   end) ;;
  (* don't add the copy id until the end *)
  s ← get_state;
  set_user_copies (Models.add (user_copies s) (mkTarget did "atproto")) ;;
  call "user.put" (put_user_ok o) PutUser.

Definition create_for (o : oracle) : M unit :=
  s ← get_state;
  if is_atproto s then raise "assert not isinstance(user, ATProto)" else
  handle ← (match handle_as o with
            | Some h => mret h
            | None => raise "user.handle_as"
            end);
  match truthy_value (Models.get_copy LABEL (user_copies s)) with
  | Some copy_did =>
      match repos s !! copy_did with
      | None => raise "storage.load_repo"
      | Some status =>
          if falsy status then
            (* already active; noop *)
            mret ()
          else if bool_decide (status = Some TOMBSTONED) then
            (* wipe and start fresh *)
            set_user_copies [] ;;
            (match user_obj s with
             | Some p =>
                 set_user_obj (Some (mkProfile [] (has_as1 p))) ;;
                 call "user.obj.put" (put_profile_ok o) PutProfile
             | None => mret ()
             end) ;;
            create_new_did o handle
          else
            (* deactivated or deleted *)
            call "storage.activate_repo" (activate_repo_ok o) (ActivateRepo copy_did) ;;
            set_repo copy_did None ;;
            call "create_task" (create_task_ok o) (CreateTask "atproto-commit") ;;
            (if handle_in_superdomain o
             then call "set_dns" (set_dns_ok o) (SetDns handle copy_did)
             else mret ())
      end
  | None => create_new_did o handle
  end.

(** The user has an ATProto copy whose repo is tombstoned: the case in
    which [create_for] wipes the copies and starts afresh. *)
Definition tombstoned (s : state) : Prop :=
  ∃ did, truthy_value (Models.get_copy LABEL (user_copies s)) = Some did
         ∧ repos s !! did = Some (Some TOMBSTONED).

(** *** [ATProto.send] *)

(** Modelled from the spec: granary's [as1.CRUD_VERBS] is not among the
    sources.  The spec lists the CRUD verbs as create, update, delete and
    undo; AS1 spells create [post]. *)
Definition CRUD_VERBS : list string := ["delete"; "post"; "undo"; "update"].

(** [x in (...)] for a value that may be [None] *)
Definition one_of (x : option string) (l : list string) : bool :=
  match x with
  | Some s => bool_decide (s ∈ l)
  | None => false
  end.

Definition equals (x : option string) (s : string) : bool :=
  bool_decide (x = Some s).

(** A [models.Object], as far as [send] reads and writes it. *)
Record Obj := mkObj {
  obj_id : option string;         (* key id, if it has a key *)
  obj_copies : list Target;
  obj_type : option string;       (* obj.type *)
}.

(** The inner object of a CRUD activity. *)
Record inner := mkInner {
  base_id : option string;        (* as1.get_object(obj.as1).get('id') *)
  base_obj_type : option string;  (* as1.object_type(base_obj_as1) *)
  blocked_did : option string;    (* as1.get_object(base_obj_as1).get('id') *)
}.

Inductive commit_answer : Type :=
| Committed
| CommitValueError
| CommitInactiveRepo
| CommitOtherError.

(** What [send] reads from its arguments and what each outside call
    answers.  An [option] around an answer is [None] when the call raised. *)
Record send_env := mkEnv {
  pds_url_ours : bool;            (* util.domain_from_link(pds_url) in DOMAINS *)
  as1_type : option string;       (* as1.object_type(obj.as1) *)
  as1_verb : option string;       (* obj.as1.get('verb') *)
  as1_inner : inner;
  load_base : option (option Obj);
                                  (* PROTOCOLS[obj.source_protocol].load(base_id, remote=False) *)
  from_user : bool;
  to_id : option string;          (* as1.get_object(obj.as1).get('id') *)
  follower_follow : option (option Obj);
                                  (* None: no Follower, or none with a follow;
                                     Some b: follower.follow.get() is b *)
  convert : option json;          (* to_cls.convert(base_obj, ...) *)
  from_key : option string;       (* from_cls.actor_key(obj, ...) *)
  user_did : option (option string);
                                  (* get_or_create(...).get_copy(ATProto) *)
  did_pds_ours : option bool;     (* pds_for(load(did)) is set and in DOMAINS *)
  repo_status : option (option string);
                                  (* storage.load_repo(did).status *)
  atp_base_id : option string;    (* base_id, translated to ATProto if need be *)
  user_handle : string;           (* user.handle_as('atproto') *)
  deactivate_ok : bool;
  remove_dns_ok : bool;
  create_report : option bool;
  block_records : option (list (string * string));
                                  (* subject and rkey of each listed block record *)
  recipient_if_dm : option string;
  send_chat : option bool;
  lexicon_type : string → option string;   (* LEXICONS[type]['type'] *)
  parse_at_uri : string → option (string * string * string);
  next_tid : string;
  send_derived_writes : list Write;        (* derived_writes(obj) *)
  commit : commit_answer;
  put_ok : bool;
}.

(** [send] so far: the [base_obj] variable and the calls made. *)
Record send_state := mkSend {
  base_obj : option Obj;
  effects : list effect;
}.

(** A step of [send] goes on with a value or leaves [send], by [return]
    or by an exception. *)
Inductive flow (A : Type) : Type :=
| Go (a : A)
| Exit (r : result bool).
Arguments Go {A} a.
Arguments Exit {A} r.

Definition S (A : Type) : Type := send_state → flow A * send_state.

Global Instance S_ret : MRet S := λ A a s, (Go a, s).
Global Instance S_bind : MBind S := λ A B f m s,
  match m s with
  | (Go a, s') => f a s'
  | (Exit r, s') => (Exit r, s')
  end.

Definition returns {A} (b : bool) : S A := λ s, (Exit (Return b), s).
Definition raises {A} (site : string) : S A := λ s, (Exit (Raise site), s).
Definition does (e : effect) : S unit := λ s,
  (Go (), mkSend (base_obj s) (effects s ++ [e])).
Definition set_base (b : option Obj) : S unit := λ s,
  (Go (), mkSend b (effects s)).
Definition get_base : S (option Obj) := λ s, (Go (base_obj s), s).
Definition answered {A} (site : string) (x : option A) : S A :=
  match x with
  | Some a => mret a
  | None => raises site
  end.
Definition check (site : string) (ok : bool) : S unit :=
  if ok then mret () else raises site.

(** [# determine "base" object, if any] *)
Definition find_base (e : send_env) : S unit :=
  let type := as1_type e in
  if one_of type CRUD_VERBS then
    let i := as1_inner e in
    (if equals type "undo" && equals (base_obj_type i) "block" && falsy (base_id i) then
       (* undo of block without id: Object(our_as1=base_obj_as1) *)
       set_base (Some (mkObj None [] (base_obj_type i)))
     else if falsy (base_id i) then returns false
     else
       b ← answered "load" (load_base e);
       set_base b) ;;
    (if negb (one_of type ["delete"; "undo"]) then
       b ← get_base;
       (* a missing base_obj is replaced; base_obj.our_as1 = base_obj_as1 *)
       match b with
       | None => set_base (Some (mkObj (base_id i) [] (base_obj_type i)))
       | Some b => set_base (Some (mkObj (obj_id b) (obj_copies b) (base_obj_type i)))
       end
     else mret ())
  else if equals type "stop-following" then
    check "assert from_user" (from_user e) ;;
    check "assert to_id" (negb (falsy (to_id e))) ;;
    match follower_follow e with
    | None => returns false
    | Some b => set_base b
    end
  else mret ().

(** What the commit stage needs from the earlier stages. *)
Record commit_ctx := mkCtx {
  ctx_did : string;
  ctx_verb : option string;       (* verb, with stop-following turned to delete *)
  ctx_record : json;              (* the converted record *)
}.

(** The unbound-variable reads: [base_id] and [base_obj_type] are only
    assigned when the type is a CRUD verb. *)
Definition bound (e : send_env) (name : string) : S unit :=
  check ("UnboundLocalError: " +:+ name) (one_of (as1_type e) CRUD_VERBS).

Definition block_deletes (blocked : string) (records : list (string * string))
  : list Write :=
  (λ r, mkWrite DELETE (Some "app.bsky.graph.block") (Some r.2) None)
    <$> filter (λ r, r.1 = blocked) records.

(** [elif recip := as1.recipient_if_dm(obj.as1)]: a DM goes to the chat
    service; anything else goes on to the commit. *)
Definition dm_or_commit (e : send_env) (did : string) (record : json)
  : S commit_ctx :=
  match truthy_value (recipient_if_dm e) with
  | Some recip =>
      check "assert recip.startswith('did:')" (String.prefix "did:" recip) ;;
      r ← answered "send_chat" (send_chat e);
      does (SendChat recip) ;;
      returns r
  | None => mret (mkCtx did (as1_verb e) record)
  end.

(** From [# convert to Bluesky record] to just before [# write commit]. *)
Definition prepare (e : send_env) : S commit_ctx :=
  does ConvertBase ;;
  record ← answered "convert" (convert e);
  (* find user *)
  (if falsy (from_key e) then returns false else mret ()) ;;
  (* load user *)
  does GetOrCreateUser ;;
  copy ← answered "get_or_create" (user_did e);
  did ← answered "assert did" (truthy_value copy);
  does (LoadDidDoc did) ;;
  ours ← answered "load did doc" (did_pds_ours e);
  (if negb ours then returns false else mret ()) ;;
  (* load repo *)
  status ← answered "storage.load_repo" (repo_status e);
  let verb := as1_verb e in
  (* delete actor => deactivate repo *)
  (if equals verb "delete" then
     bound e "base_id" ;;
     atp ← answered "translate_user_id" (atp_base_id e);
     if String.eqb atp did then
       check "storage.deactivate_repo" (deactivate_ok e) ;;
       does (DeactivateRepo did) ;;
       check "remove_dns" (remove_dns_ok e) ;;
       does (RemoveDns (user_handle e)) ;;
       returns true
     else mret ()
   else mret ()) ;;
  (if negb (Py.truthy record) && negb (one_of verb ["delete"; "undo"])
   then returns false else mret ()) ;;
  (if negb (falsy status) then returns false else mret ()) ;;
  if equals verb "flag" then
    r ← answered "create_report" (create_report e);
    does CreateReport ;;
    returns r
  else if equals verb "stop-following" then
    b ← get_base;
    check "assert base_obj.type == 'follow'"
          (match b with Some b => equals (obj_type b) "follow" | None => false end) ;;
    mret (mkCtx did (Some "delete") record)
  else if equals verb "undo" then
    bound e "base_obj_type" ;;
    if equals (base_obj_type (as1_inner e)) "block" then
      match truthy_value (blocked_did (as1_inner e)) with
      | None => returns false
      | Some blocked =>
          records ← answered "list_records" (block_records e);
          match commit e with
          | Committed =>
              does (Commit did (block_deletes blocked records)) ;;
              returns true
          | _ => raises "storage.commit"
          end
      end
    else dm_or_commit e did record
  else dm_or_commit e did record.

(** [f'{x}'] of a value that may be [None] *)
Definition fmt (x : option string) : string := default "None" x.

(** [type = record['$type']], checked against the lexicons; [None] for a
    falsy record. *)
Definition record_type (e : send_env) (record : json) : S (option string) :=
  if Py.truthy record then
    match record with
    | JObj f =>
        match Py.assoc "$type" f with
        | Some (JStr t) =>
            lex ← answered "LEXICONS[type]" (lexicon_type e t);
            check "assert lex_type == 'record'" (String.eqb lex "record") ;;
            mret (Some t)
        | _ => raises "record['$type']"
        end
    | _ => raises "record['$type']"
    end
  else mret None.

(** [# only modify objects that we've bridged]: the collection and rkey of
    the write, or an early [return False]. *)
Definition bridged_copy (e : send_env) (ctx : commit_ctx) (type : option string)
  : S (option string * option string) :=
  if one_of (ctx_verb ctx) ["update"; "delete"; "undo"] then
    b ← get_base;
    match b with
    | None => returns false
    | Some b =>
        match truthy_value (Models.get_copy LABEL (obj_copies b)) with
        | None => returns false
        | Some copy =>
            '(copy_did, coll, rk) ← answered "parse_at_uri" (parse_at_uri e copy);
            if negb (String.eqb copy_did (ctx_did ctx))
               || match truthy_value type with
                  | Some t => negb (String.eqb coll t)
                  | None => false
                  end
            then returns false
            else mret (Some coll, Some rk)
        end
    end
  else mret (type, None).

(** The [match verb] that builds the first write. *)
Definition first_write (e : send_env) (ctx : commit_ctx) (type : option string)
           (coll rk : option string) : Write :=
  if equals (ctx_verb ctx) "update" then
    mkWrite UPDATE coll rk (Some (ctx_record ctx))
  else if one_of (ctx_verb ctx) ["delete"; "undo"] then
    mkWrite DELETE coll rk None
  else
    mkWrite CREATE coll
            (Some (if equals type "app.bsky.actor.profile" then "self" else next_tid e))
            (Some (ctx_record ctx)).

(** From [# write commit] to the end, [write()] included. *)
Definition write_commit (e : send_env) (ctx : commit_ctx) : S bool :=
  type ← record_type e (ctx_record ctx);
  '(coll, rk) ← bridged_copy e ctx type;
  let w := first_write e ctx type coll rk in
  match commit e with
  | CommitValueError | CommitInactiveRepo => returns false
  | CommitOtherError => raises "storage.commit"
  | Committed =>
      does (Commit (ctx_did ctx) (w :: send_derived_writes e)) ;;
      (if negb (one_of (ctx_verb ctx) ["delete"; "undo"]) then
         b ← get_base;
         match b with
         | None => raises "base_obj.add"
         | Some b =>
             let uri := "at://" +:+ ctx_did ctx +:+ "/" +:+ fmt type
                        +:+ "/" +:+ fmt (rkey w) in
             set_base (Some (mkObj (obj_id b)
                                   (Models.add (obj_copies b) (mkTarget uri LABEL))
                                   (obj_type b))) ;;
             check "base_obj.put" (put_ok e) ;;
             does PutBase
         end
       else mret ()) ;;
      returns true
  end.

(** Everything before [# write commit]. *)
Definition reach_commit (e : send_env) : S commit_ctx :=
  (if negb (pds_url_ours e) then returns false else mret ()) ;;
  find_base e ;;
  prepare e.

Definition send_body (e : send_env) : S bool :=
  ctx ← reach_commit e;
  write_commit e ctx.

(** [ATProto.send(obj, pds_url, from_user)]: what it returned or raised,
    with [base_obj] and the calls made when it left. *)
Definition send (e : send_env) (obj : Obj) : result bool * send_state :=
  match send_body e (mkSend (Some obj) []) with
  | (Exit r, st) => (r, st)
  | (Go b, st) => (Return b, st)
  end.


(** The object [send] takes as [base_obj], as [find_base] leaves it. *)
Definition base_of (e : send_env) (obj : Obj) : option Obj :=
  base_obj (find_base e (mkSend (Some obj) [])).2.

(** The sends that write a record other than a deletion: not a delete,
    undo, flag or stop-following, and not a DM. *)
Definition adds_copy (e : send_env) : bool :=
  negb (one_of (as1_verb e) ["delete"; "undo"; "flag"; "stop-following"])
  && falsy (recipient_if_dm e).



End ATProto.

(** ** Concrete inputs *)

Module Cases.

(** Pubkeys and npub URIs of the hub's tests. *)
Definition BOB_PUBKEY : string :=
  "be7e55eb264470903bbcf1d02ea417b5e1d2cd788cd6155f8e0b361a2bea76ed".
Definition BOB_NPUB_URI : string :=
  "nostr:npub1hel9t6exg3cfqwau78gzafqhkhsa9ntc3ntp2huwpvmp52l2wmksdr85t7".
Definition EVE_PUBKEY : string :=
  "bd19ea0297facfe0e766f08995a0a92ca1ea52bf5f664fe2487f7894a7b0a7ff".
Definition EVE_NPUB_URI : string :=
  "nostr:npub1h5v75q5hlt87pemx7zyetg9f9js7554ltanylcjg0aufffas5lls5m6tcf".
Definition FRANK_PUBKEY : string :=
  "2032dba5fdf02ba4223381075da4ba7dc6cf976aacb2ca658f13e00d834a0e29".

(** Oracles for signed, well-encoded events. *)
Definition verify_ok : json → option bool := λ _, Some true.
Definition uri_for_note : json → option string := λ _, Some "nostr:note1qqq".
Definition npub_of : string → json → option string := λ _ pubkey,
  match pubkey with
  | JStr s => if String.eqb s EVE_PUBKEY then Some EVE_NPUB_URI
              else if String.eqb s BOB_PUBKEY then Some BOB_NPUB_URI
              else None
  | _ => None
  end.
Definition DELETE_TASK_DELAY : Z := 120.
Definition SUPPORTED_KINDS : gset Z := {[0; 1; 3; 5; 6; 7]}.
Definition token : nat → string := λ _, "sub123".

(** Eve and Frank are both bridged into Nostr by the bridge; Bob is a
    native Nostr user.  Eve's shadow replies to Frank's shadow. *)
Definition nostr_pubkeys : gset string := {[BOB_PUBKEY]}.
Definition bridged_pubkeys : gset string := {[EVE_PUBKEY; FRANK_PUBKEY]}.

Definition reply_between_bridged : json :=
  JObj [("id", JStr "4b1d"); ("pubkey", JStr EVE_PUBKEY); ("kind", JNum 1);
        ("created_at", JNum 678);
        ("tags", JArr [JArr [JStr "p"; JStr FRANK_PUBKEY]]);
        ("content", JStr "Hello Frank!"); ("sig", JStr "9f3c")].

(** A note by Bob that mentions Eve, as in the hub's reconnect test. *)
Definition note_by_bob : json :=
  JObj [("id", JStr "77aa"); ("pubkey", JStr BOB_PUBKEY); ("kind", JNum 1);
        ("created_at", JNum 678);
        ("tags", JArr [JArr [JStr "p"; JStr EVE_PUBKEY]]);
        ("content", JStr "Hello Alice!"); ("sig", JStr "51c0")].

Definition task_for_bob : NostrHub.task :=
  NostrHub.mkTask "receive" "nostr:note1qqq" "nostr" BOB_NPUB_URI note_by_bob None.

Definition closed_after_event : list NostrHub.ws_event :=
  [ NostrHub.Frame (JArr [JStr "EVENT"; JStr "sub123"; note_by_bob]);
    NostrHub.Frame (JArr [JStr "CLOSED"; JStr "sub123"; JStr "shutting down"]) ].

(** [Nostr.send] of a profile that already has a Nostr copy, as in the
    send tests. *)
Definition prefix_of : json → option string := λ _, Some "nprofile".
Definition uri_of : string → json → option string := λ prefix id,
  match id with
  | JStr s => Some ("nostr:" +:+ prefix +:+ s)
  | _ => None
  end.
Definition profile_copies : list Target :=
  [ mkTarget "nostr:nprofile123" "nostr";
    mkTarget "at://did:plc:alice/app.bsky.actor.profile/self" "atproto" ].
Definition profile_event : list (string * json) :=
  [ ("kind", JNum 0); ("id", JStr "13d6"); ("pubkey", JStr EVE_PUBKEY);
    ("content", JStr "{}"); ("created_at", JNum 1641092645);
    ("tags", JArr []); ("sig", JStr "43bf") ].
Definition profile_after : Nostr.obj_after :=
  Nostr.mkAfter
    [ mkTarget "at://did:plc:alice/app.bsky.actor.profile/self" "atproto";
      mkTarget "nostr:nprofile13d6" "nostr" ] true.

(** The datastore of the NIP-05 tests: a user of the [fake] protocol
    who is bridged into Nostr. *)
Definition alice : Nostr.user :=
  Nostr.mkUser "fake:alice" (Some "fake:handle:alice") (Some "fake-handle-alice")
               true [mkTarget EVE_NPUB_URI "nostr"].
Definition users_of : string → list Nostr.user := λ proto,
  if String.eqb proto "fake" then [alice] else [].
Definition uri_to_id : string → option string := λ uri,
  if String.eqb uri EVE_NPUB_URI then Some EVE_PUBKEY else None.

(** A user of another protocol with a profile and no ATProto copy yet,
    and the same user once the shadow repo exists and is active. *)
Definition alice_new : ATProto.state :=
  ATProto.mkState false [mkTarget EVE_NPUB_URI "nostr"]
                  (Some (ATProto.mkProfile [] true)) ∅ [].
Definition alice_bridged : ATProto.state :=
  ATProto.mkState false
                  [mkTarget EVE_NPUB_URI "nostr"; mkTarget "did:plc:alice" "atproto"]
                  (Some (ATProto.mkProfile
                           [mkTarget "at://did:plc:alice/app.bsky.actor.profile/self"
                                     "atproto"] true))
                  {[ "did:plc:alice" := None ]}
                  [].

Definition profile_record : json :=
  JObj [("$type", JStr "app.bsky.actor.profile"); ("displayName", JStr "Alice")].

(** Every outside call goes through. *)
Definition all_ok : ATProto.oracle :=
  ATProto.mkOracle (Some "alice.fa.brid.gy") true true true (Some "did:plc:alice")
                   true true (Some (Some (ATProto.mkProfile [] true))) true
                   (Some None) true (Some (Some profile_record)) [] true true true.
(** The PLC directory is down. *)
Definition plc_down : ATProto.oracle :=
  ATProto.mkOracle (Some "alice.fa.brid.gy") true true true None
                   true true (Some (Some (ATProto.mkProfile [] true))) true
                   (Some None) true (Some (Some profile_record)) [] true true true.

(** [ATProto.send]: Alice, a [fake] user bridged to [did:plc:alice],
    and a post of hers that was bridged before. *)
Definition post_record : json :=
  JObj [("$type", JStr "app.bsky.feed.post"); ("text", JStr "hello")].
Definition post_copy : string := "at://did:plc:alice/app.bsky.feed.post/3kpost".
Definition stored_post : ATProto.Obj :=
  ATProto.mkObj (Some "fake:post") [mkTarget post_copy "atproto"] (Some "note").
(** The same post, but with a copy that lives in somebody else's repo. *)
Definition foreign_post : ATProto.Obj :=
  ATProto.mkObj (Some "fake:post")
                [mkTarget "at://did:plc:other/app.bsky.feed.post/3kpost" "atproto"]
                (Some "note").
Definition parse_at_uri : string → option (string * string * string) := λ uri,
  if String.eqb uri post_copy
  then Some ("did:plc:alice", "app.bsky.feed.post", "3kpost")
  else if String.prefix "at://" uri
  then Some ("did:plc:other", "app.bsky.feed.post", "3kpost")
  else None.

(** A create of a new post. *)
Definition create_post : ATProto.send_env :=
  {| ATProto.pds_url_ours := true;
     ATProto.as1_type := Some "post";
     ATProto.as1_verb := Some "post";
     ATProto.as1_inner := ATProto.mkInner (Some "fake:post") (Some "note") None;
     ATProto.load_base := Some None;
     ATProto.from_user := true;
     ATProto.to_id := None;
     ATProto.follower_follow := None;
     ATProto.convert := Some post_record;
     ATProto.from_key := Some "fake:alice";
     ATProto.user_did := Some (Some "did:plc:alice");
     ATProto.did_pds_ours := Some true;
     ATProto.repo_status := Some None;
     ATProto.atp_base_id := Some "fake:post";
     ATProto.user_handle := "alice.fa.brid.gy";
     ATProto.deactivate_ok := true;
     ATProto.remove_dns_ok := true;
     ATProto.create_report := None;
     ATProto.block_records := None;
     ATProto.recipient_if_dm := None;
     ATProto.send_chat := None;
     ATProto.lexicon_type := λ _, Some "record";
     ATProto.parse_at_uri := parse_at_uri;
     ATProto.next_tid := "3knew";
     ATProto.send_derived_writes := [];
     ATProto.commit := ATProto.Committed;
     ATProto.put_ok := true |}.
Definition create_activity : ATProto.Obj :=
  ATProto.mkObj (Some "fake:create") [] (Some "post").

(** A delete or update of [base], with the given commit answer. *)
Definition crud (verb : string) (base : ATProto.Obj) (answer : ATProto.commit_answer)
  : ATProto.send_env :=
  {| ATProto.pds_url_ours := true;
     ATProto.as1_type := Some verb;
     ATProto.as1_verb := Some verb;
     ATProto.as1_inner := ATProto.mkInner (Some "fake:post") (Some "note") None;
     ATProto.load_base := Some (Some base);
     ATProto.from_user := true;
     ATProto.to_id := None;
     ATProto.follower_follow := None;
     ATProto.convert := Some post_record;
     ATProto.from_key := Some "fake:alice";
     ATProto.user_did := Some (Some "did:plc:alice");
     ATProto.did_pds_ours := Some true;
     ATProto.repo_status := Some None;
     ATProto.atp_base_id := Some "fake:post";
     ATProto.user_handle := "alice.fa.brid.gy";
     ATProto.deactivate_ok := true;
     ATProto.remove_dns_ok := true;
     ATProto.create_report := None;
     ATProto.block_records := None;
     ATProto.recipient_if_dm := None;
     ATProto.send_chat := None;
     ATProto.lexicon_type := λ _, Some "record";
     ATProto.parse_at_uri := parse_at_uri;
     ATProto.next_tid := "3knew";
     ATProto.send_derived_writes := [];
     ATProto.commit := answer;
     ATProto.put_ok := true |}.
Definition delete_post : ATProto.send_env := crud "delete" stored_post ATProto.Committed.
Definition delete_activity : ATProto.Obj :=
  ATProto.mkObj (Some "fake:delete") [] (Some "delete").
Definition update_foreign : ATProto.send_env :=
  crud "update" foreign_post ATProto.Committed.
Definition update_gone : ATProto.send_env :=
  crud "update" stored_post ATProto.CommitValueError.
(** An update of a post whose stored copy is not an [at://] URI. *)
Definition odd_post : ATProto.Obj :=
  ATProto.mkObj (Some "fake:post") [mkTarget "https://bsky.app/profile/alice" "atproto"]
                (Some "note").
Definition update_unparsed : ATProto.send_env :=
  crud "update" odd_post ATProto.CommitValueError.
Definition update_activity : ATProto.Obj :=
  ATProto.mkObj (Some "fake:update") [] (Some "update").
(** The lookups of a send by Alice that reaches the commit stage. *)
Definition lookups_made : list ATProto.effect :=
  [ATProto.ConvertBase; ATProto.GetOrCreateUser; ATProto.LoadDidDoc "did:plc:alice"].

(** An undo of a block that has no id, as [dms.unblock()] sends it. *)
Definition block_record : json :=
  JObj [("$type", JStr "app.bsky.graph.block"); ("subject", JStr "did:plc:bob")].
Definition undo_block : ATProto.send_env :=
  {| ATProto.pds_url_ours := true;
     ATProto.as1_type := Some "undo";
     ATProto.as1_verb := Some "undo";
     ATProto.as1_inner := ATProto.mkInner None (Some "block") (Some "did:plc:bob");
     ATProto.load_base := Some None;
     ATProto.from_user := true;
     ATProto.to_id := None;
     ATProto.follower_follow := None;
     ATProto.convert := Some block_record;
     ATProto.from_key := Some "fake:alice";
     ATProto.user_did := Some (Some "did:plc:alice");
     ATProto.did_pds_ours := Some true;
     ATProto.repo_status := Some None;
     ATProto.atp_base_id := None;
     ATProto.user_handle := "alice.fa.brid.gy";
     ATProto.deactivate_ok := true;
     ATProto.remove_dns_ok := true;
     ATProto.create_report := None;
     ATProto.block_records :=
       Some [("did:plc:bob", "3kblock"); ("did:plc:carol", "3kother")];
     ATProto.recipient_if_dm := None;
     ATProto.send_chat := None;
     ATProto.lexicon_type := λ _, Some "record";
     ATProto.parse_at_uri := parse_at_uri;
     ATProto.next_tid := "3knew";
     ATProto.send_derived_writes := [];
     ATProto.commit := ATProto.Committed;
     ATProto.put_ok := true |}.
Definition undo_activity : ATProto.Obj :=
  ATProto.mkObj (Some "fake:undo") [] (Some "undo").

End Cases.

(** * More of the code *)

(** ** [nostr_hub.py]: the relay list and the user loader *)

Module Relays.

(** [subscribed_relays] and the subscriber threads started so far, in
    order. *)
Record relays := mkRelays {
  subscribed_relays : list string;
  started : list string;
}.

(** No relay yet, as when the module is loaded. *)
Definition no_relays : relays := mkRelays [] [].

Section AddRelay.
(** [Nostr.is_blocklisted(relay)] *)
Variable is_blocklisted : string → bool.

Definition add_relay (st : relays) (relay : string) : relays :=
  if is_blocklisted relay then st
  else if bool_decide (relay ∈ subscribed_relays st) then st
  else mkRelays (subscribed_relays st ++ [relay]) (started st ++ [relay]).

(** A run of [add_relay] calls. *)
Definition add_relays (st : relays) (calls : list string) : relays :=
  foldl add_relay st calls.
End AddRelay.

End Relays.

Module Loader.

(** A stored user, as [_load_users] reads it. *)
Record user := mkUser {
  proto : string;                     (* the user's protocol class *)
  key_id : string;                    (* user.key.id() *)
  status : option string;
  enabled_protocols : list string;
  updated : Z;
  target : result (option string);    (* Nostr.target_for(user.obj) *)
  hex_pubkey : option string;         (* user.hex_pubkey(); None: it raises *)
}.

(** The module globals. *)
Record globals := mkGlobals {
  nostr_pubkeys : gset string;
  bridged_pubkeys : gset string;
  pubkeys_loaded_at : Z;
  pubkeys_initialized : bool;
  relays : Relays.relays;
}.

Section LoadUsers.
Variable is_blocklisted : string → bool.
(** granary.nostr [uri_to_id]; [None] when it raises. *)
Variable uri_to_id : string → option string.
(** [PROTOCOLS.values()]: protocol classes by name, [None] for an empty
    entry; a class can be listed under several labels. *)
Variable PROTOCOLS : list (option string).
(** The datastore, and the classes whose query (or, for [Nostr], the
    [load_multi] after it) raises: a lost ndb context, say. *)
Variable datastore : list user.
Variable fetch_fails : string → bool.

(** [Nostr.query(Nostr.status == None, Nostr.enabled_protocols != None,
    Nostr.updated > pubkeys_loaded_at)] *)
Definition new_nostr (since : Z) : list user :=
  filter (λ u, proto u = "Nostr" ∧ status u = None
               ∧ enabled_protocols u ≠ [] ∧ since < updated u) datastore.

(** [proto.query(proto.status == None, proto.enabled_protocols == 'nostr',
    proto.updated > pubkeys_loaded_at)] *)
Definition new_of (p : string) (since : Z) : list user :=
  filter (λ u, proto u = p ∧ status u = None
               ∧ "nostr" ∈ enabled_protocols u ∧ since < updated u) datastore.

(** The [for proto in PROTOCOLS.values()] loop; [None] when a query
    raised. *)
Fixpoint new_bridged (protos : list (option string)) (since : Z)
  : option (list user) :=
  match protos with
  | [] => Some []
  | None :: rest => new_bridged rest since
  | Some p :: rest =>
      if bool_decide (p ∈ ["Nostr"; "UIProtocol"]) then new_bridged rest since
      else if fetch_fails p then None
      else match new_bridged rest since with
           | Some users => Some (new_of p since ++ users)
           | None => None
           end
  end.

Definition with_nostr (g : globals) (pubkey : string) : globals :=
  mkGlobals ({[pubkey]} ∪ nostr_pubkeys g) (bridged_pubkeys g)
            (pubkeys_loaded_at g) (pubkeys_initialized g) (relays g).

Definition with_relay (g : globals) (relay : string) : globals :=
  mkGlobals (nostr_pubkeys g) (bridged_pubkeys g)
            (pubkeys_loaded_at g) (pubkeys_initialized g)
            (Relays.add_relay is_blocklisted (relays g) relay).

(** The [for user in new_nostr] loop; [None] when [uri_to_id] or
    [target_for] raised, with the globals as the loop left them. *)
Fixpoint add_nostr (g : globals) (users : list user) : option unit * globals :=
  match users with
  | [] => (Some (), g)
  | u :: rest =>
      match uri_to_id (key_id u) with
      | None => (None, g)
      | Some pubkey =>
          let g := with_nostr g pubkey in
          match target u with
          | Raise _ => (None, g)
          | Return None => add_nostr g rest
          | Return (Some t) =>
              if String.eqb t "" then add_nostr g rest
              else add_nostr (with_relay g t) rest
          end
      end
  end.

(** [user.hex_pubkey() for user in new_bridged], evaluated by
    [bridged_pubkeys.update]; [None] when one of them raised, with the
    pubkeys added before it. *)
Fixpoint add_bridged (s : gset string) (users : list user) : option unit * gset string :=
  match users with
  | [] => (Some (), s)
  | u :: rest =>
      match hex_pubkey u with
      | None => (None, s)
      | Some pubkey => add_bridged ({[pubkey]} ∪ s) rest
      end
  end.

Definition with_bridged (g : globals) (b : gset string) : globals :=
  mkGlobals (nostr_pubkeys g) b (pubkeys_loaded_at g)
            (pubkeys_initialized g) (relays g).

(** [_load_users] at time [now]; the [except BaseException] reports the
    exception and leaves the globals as they are by then. *)
Definition _load_users (now : Z) (g : globals) : globals :=
  let since := pubkeys_loaded_at g in
  if fetch_fails "Nostr" then g else
  match add_nostr g (new_nostr since) with
  | (None, g) => g
  | (Some _, g) =>
      match new_bridged PROTOCOLS since with
      | None => g
      | Some users =>
          match add_bridged (bridged_pubkeys g) users with
          | (None, b) => with_bridged g b
          | (Some _, b) =>
              mkGlobals (nostr_pubkeys g) b now true (relays g)
          end
      end
  end.
End LoadUsers.

(** Runs of [_load_users], one for each time the timer fires. *)
Definition runs (is_blocklisted : string → bool) (uri_to_id : string → option string)
           (PROTOCOLS : list (option string)) (datastore : list user)
           (fetch_fails : string → bool) (nows : list Z) (g : globals) : globals :=
  foldl (λ g now, _load_users is_blocklisted uri_to_id PROTOCOLS datastore
                              fetch_fails now g) g nows.

(** A user that the queries of [_load_users] select after [since]. *)
Definition native (since : Z) (u : user) : Prop :=
  proto u = "Nostr" ∧ status u = None ∧ enabled_protocols u ≠ []
  ∧ since < updated u.

Definition bridged (PROTOCOLS : list (option string)) (since : Z) (u : user) : Prop :=
  Some (proto u) ∈ PROTOCOLS ∧ (proto u ∉ ["Nostr"; "UIProtocol"])
  ∧ status u = None ∧ "nostr" ∈ enabled_protocols u ∧ since < updated u.

(** What a run of [_load_users] keeps: pubkeys and relays are only added. *)
Definition grows (g g' : globals) : Prop :=
  nostr_pubkeys g ⊆ nostr_pubkeys g'
  ∧ bridged_pubkeys g ⊆ bridged_pubkeys g'
  ∧ Relays.subscribed_relays (relays g) `prefix_of` Relays.subscribed_relays (relays g').

End Loader.

(** ** [nostr_hub.py]: reading the log of [subscribe] *)

Module HubLog.

(** The tasks [subscribe] enqueued, in order. *)
Definition tasks (log : list NostrHub.action) : list NostrHub.task :=
  omap (λ a, match a with NostrHub.CreateTask t => Some t | _ => None end) log.

(** No run of the loader adds a pubkey that is not in [np] or [bp] yet. *)
Definition quiet (np bp : gset string) (evs : list NostrHub.ws_event) : Prop :=
  Forall (λ ev, match ev with
                | NostrHub.Loaded nn nb => nn ⊆ np ∧ nb ⊆ bp
                | _ => True
                end) evs.

(** A tag of the usual shape: a list that starts with two strings. *)
Definition plain_tag (tag : json) : Prop :=
  ∃ k v more, tag = JArr (JStr k :: JStr v :: more).

(** [event] has a tag whose first item is ['p'] and whose second item is
    the string [m]. *)
Definition mentions (event : json) (m : string) : Prop :=
  ∃ f tags tag_list tag t0,
    event = JObj f ∧ Py.assoc "tags" f = Some tags
    ∧ Py.iterate tags = Some tag_list ∧ tag ∈ tag_list
    ∧ Py.subscript tag 0 = Some t0 ∧ Py.eq_str t0 "p" = true
    ∧ Py.subscript tag 1 = Some (JStr m).

(** The author of [event] is the string [pk]. *)
Definition author (event : json) (pk : string) : Prop :=
  ∃ f, event = JObj f ∧ Py.get "pubkey" f = JStr pk.


(** [resp] is an EVENT frame that carries [event]. *)
Definition event_frame (resp event : json) : Prop :=
  ∃ kind, Py.subscript resp 0 = Some kind ∧ Py.eq_str kind "EVENT" = true
          ∧ Py.subscript resp 2 = Some event.

(** The counts that [subscribe] took are those of the sets now. *)
Definition settled (st : NostrHub.sub_state) : Prop :=
  NostrHub.nostr_pubkeys_count st = size (NostrHub.nostr_pubkeys st)
  ∧ NostrHub.bridged_pubkeys_count st = size (NostrHub.bridged_pubkeys st).

Section FromFrames.
Variable verify : json → option bool.
Variable uri_for : json → option string.
Variable id_to_uri : string → json → option string.
Variable DELETE_TASK_DELAY : Z.

(** [t] is the task of an EVENT frame of [evs] that [handle] accepted,
    under pubkey sets that include [np] and [bp]. *)
Definition from_frames (np bp : gset string) (evs : list NostrHub.ws_event)
           (t : NostrHub.task) : Prop :=
  ∃ resp event np' bp',
    NostrHub.Frame resp ∈ evs ∧ event_frame resp event
    ∧ np ⊆ np' ∧ bp ⊆ bp'
    ∧ NostrHub.handle verify uri_for id_to_uri DELETE_TASK_DELAY np' bp' event
      = NostrHub.Enqueued t.
End FromFrames.

End HubLog.

(** ** [nostr.py]: [Nostr.target_for] and [Nostr.create_for] *)

Module NostrClass.

(** [len(v)]; [None] is the [TypeError] of a value without length. *)
Definition len (v : json) : option nat :=
  match v with
  | JArr l => Some (length l)
  | JStr s => Some (String.length s)
  | JObj f => Some (length f)
  | _ => None
  end.

(** [tag[0] == 'r' and (len(tag) == 2 or tag[2] == 'write')]; [None] when
    a subscript or [len] raises. *)
Definition write_relay (tag : json) : option bool :=
  match Py.subscript tag 0 with
  | None => None
  | Some t0 =>
      if Py.eq_str t0 "r" then
        match len tag with
        | None => None
        | Some n =>
            if (n =? 2)%nat then Some true
            else match Py.subscript tag 2 with
                 | None => None
                 | Some t2 => Some (Py.eq_str t2 "write")
                 end
        end
      else Some false
  end.

(** The [for tag in ...] loop of [target_for]: [tag[1]] of the first write
    relay, [None] when the loop ends without one. *)
Fixpoint first_write_relay (tags : list json) : result (option json) :=
  match tags with
  | [] => Return None
  | tag :: rest =>
      match write_relay tag with
      | None => Raise "tag"
      | Some true =>
          match Py.subscript tag 1 with
          | Some url => Return (Some url)
          | None => Raise "tag[1]"
          end
      | Some false => first_write_relay rest
      end
  end.

Section TargetFor.
(** [as1.get_owner(obj.as1)] of a truthy [obj]; [None] when [obj] is
    falsy or has no owner. *)
Variable owner : option string.
(** [user.relays.get().nostr] of [Nostr.get_or_create(id,
    allow_opt_out=True)]; [None] when the user, its [relays] key or the
    stored relay list is missing. *)
Variable relays_of : string → option (list (string * json)).

Definition target_for : result (option json) :=
  match ATProto.truthy_value owner with
  | Some id =>
      if String.prefix "nostr:npub" id then
        match relays_of id with
        | Some [] | None => Return None      (* if relays.nostr *)
        | Some event =>
            (* relays.nostr.get('tags', []) *)
            let tags := match Py.assoc "tags" event with
                        | Some v => v
                        | None => JArr []
                        end in
            match Py.iterate tags with
            | Some tag_list => first_write_relay tag_list
            | None => Raise "for tag in tags"
            end
        end
      else Return None
  | None => Return None
  end.
End TargetFor.

(** *** [Nostr.create_for] *)

(** [user.obj], as far as [create_for] and [send] read and write it. *)
Record profile := mkProfile {
  profile_copies : list Target;
  has_as1 : bool;                 (* user.obj.as1 is truthy *)
}.

Inductive effect : Type :=
| PutUser                (* user.put() *)
| ReloadProfile          (* user.reload_profile() *)
| PutProfile.            (* obj.put() at the end of send *)

Record state := mkState {
  is_nostr : bool;                (* isinstance(user, Nostr) *)
  user_copies : list Target;
  user_obj : option profile;
  log : list effect;
}.

(** What each outside call of one [create_for] run answers. *)
Record oracle := mkOracle {
  npub : option string;           (* user.npub(); None: raised *)
  put_user_ok : bool;
  reload_profile : option profile;
                                  (* user.reload_profile(): user.obj afterwards,
                                     None when it raised; user.obj is set
                                     when it is called and stays set *)
  hex_pubkey : string;            (* from_user.hex_pubkey() in send *)
  converted : option (list (string * json));
                                  (* to_cls.convert(user.obj, from_user=user) *)
  relay : Nostr.relay_answer;
  put_profile_ok : bool;          (* obj.put() at the end of send *)
}.

Section CreateFor.
Variable bech32_prefix_for : json → option string.
Variable id_to_uri : string → json → option string.

(** [cls.send(user.obj, cls.DEFAULT_TARGET, from_user=user)]; the value
    that [send] returns is dropped. *)
Definition send_profile (o : oracle) (p : profile) (s : state)
  : result unit * state :=
  let '(r, after) := Nostr.send bech32_prefix_for id_to_uri (profile_copies p)
                                (Some (hex_pubkey o)) (converted o) (relay o)
                                (put_profile_ok o) in
  (match r with
   | Return _ => Return ()
   | Raise site => Raise site
   end,
   mkState (is_nostr s) (user_copies s)
           (Some (mkProfile (Nostr.copies_after after) (has_as1 p)))
           (log s ++ if Nostr.stored after then [PutProfile] else [])).

Definition create_for (o : oracle) (s : state) : result unit * state :=
  if is_nostr s then (Raise "assert not isinstance(user, cls)", s) else
  match ATProto.truthy_value (Models.get_copy Nostr.LABEL (user_copies s)) with
  | Some _ => (Return (), s)
  | None =>
      match npub o with
      | None => (Raise "user.npub", s)
      | Some n =>
          let copies := Models.add (user_copies s)
                                   (mkTarget ("nostr:" +:+ n) "nostr") in
          if negb (put_user_ok o)
          then (Raise "user.put", mkState (is_nostr s) copies (user_obj s) (log s))
          else
            let s1 := mkState (is_nostr s) copies (user_obj s) (log s ++ [PutUser]) in
            (* create Nostr profile (kind 0 event) if necessary *)
            match user_obj s with
            | None => (Raise "user.obj.as1", s1)
            | Some p =>
                if negb (ATProto.falsy (Models.get_copy Nostr.LABEL (profile_copies p)))
                then (Return (), s1)
                else if has_as1 p then send_profile o p s1
                else
                  match reload_profile o with
                  | None => (Raise "user.reload_profile", s1)
                  | Some obj =>
                      send_profile o obj
                        (mkState (is_nostr s) copies (Some obj)
                                 (log s1 ++ [ReloadProfile]))
                  end
            end
      end
  end.
End CreateFor.

(** The stored user as the NIP-05 endpoint reads it, with the copies that
    [create_for] left. *)
Definition as_user (key_id handle : string) (enabled : bool) (s : state) : Nostr.user :=
  Nostr.mkUser key_id (Some handle) None enabled (user_copies s).

End NostrClass.

(** ** [atproto.py]: reading the calls of [send] *)

Module SendLog.

(** The lookups of one [send], as far as it got: the conversion of the
    base object, the sender, and the DID document of the sender's
    ATProto copy [did]. *)
Definition lookups (did : string) (l : list ATProto.effect) : Prop :=
  l `prefix_of` [ATProto.ConvertBase; ATProto.GetOrCreateUser; ATProto.LoadDidDoc did].


(** The deactivation of the user's repo, finished or not. *)
Definition deactivation (l : list ATProto.effect) : Prop :=
  (∃ did, l = [ATProto.DeactivateRepo did])
  ∨ (∃ did handle, l = [ATProto.DeactivateRepo did; ATProto.RemoveDns handle]).

(** The first write of a commit changes the record that the ATProto copy
    of [base] names, in the repo of [did]: an update of it, or a delete
    that carries no record. *)
Definition changes_copy (e : ATProto.send_env) (did : string)
           (base : option ATProto.Obj) (w : ATProto.Write) : Prop :=
  ∃ b copy coll rk,
    base = Some b
    ∧ Models.get_copy ATProto.LABEL (ATProto.obj_copies b) = Some copy
    ∧ ATProto.parse_at_uri e copy = Some (did, coll, rk)
    ∧ ATProto.collection w = Some coll ∧ ATProto.rkey w = Some rk
    ∧ (ATProto.action w = ATProto.UPDATE
       ∨ (ATProto.action w = ATProto.DELETE ∧ ATProto.record w = None)).

(** The commit of an undo of a block. *)
Definition unblocks (e : ATProto.send_env) (writes : list ATProto.Write) : Prop :=
  ∃ blocked records,
    ATProto.as1_verb e = Some "undo"
    ∧ ATProto.blocked_did (ATProto.as1_inner e) = Some blocked
    ∧ ATProto.block_records e = Some records
    ∧ writes = ATProto.block_deletes blocked records.

(** The first commit of a call log: the calls before it, its DID and its
    writes. *)
Fixpoint first_commit (l : list ATProto.effect)
  : option (list ATProto.effect * string * list ATProto.Write) :=
  match l with
  | [] => None
  | ATProto.Commit did writes :: _ => Some ([], did, writes)
  | e :: rest =>
      match first_commit rest with
      | Some (before, did, writes) => Some (e :: before, did, writes)
      | None => None
      end
  end.

End SendLog.

(** ** [atproto.py]: [set_dns] and [remove_dns] *)

Module Dns.

Definition DNS_TTL : Z := 10800.

(** A resource record set of the zone. *)
Record rrset := mkRrset {
  name : string;
  record_type : string;
  ttl : Z;
  rrdatas : list string;
}.

Global Instance rrset_eq_dec : EqDecision rrset.
Proof. solve_decision. Defined.

(** The managed zone [DNS_ZONE]: its record sets. *)
Abbreviation zone := (list rrset).

(** The double quote of [f'"did={did}"']. *)
Definition quote : string := String (Ascii.ascii_of_nat 34) EmptyString.

(** [f'_atproto.{handle}.'] and [f'"did={did}"'] *)
Definition name_of (handle : string) : string := "_atproto." +:+ handle +:+ ".".
Definition val_of (did : string) : string := quote +:+ "did=" +:+ did +:+ quote.

(** [resourceRecordSets().list(type='TXT', name=name)] *)
Definition list_txt (z : zone) (n : string) : list rrset :=
  filter (λ r, name r = n ∧ record_type r = "TXT") z.

Section Dns.
Variable DEBUG : bool.
(** [util.domain_or_parent_in(handle, ids.ATPROTO_HANDLE_DOMAINS)] *)
Variable in_handle_domains : string → bool.
(** Whether the list request and a [changes.create()] go through. *)
Variable list_ok : bool.
Variable create_ok : bool.

(** A created change set with deletions only: the record sets leave the
    zone. *)
Definition delete_all (z : zone) (dels : list rrset) : zone :=
  filter (λ r, r ∉ dels) z.

Definition remove_dns (handle : string) (z : zone) : result unit * zone :=
  if DEBUG then (Return (), z) else
  if negb list_ok then (Raise "resourceRecordSets().list", z) else
  match list_txt z (name_of handle) with
  | [] => (Return (), z)
  | rrsets =>
      if create_ok then (Return (), delete_all z rrsets)
      else (Raise "changes.create", z)
  end.

Definition set_dns (handle did : string) (z : zone) : result unit * zone :=
  if DEBUG then (Return (), z) else
  if in_handle_domains handle then (Return (), z) else
  match remove_dns handle z with
  | (Raise site, z) => (Raise site, z)
  | (Return _, z) =>
      if create_ok
      then (Return (), z ++ [mkRrset (name_of handle) "TXT" DNS_TTL [val_of did]])
      else (Raise "changes.create", z)
  end.
End Dns.

End Dns.

(** ** [atproto.py]: [ATProto.set_username] *)

Module Username.

(** The [AtpRepo] of the user's DID. *)
Record repo := mkRepo {
  status : option string;
  handle : option string;
}.

Inductive effect : Type :=
| UpdatePlc (did handle : string)       (* did.update_plc *)
| StoreRepo (did handle : string)       (* storage.store_repo, with repo.handle set *)
| WriteIdentity (did handle : string)   (* storage.write_event(type='identity') *)
| LoadDidDoc (did : string).            (* to_cls.load(copy_did, did_doc=True, remote=True) *)

(** What [set_username] reads and what each outside call answers. *)
Record env := mkEnv {
  is_enabled : bool;              (* user.is_enabled(ATProto) *)
  copy : option string;           (* user.get_copy(ATProto) *)
  load_repo : string → option repo;
                                  (* storage.load_repo(copy_did); None: no repo *)
  resolve_handle : string → result (option string);
                                  (* did.resolve_handle(username) *)
  update_plc_ok : bool;
  store_repo_ok : bool;
  write_event_ok : bool;
  load_ok : bool;
}.

(** [username.removeprefix('@')] *)
Definition removeprefix_at (s : string) : string :=
  match s with
  | String c rest => if String.eqb (String c EmptyString) "@" then rest else s
  | EmptyString => s
  end.

(** The answer ([None] when the function ends without [return]) and the
    calls made. *)
Definition set_username (e : env) (username : string)
  : result (option bool) * list effect :=
  if negb (is_enabled e) then (Raise "ValueError", []) else
  let username := removeprefix_at username in
  (* there is no repo without a DID *)
  match copy e ≫= load_repo e with
  | None => (Raise "assert repo", [])
  | Some repo =>
      if negb (ATProto.falsy (status repo)) then (Return (Some false), [])
      else if bool_decide (Some username = handle repo) then (Return (Some true), [])
      else
        match resolve_handle e username with
        | Raise site => (Raise site, [])
        | Return resolved =>
            if bool_decide (resolved ≠ copy e) then (Raise "RuntimeError", [])
            else
              let did := default "" (copy e) in
              if negb (update_plc_ok e) then (Raise "did.update_plc", []) else
              let log := [UpdatePlc did username] in
              if negb (store_repo_ok e) then (Raise "storage.store_repo", log) else
              let log := log ++ [StoreRepo did username] in
              if negb (write_event_ok e) then (Raise "storage.write_event", log) else
              let log := log ++ [WriteIdentity did username] in
              if negb (load_ok e) then (Raise "load", log) else
              (Return None, log ++ [LoadDidDoc did])
        end
  end.

End Username.

(** ** [atproto.py]: [DatastoreClient.resolve_handle] and [handle_to_id] *)

Module Handles.

(** A stored native user ([ATProto]) and a stored repo ([AtpRepo]). *)
Record native := mkNative { native_did : string; native_handle : option string }.
Record repo := mkRepo {
  repo_did : string;
  handles : list string;
  status : option string;
}.

Section Handles.
(** The datastore, in the order the queries return entities. *)
Variable natives : list native.
Variable repos : list repo.
(** [did.HANDLE_RE.fullmatch(handle)] and the remote
    [did.resolve_handle(handle, get_fn=...)]. *)
Variable handle_re : string → bool.
Variable remote_resolve : string → result (option string).

(** [DatastoreClient.resolve_handle]: the DID of [{'did': ...}], or
    [None]. *)
Definition resolve_handle (handle : string) : result (option string) :=
  if String.eqb handle "" then Raise "assert handle" else
  match find (λ u, bool_decide (native_handle u = Some handle)) natives with
  | Some u => Return (Some (native_did u))
  | None =>
      match find (λ r, bool_decide (handle ∈ handles r ∧ status r = None)) repos with
      | Some r => Return (Some (repo_did r))
      | None =>
          match find (λ r, bool_decide (handle ∈ handles r)) repos with
          | Some r => Return (Some (repo_did r))
          | None => Return None
          end
      end
  end.

(** [ATProto.owns_handle]: [False] or [None]. *)
Definition owns_handle (handle : string) : option bool :=
  if negb (handle_re handle) then Some false else None.

Definition handle_to_id (handle : string) : result (option string) :=
  if String.eqb handle "" || bool_decide (owns_handle handle = Some false)
  then Return None else
  match resolve_handle handle with
  | Raise site => Raise site
  | Return (Some did) => Return (Some did)
  | Return None => remote_resolve handle
  end.
(** Where a DID that [resolve_handle] answers comes from: a native user
    with the handle; else a repo with the handle, and one that is not
    active only when no repo with the handle is. *)
Definition local (handle did : string) : Prop :=
  (∃ u, u ∈ natives ∧ native_handle u = Some handle ∧ native_did u = did)
  ∨ ((∀ u, u ∈ natives → native_handle u ≠ Some handle)
     ∧ ∃ r, r ∈ repos ∧ handle ∈ handles r ∧ repo_did r = did
            ∧ (status r = None
               ∨ ∀ r', r' ∈ repos → handle ∈ handles r' → status r' ≠ None)).

End Handles.

End Handles.

(** ** [atproto.py]: [poll_chat_task] *)

Module Chat.

(** [v[key]] for a string key; [None] is the [KeyError] or [TypeError]. *)
Definition item (v : json) (key : string) : option json :=
  match v with
  | JObj f => Py.assoc key f
  | _ => None
  end.

(** Arguments of one [create_task] call; the queue is [receive] and the
    source protocol [atproto]. *)
Record task := mkTask {
  task_id : string;
  bsky : json;
  our_as1 : json;
  authed_as : json;
  received_at : json;
}.

Section Poll.
(** [client.chat.bsky.convo.getLog(cursor=...)]; [None]: it raised. *)
Variable get_log : json → option json.
(** [bluesky.to_as1(message)] and arroba's [at_uri(did, collection, rkey)];
    [None]: raised. *)
Variable to_as1 : json → option (list (string * json)).
Variable at_uri : json → string → json → option string.
Variable create_task_ok : task → bool.
Variable put_ok : bool.
(** [repo.did] of the bot's repo and [bot.key.id()]. *)
Variable repo_did : string.
Variable bot_id : string.

(** The body of [for log in logs['logs']]: the task it enqueues, if any. *)
Definition handle_log (log : json) : result (option task) :=
  match item log "$type" with
  | None => Raise "log['$type']"
  | Some t =>
      if negb (Py.eq_str t "chat.bsky.convo.defs#logCreateMessage") then Return None else
      match item log "message" with
      | None => Raise "log['message']"
      | Some msg =>
          match item msg "$type" with
          | None => Raise "log['message']['$type']"
          | Some mt =>
              if negb (Py.eq_str mt "chat.bsky.convo.defs#messageView")
              then Return None else
              match item msg "sender" ≫= λ s, item s "did" with
              | None => Raise "log['message']['sender']['did']"
              | Some sender =>
                  (* if sender != repo.did *)
                  if Py.eq_str sender repo_did then Return None else
                  match item msg "id" with
                  | None => Raise "log['message']['id']"
                  | Some mid =>
                      match at_uri sender "chat.bsky.convo.defs.messageView" mid with
                      | None => Raise "at_uri"
                      | Some id =>
                          match to_as1 msg with
                          | None => Raise "bluesky.to_as1"
                          | Some as1 =>
                              (* {**to_as1(...), 'to': [bot.key.id()]} *)
                              let msg_as1 := JObj (("to", JArr [JStr bot_id]) :: as1) in
                              match item msg "sentAt" with
                              | None => Raise "log['message']['sentAt']"
                              | Some sent =>
                                  let t := mkTask id msg msg_as1 sender sent in
                                  if create_task_ok t then Return (Some t)
                                  else Raise "create_task"
                              end
                          end
                      end
                  end
              end
          end
      end
  end.

(** The [for] loop over one page: the tasks enqueued, up to the entry
    that raised if one did. *)
Fixpoint handle_logs (logs : list json) : result unit * list task :=
  match logs with
  | [] => (Return (), [])
  | log :: rest =>
      match handle_log log with
      | Raise site => (Raise site, [])
      | Return t =>
          let '(r, ts) := handle_logs rest in
          (r, from_option (λ t, [t]) [] t ++ ts)
      end
  end.

(** The [while True] loop, for at most [fuel] pages: [None] when the
    pages did not end within [fuel]; else how the loop ended, the bot's
    cursor and the tasks enqueued. *)
Fixpoint poll (fuel : nat) (cursor : json) (tasks : list task)
  : option (result unit * json * list task) :=
  match fuel with
  | O => None
  | S fuel =>
      match get_log cursor with
      | None => Some (Raise "getLog", cursor, tasks)
      | Some resp =>
          match item resp "logs" with
          | None => Some (Raise "logs['logs']", cursor, tasks)
          | Some logs =>
              match Py.iterate logs with
              | None => Some (Raise "for log in logs['logs']", cursor, tasks)
              | Some entries =>
                  match handle_logs entries with
                  | (Raise site, ts) => Some (Raise site, cursor, tasks ++ ts)
                  | (Return _, ts) =>
                      let next := default JNull (item resp "cursor") in
                      let cursor := if Py.truthy next then next else cursor in
                      if negb (Py.truthy logs) || negb (Py.truthy next)
                      then Some (Return (), cursor, tasks ++ ts)
                      else poll fuel cursor (tasks ++ ts)
                  end
              end
          end
      end
  end.

(** A task for a message that someone else sent: it is authenticated as
    the sender, has the [at://] URI of sender and message id as its id
    and carries the message and its [sentAt]. *)
Definition from_message (t : task) : Prop :=
  ∃ mid,
    item (bsky t) "sender" ≫= (λ s, item s "did") = Some (authed_as t)
    ∧ Py.eq_str (authed_as t) repo_did = false
    ∧ item (bsky t) "id" = Some mid
    ∧ at_uri (authed_as t) "chat.bsky.convo.defs.messageView" mid = Some (task_id t)
    ∧ item (bsky t) "sentAt" = Some (received_at t)
    ∧ create_task_ok t = true.

(** What a run leaves: the answer, the cursor stored with the bot, the
    tasks enqueued. *)
Record outcome := mkOutcome {
  answer : result string;
  stored_cursor : json;
  enqueued : list task;
}.

(** [poll_chat_task], from [assert bot.atproto_last_chat_log_cursor] on;
    [cursor] is the cursor stored with the bot. *)
Definition poll_chat_task (fuel : nat) (cursor : json) : option outcome :=
  if negb (Py.truthy cursor)
  then Some (mkOutcome (Raise "assert bot.atproto_last_chat_log_cursor") cursor [])
  else
    match poll fuel cursor [] with
    | None => None
    | Some (Raise site, _, tasks) => Some (mkOutcome (Raise site) cursor tasks)
    | Some (Return _, cursor', tasks) =>
        if put_ok then Some (mkOutcome (Return "OK") cursor' tasks)
        else Some (mkOutcome (Raise "bot.put") cursor tasks)
    end.
End Poll.

End Chat.

(** ** [atproto.py]: [derived_writes] *)

Module Derived.

Definition WALLET : string := "community.lexicon.payments.webMonetization".

(** The record of the wallet write. *)
Definition wallet_record : json :=
  JObj [("$type", JStr WALLET); ("address", JStr "http://wal/let")].

Section Derived.
(** granary's [as1.ACTOR_TYPES] and [as1.get_object(obj.as1)]. *)
Variable ACTOR_TYPES : list string.
Variable get_object : json → list (string * json).

(** [x in (...)] for a tuple of strings: the items are compared with
    [==]. *)
Definition among (x : json) (names : list string) : bool :=
  existsb (Py.eq_str x) names.

(** [x in names] for a frozenset of strings ([as1.CRUD_VERBS],
    [as1.ACTOR_TYPES]): [x] is hashed first, which raises [TypeError]
    for a list or a dict ([None]). *)
Definition in_set (x : json) (names : list string) : option bool :=
  if Py.hashable x then Some (among x names) else None.

(** The wallet write. *)
Definition wallet (a : ATProto.Action) : ATProto.Write :=
  ATProto.mkWrite a (Some WALLET) (Some "self") (Some wallet_record).

(** [as1] is [obj.as1]. *)
Definition derived_writes (as1 : json) : result (list ATProto.Write) :=
  if negb (Py.truthy as1) then Return [] else
  match as1 with
  | JObj f =>
      let type := Py.get "objectType" f in
      let verb := Py.get "verb" f in
      let action :=
        if negb (Py.eq_str type "activity") || Py.eq_str verb "post"
        then Some ATProto.CREATE
        else if Py.eq_str verb "update" then Some ATProto.UPDATE
        else if among verb ["delete"; "undo"] then Some ATProto.DELETE
        else None in
      match in_set verb ATProto.CRUD_VERBS with
      | None => Raise "verb in as1.CRUD_VERBS"
      | Some crud =>
          let obj_as1 := if crud then get_object as1 else f in
          match action with
          | Some ATProto.DELETE | None => Return []
          | Some a =>
              (* action in (CREATE, UPDATE) and ... in as1.ACTOR_TYPES *)
              match in_set (Py.get "objectType" obj_as1) ACTOR_TYPES with
              | None => Raise "objectType in as1.ACTOR_TYPES"
              | Some actor =>
                  if actor && Py.truthy (Py.get "monetization" obj_as1)
                  then Return [wallet a]
                  else Return []
              end
          end
      end
  | _ => Raise "obj.as1.get"
  end.

(** The object that [derived_writes] looks at for the wallet: the inner
    object of an activity with a CRUD verb, else the object itself. *)
Definition actor_of (f : list (string * json)) : list (string * json) :=
  if among (Py.get "verb" f) ATProto.CRUD_VERBS then get_object (JObj f) else f.

(** The object is an activity whose verb is neither [post] nor [update]:
    a delete, an undo, a like, a follow. *)
Definition other_activity (f : list (string * json)) : bool :=
  Py.eq_str (Py.get "objectType" f) "activity"
  && negb (Py.eq_str (Py.get "verb" f) "post")
  && negb (Py.eq_str (Py.get "verb" f) "update").
End Derived.

End Derived.

(** ** [atproto.py]: the [/.well-known/atproto-did] endpoint *)

Module DidEndpoint.

(** A stored user of some protocol, as the handler sees it. *)
Record user := mkUser {
  key_id : string;
  handle : option string;
  handle_as_domain : option string;
  copies : list Target;
}.

Inductive response : Type :=
| Did (copy : string)     (* 200, text/plain *)
| NotFound                (* 404 *)
| BadRequest.             (* 400, from get_required_param or flask_util.error *)

Section AtprotoDid.
(** [PROTOCOLS.get(protocol)] and the users of the class; [None] for a
    label that is not there or has no class. *)
Variable users_of : string → option (list user).
(** [as2.URL_RE.match(id)]: the [username] and [server] groups. *)
Variable url_re : string → option (string * string).
(** [ids.ATPROTO_HANDLE_DOMAINS], [util.domain_or_parent_in(server,
    [domain])] and [str.lower]. *)
Variable ATPROTO_HANDLE_DOMAINS : list string.
Variable domain_or_parent_in : string → string → bool.
Variable lower : string → string.

(** The loop of the mixed-case heuristic: each matching domain runs the
    query and assigns [user], found or not. *)
Fixpoint by_domain (users : list user) (username server : string)
         (domains : list string) (found : option user) : option user :=
  match domains with
  | [] => found
  | domain :: rest =>
      if domain_or_parent_in server domain then
        let wanted := lower (username +:+ "." +:+ domain) in
        by_domain users username server rest
          (find (λ u, bool_decide (handle_as_domain u = Some wanted)) users)
      else by_domain users username server rest found
  end.

(** [protocol] and [id] are the request's parameters. *)
Definition atproto_did (protocol id : option string) : response :=
  match ATProto.truthy_value protocol with
  | None => BadRequest
  | Some protocol =>
      match users_of protocol with
      | None => BadRequest
      | Some users =>
          match ATProto.truthy_value id with
          | None => BadRequest
          | Some id =>
              (* proto.get_by_id(id) or proto.query(proto.handle == id).get() *)
              let user :=
                match find (λ u, String.eqb (key_id u) id) users with
                | Some u => Some u
                | None => find (λ u, bool_decide (handle u = Some id)) users
                end in
              let user :=
                match user with
                | None =>
                    if String.eqb protocol "ap" then
                      match url_re id with
                      | Some (username, server) =>
                          by_domain users username server ATPROTO_HANDLE_DOMAINS None
                      | None => None
                      end
                    else None
                | Some u => Some u
                end in
              match user with
              | Some u =>
                  match ATProto.truthy_value (Models.get_copy ATProto.LABEL (copies u)) with
                  | Some copy => Did copy
                  | None => NotFound
                  end
              | None => NotFound
              end
          end
      end
  end.

(** How the handler can have found [u] for [id]. *)
Definition found_by (protocol id : string) (u : user) : Prop :=
  key_id u = id
  ∨ handle u = Some id
  ∨ (protocol = "ap"
     ∧ ∃ username server domain,
         url_re id = Some (username, server)
         ∧ domain ∈ ATPROTO_HANDLE_DOMAINS
         ∧ domain_or_parent_in server domain = true
         ∧ handle_as_domain u = Some (lower (username +:+ "." +:+ domain))).
End AtprotoDid.

End DidEndpoint.

(** ** Further concrete inputs *)

Module Samples.

(** The hub's loader: Bob is a native Nostr user with a relay list, Eve a
    user of the [fake] protocol who is bridged into Nostr. *)
Definition no_blocklist : string → bool := λ _, false.
Definition no_failure : string → bool := λ _, false.
Definition uri_to_id : string → option string := λ uri,
  if String.eqb uri Cases.BOB_NPUB_URI then Some Cases.BOB_PUBKEY
  else if String.eqb uri Cases.EVE_NPUB_URI then Some Cases.EVE_PUBKEY
  else None.
Definition PROTOCOLS : list (option string) :=
  [Some "Fake"; Some "Nostr"; None; Some "UIProtocol"; Some "Fake"].
Definition bob : Loader.user :=
  Loader.mkUser "Nostr" Cases.BOB_NPUB_URI None ["web"] 5
                (Return (Some "wss://relay.bob")) (Some Cases.BOB_PUBKEY).
Definition eve : Loader.user :=
  Loader.mkUser "Fake" "fake:eve" None ["nostr"] 7 (Return None)
                (Some Cases.EVE_PUBKEY).
Definition datastore : list Loader.user := [bob; eve].
Definition at_start : Loader.globals :=
  Loader.mkGlobals ∅ ∅ 0 false Relays.no_relays.

(** An event from a stranger with a ['p'] tag that has no value. *)
Definition short_p_fields : list (string * json) :=
  [("id", JStr "0c1d"); ("pubkey", JStr "9999"); ("kind", JNum 1);
   ("tags", JArr [JArr [JStr "e"; JStr "77aa"]; JArr [JStr "p"]]);
   ("content", JStr ""); ("sig", JStr "0e0f")].

(** Bob's note of the reconnect test, by fields. *)
Definition bob_fields : list (string * json) :=
  [("id", JStr "77aa"); ("pubkey", JStr Cases.BOB_PUBKEY); ("kind", JNum 1);
   ("created_at", JNum 678);
   ("tags", JArr [JArr [JStr "p"; JStr Cases.EVE_PUBKEY]]);
   ("content", JStr "Hello Alice!"); ("sig", JStr "51c0")].

(** A Nostr user whose relay list makes [target_for] raise. *)
Definition mallory : Loader.user :=
  Loader.mkUser "Nostr" "nostr:npub1bad" None ["web"] 3 (Raise "tag") None.
Definition datastore_with_mallory : list Loader.user := [bob; mallory; eve].

(** Bob's relay list: a read relay, then a write relay. *)
Definition relay_list : list (string * json) :=
  [("kind", JNum 10002);
   ("tags", JArr [JArr [JStr "r"; JStr "wss://read.example"; JStr "read"];
                  JArr [JStr "r"; JStr "wss://write.example"]])].

(** [Nostr.create_for] for Eve, who has no profile object yet. *)
Definition eve_oracle : NostrClass.oracle :=
  NostrClass.mkOracle (Some "npub1eve") true None Cases.EVE_PUBKEY None
                      Nostr.RelayError true.
Definition eve_new : NostrClass.state := NostrClass.mkState false [] None [].
Definition eve_after : NostrClass.state :=
  (NostrClass.create_for Cases.prefix_of Cases.uri_of eve_oracle eve_new).2.
Definition eve_users : string → list Nostr.user := λ proto,
  if String.eqb proto "fake"
  then [NostrClass.as_user "fake:eve" "eve.fake" true eve_after]
  else [].
Definition eve_uri_to_id : string → option string := λ uri,
  if String.eqb uri "nostr:npub1eve" then Some Cases.EVE_PUBKEY else None.

(** A delete of Alice's own account while her repo is deactivated. *)
Definition delete_self : ATProto.send_env :=
  {| ATProto.pds_url_ours := true;
     ATProto.as1_type := Some "delete";
     ATProto.as1_verb := Some "delete";
     ATProto.as1_inner := ATProto.mkInner (Some "fake:alice") (Some "person") None;
     ATProto.load_base := Some None;
     ATProto.from_user := true;
     ATProto.to_id := None;
     ATProto.follower_follow := None;
     ATProto.convert := Some (JObj []);
     ATProto.from_key := Some "fake:alice";
     ATProto.user_did := Some (Some "did:plc:alice");
     ATProto.did_pds_ours := Some true;
     ATProto.repo_status := Some (Some "deactivated");
     ATProto.atp_base_id := Some "did:plc:alice";
     ATProto.user_handle := "alice.fa.brid.gy";
     ATProto.deactivate_ok := true;
     ATProto.remove_dns_ok := true;
     ATProto.create_report := None;
     ATProto.block_records := None;
     ATProto.recipient_if_dm := None;
     ATProto.send_chat := None;
     ATProto.lexicon_type := λ _, Some "record";
     ATProto.parse_at_uri := Cases.parse_at_uri;
     ATProto.next_tid := "3knew";
     ATProto.send_derived_writes := [];
     ATProto.commit := ATProto.Committed;
     ATProto.put_ok := true |}.

(** Alice with a tombstoned repo, and with a deactivated one. *)
Definition alice_tombstoned : ATProto.state :=
  ATProto.mkState false
                  [mkTarget Cases.EVE_NPUB_URI "nostr"; mkTarget "did:plc:old" "atproto"]
                  (Some (ATProto.mkProfile
                           [mkTarget "at://did:plc:old/app.bsky.actor.profile/self"
                                     "atproto"] true))
                  {[ "did:plc:old" := Some "tombstoned" ]}
                  [].
Definition alice_deactivated : ATProto.state :=
  ATProto.mkState false
                  [mkTarget Cases.EVE_NPUB_URI "nostr"; mkTarget "did:plc:alice" "atproto"]
                  (Some (ATProto.mkProfile [] true))
                  {[ "did:plc:alice" := Some "deactivated" ]}
                  [].

(** A zone with an old record for Alice's handle and a record for Bob's. *)
Definition zone : Dns.zone :=
  [ Dns.mkRrset "_atproto.alice.fa.brid.gy." "TXT" 10800 [Dns.val_of "did:plc:old"];
    Dns.mkRrset "_atproto.bob.fa.brid.gy." "TXT" 10800 [Dns.val_of "did:plc:bob"];
    Dns.mkRrset "fa.brid.gy." "A" 300 ["203.0.113.7"] ].
Definition no_handle_domain : string → bool := λ _, false.

(** [set_username]: Alice asks for [@alice.com], which resolves to her
    DID. *)
Definition alice_username : Username.env :=
  Username.mkEnv true (Some "did:plc:alice")
    (λ did, if String.eqb did "did:plc:alice"
            then Some (Username.mkRepo None (Some "alice.fa.brid.gy")) else None)
    (λ handle, if String.eqb handle "alice.com"
               then Return (Some "did:plc:alice") else Return None)
    true true true true.

(** Two repos with the same handle, the tombstoned one first. *)
Definition repos : list Handles.repo :=
  [ Handles.mkRepo "did:plc:old" ["alice.com"] (Some "tombstoned");
    Handles.mkRepo "did:plc:alice" ["alice.com"] None ].
Definition any_handle : string → bool := λ _, true.
Definition no_remote : string → result (option string) := λ _, Return None.

(** The chat log: a message from Bob and one of the bot's own, then
    nothing more. *)
Definition message (id sender : string) : json :=
  JObj [("$type", JStr "chat.bsky.convo.defs#messageView"); ("id", JStr id);
        ("sender", JObj [("did", JStr sender)]); ("text", JStr "hi");
        ("sentAt", JStr "2024-05-01T00:00:00Z")].
Definition log_entry (msg : json) : json :=
  JObj [("$type", JStr "chat.bsky.convo.defs#logCreateMessage"); ("message", msg)].
Definition get_log : json → option json := λ cursor,
  match cursor with
  | JStr "c1" =>
      Some (JObj [("logs", JArr [log_entry (message "m1" "did:plc:bob");
                                 log_entry (message "m2" "did:plc:bot")]);
                  ("cursor", JStr "c2")])
  | _ => Some (JObj [("logs", JArr [])])
  end.
Definition to_as1 : json → option (list (string * json)) := λ _,
  Some [("objectType", JStr "note")].
Definition at_uri : json → string → json → option string := λ did collection rkey,
  match did, rkey with
  | JStr d, JStr r => Some (ATProto.at_uri d collection r)
  | _, _ => None
  end.
Definition task_ok : Chat.task → bool := λ _, true.
Definition task_from_bob : Chat.task :=
  Chat.mkTask "at://did:plc:bob/chat.bsky.convo.defs.messageView/m1"
              (message "m1" "did:plc:bob")
              (JObj [("to", JArr [JStr "fa.brid.gy"]); ("objectType", JStr "note")])
              (JStr "did:plc:bob") (JStr "2024-05-01T00:00:00Z").

(** An actor with a wallet, an update of it, and a delete of it that
    does not say [objectType: activity]. *)
Definition ACTOR_TYPES : list string :=
  ["application"; "group"; "organization"; "person"; "service"].
Definition actor_fields : list (string * json) :=
  [("objectType", JStr "person"); ("id", JStr "fake:alice");
   ("monetization", JStr "https://wallet.example/alice")].
Definition actor_with_wallet : json := JObj actor_fields.
Definition inner_object : json → list (string * json) := λ as1,
  match as1 with
  | JObj f => match Py.assoc "object" f with
              | Some (JObj o) => o
              | _ => []
              end
  | _ => []
  end.
Definition update_of_actor : list (string * json) :=
  [("objectType", JStr "activity"); ("verb", JStr "update");
   ("object", actor_with_wallet)].
Definition bare_delete_of_actor : list (string * json) :=
  [("verb", JStr "delete"); ("object", actor_with_wallet)].

(** The loader's globals when Bob and Eve have been loaded before and
    were updated since the load. *)
Definition reloaded : Loader.globals :=
  Loader.mkGlobals {[Cases.BOB_PUBKEY]} {[Cases.EVE_PUBKEY]} 0 true
                   (Relays.mkRelays ["wss://relay.bob"] ["wss://relay.bob"]).
Definition open_sub : NostrHub.sub_state :=
  NostrHub.mkSub {[Cases.BOB_PUBKEY]} {[Cases.EVE_PUBKEY]} 1 1 "sub123" 1 0.

(** The users of the [atproto-did] endpoint. *)
Definition did_users : string → option (list DidEndpoint.user) := λ protocol,
  if String.eqb protocol "fake"
  then Some [DidEndpoint.mkUser "fake:alice" (Some "fake:handle:alice") None
                                [mkTarget "did:plc:alice" "atproto"]]
  else None.
Definition no_url : string → option (string * string) := λ _, None.
Definition no_parent : string → string → bool := λ _ _, false.
Definition same : string → string := λ s, s.

End Samples.

(** * Properties *)

(** ** The Nostr hub *)

Section HubFacts.
Import NostrHub.
Context (verify : json → option bool) (uri_for : json → option string)
        (id_to_uri : string → json → option string) (DELETE_TASK_DELAY : Z).

Local Abbreviation handle := (handle verify uri_for id_to_uri DELETE_TASK_DELAY).

(** [handle] only looks at [bridged_pubkeys] through the mentions. *)
Lemma handle_enqueued_inv np bp event t :
  handle np bp event = Enqueued t →
  ∃ f obj_id npub_uri,
    event = JObj f ∧ well_formed event = true ∧
    verify event = Some true ∧
    uri_for event = Some obj_id ∧
    id_to_uri "npub" (Py.get "pubkey" f) = Some npub_uri ∧
    t = mkTask "receive" obj_id Nostr_LABEL npub_uri event
               (if Py.eq_num (Py.get "kind" f) KIND_DELETE
                then Some DELETE_TASK_DELAY else None).
Proof.
  unfold handle. intros H.
  destruct event as [| | | |?|f]; try discriminate.
  destruct (well_formed (JObj f)) eqn:Hwf; simpl in H; [|discriminate].
  repeat case_match; simplify_eq;
    (eexists f, _, _; repeat split; try done;
     match goal with E : Py.eq_num _ _ = _ |- _ => by rewrite E end).
Qed.

(** C5: a receive task is only enqueued for an event that has a kind, a
    pubkey, an id and a sig and whose id and signature verified, and the
    task's [authed_as] is the npub URI of the event's pubkey. *)
Theorem handle_enqueued_verified np bp event t :
  handle np bp event = Enqueued t →
  well_formed event = true ∧
  verify event = Some true ∧
  ∃ f, event = JObj f ∧
       Py.is_none (Py.get "kind" f) = false ∧
       Py.truthy (Py.get "pubkey" f) = true ∧
       Py.truthy (Py.get "id" f) = true ∧
       Py.truthy (Py.get "sig" f) = true ∧
       id_to_uri "npub" (Py.get "pubkey" f) = Some (authed_as t) ∧
       queue t = "receive" ∧ nostr t = event.
Proof.
  intros H.
  destruct (handle_enqueued_inv _ _ _ _ H)
    as (f & obj_id & npub_uri & -> & Hwf & Hv & _ & Hn & ->).
  split; [done|]. split; [done|].
  exists f. simpl.
  unfold well_formed in Hwf.
  apply andb_prop in Hwf as [Hwf Hsig].
  apply andb_prop in Hwf as [Hwf Hid].
  apply andb_prop in Hwf as [Hkind Hpk].
  apply negb_true_iff in Hkind.
  done.
Qed.

End HubFacts.

Lemma handle_enqueued_verified_witness :
  NostrHub.well_formed Cases.note_by_bob = true ∧
  Cases.verify_ok Cases.note_by_bob = Some true ∧
  ∃ f, Cases.note_by_bob = JObj f ∧
       Py.is_none (Py.get "kind" f) = false ∧
       Py.truthy (Py.get "pubkey" f) = true ∧
       Py.truthy (Py.get "id" f) = true ∧
       Py.truthy (Py.get "sig" f) = true ∧
       Cases.npub_of "npub" (Py.get "pubkey" f)
       = Some (NostrHub.authed_as Cases.task_for_bob) ∧
       NostrHub.queue Cases.task_for_bob = "receive" ∧
       NostrHub.nostr Cases.task_for_bob = Cases.note_by_bob.
Proof.
  apply (handle_enqueued_verified Cases.verify_ok Cases.uri_for_note Cases.npub_of
           Cases.DELETE_TASK_DELAY Cases.nostr_pubkeys Cases.bridged_pubkeys
           Cases.note_by_bob Cases.task_for_bob).
  vm_compute. reflexivity.
Defined.

(** C1: an event whose author is in [bridged_pubkeys] and which mentions
    another bridged pubkey passes the filter of [handle]: a receive task is
    enqueued for it, authenticated as the bridged author. *)
Theorem handle_enqueues_bridged_author :
  bool_decide (Cases.EVE_PUBKEY ∈ Cases.bridged_pubkeys) = true ∧
  NostrHub.handle Cases.verify_ok Cases.uri_for_note Cases.npub_of
    Cases.DELETE_TASK_DELAY Cases.nostr_pubkeys Cases.bridged_pubkeys
    Cases.reply_between_bridged
  = NostrHub.Enqueued
      (NostrHub.mkTask "receive" "nostr:note1qqq" "nostr" Cases.EVE_NPUB_URI
                       Cases.reply_between_bridged None).
Proof. split; vm_compute; reflexivity. Qed.

Global Instance str_le_total : Total NostrHub.str_le.
Proof. intros a b. unfold NostrHub.str_le. apply String.leb_total. Qed.

(** [sorted(s)] lists exactly the members of [s], once each, in order. *)
Lemma sorted_spec (s : gset string) :
  Sorted NostrHub.str_le (NostrHub.sorted s) ∧
  NoDup (NostrHub.sorted s) ∧
  ∀ x, x ∈ NostrHub.sorted s ↔ x ∈ s.
Proof.
  unfold NostrHub.sorted. split; [apply Sorted_merge_sort, _|].
  split.
  - rewrite merge_sort_Permutation. apply NoDup_elements.
  - intros x. rewrite merge_sort_Permutation. apply elem_of_elements.
Qed.

Lemma author_filter_kinds_spec (kinds : gset Z) :
  NoDup (NostrHub.AUTHOR_FILTER_KINDS kinds) ∧
  ∀ k, k ∈ NostrHub.AUTHOR_FILTER_KINDS kinds ↔ k ∈ kinds ∧ k ≠ NostrHub.KIND_REACTION.
Proof.
  unfold NostrHub.AUTHOR_FILTER_KINDS. split; [apply NoDup_elements|].
  intros k. rewrite elem_of_elements. set_solver.
Qed.

Section SubscribeFacts.
Import NostrHub.
Context (verify : json → option bool) (uri_for : json → option string)
        (id_to_uri : string → json → option string) (DELETE_TASK_DELAY : Z)
        (SUPPORTED_KINDS : gset Z) (token : nat → string) (limit : option nat).

Local Abbreviation req := (req SUPPORTED_KINDS).
Local Abbreviation open_query := (open_query SUPPORTED_KINDS token).
Local Abbreviation recheck := (recheck SUPPORTED_KINDS token).
Local Abbreviation receive_loop :=
  (receive_loop verify uri_for id_to_uri DELETE_TASK_DELAY SUPPORTED_KINDS token limit).
Local Abbreviation subscribe :=
  (subscribe verify uri_for id_to_uri DELETE_TASK_DELAY SUPPORTED_KINDS token limit).

Local Abbreviation req_for := (req_for SUPPORTED_KINDS).

Lemma req_for_mono np bp np0 bp0 msg :
  np0 ⊆ np → bp0 ⊆ bp → req_for np bp msg → req_for np0 bp0 msg.
Proof.
  intros ?? (sub & np' & bp' & ? & ? & ->).
  exists sub, np', bp'. split; [set_solver|]. split; [set_solver|done].
Qed.

Lemma sent_app a b : sent (a ++ b) = sent a ++ sent b.
Proof. apply omap_app. Qed.

Lemma sent_prepend a r : sent (prepend a r).1 = sent a ++ sent r.1.
Proof. apply sent_app. Qed.

Lemma open_query_spec np bp n :
  ∃ st, open_query np bp n = ([Send (req (token n) np bp)], st)
        ∧ nostr_pubkeys st = np ∧ bridged_pubkeys st = bp.
Proof. eexists. split; [reflexivity|]. done. Qed.

Lemma recheck_spec st :
  ∃ pre st', recheck st = (pre, st')
    ∧ nostr_pubkeys st' = nostr_pubkeys st
    ∧ bridged_pubkeys st' = bridged_pubkeys st
    ∧ ∀ m, m ∈ sent pre → is_req m = true →
           req_for (nostr_pubkeys st) (bridged_pubkeys st) m.
Proof.
  unfold NostrHub.recheck. case_bool_decide.
  - eexists _, _. split; [reflexivity|]. simpl. split; [done|]. split; [done|].
    intros m Hm Hreq. apply elem_of_cons in Hm as [->|Hm]; [discriminate|].
    apply list_elem_of_singleton in Hm as ->.
    by exists (token (queries st)), (nostr_pubkeys st), (bridged_pubkeys st).
  - exists [], st. split; [done|]. split; [done|]. split; [done|].
    intros m Hm. by apply elem_of_nil in Hm.
Qed.

Lemma handled_sends_nothing np bp event :
  ∀ acts,
    match handle verify uri_for id_to_uri DELETE_TASK_DELAY np bp event with
    | Raised => None
    | Ignored => Some []
    | Enqueued t => Some [CreateTask t]
    end = Some acts → sent acts = [].
Proof. intros acts. case_match; intros; by simplify_eq. Qed.

Lemma receive_loop_reqs evs : ∀ st msg,
  msg ∈ sent (receive_loop evs st).1 → is_req msg = true →
  req_for (nostr_pubkeys st) (bridged_pubkeys st) msg.
Proof.
  induction evs as [|ev rest IH]; intros st msg; simpl NostrHub.receive_loop;
    destruct (recheck_spec st) as (pre & st' & -> & Hn & Hb & Hpre).
  - simpl. auto.
  - destruct ev as [resp| |nn nb].
    + destruct (Py.subscript resp 0) as [kind|]; [|simpl; auto].
      destruct (Py.eq_str kind "CLOSED").
      * rewrite sent_prepend, sent_app. simpl sent at 2.
        rewrite !elem_of_app, list_elem_of_singleton.
        intros [[Hin| ->]|Hin] Hreq; [by auto| |].
        -- eexists _, _, _. rewrite <- Hn, <- Hb. done.
        -- apply IH in Hin; [|done]. simpl in Hin. by rewrite Hn, Hb in Hin.
      * match goal with
        | |- context [match ?h with Some _ => _ | None => _ end] =>
            destruct h as [acts|] eqn:Hh
        end; [|simpl; auto].
        assert (sent acts = []) as Hacts.
        { destruct (Py.eq_str kind "EVENT"); [|by simplify_eq].
          destruct (Py.subscript resp 2) as [event|]; [|done].
          rewrite <- Hn, <- Hb in *. by eapply handled_sends_nothing. }
        destruct (limit_reached limit (S (received st'))).
        -- simpl. rewrite sent_app, Hacts, app_nil_r. auto.
        -- rewrite sent_prepend, sent_app, Hacts, app_nil_r, elem_of_app.
           intros [Hin|Hin] Hreq; [by auto|].
           apply IH in Hin; [|done]. simpl in Hin. by rewrite Hn, Hb in Hin.
    + rewrite sent_prepend, elem_of_app.
      intros [Hin|Hin] Hreq; [by auto|].
      apply IH in Hin; [|done]. by rewrite Hn, Hb in Hin.
    + rewrite sent_prepend, elem_of_app.
      intros [Hin|Hin] Hreq; [by auto|].
      apply IH in Hin; [|done]. simpl in Hin. rewrite Hn, Hb in Hin.
      eapply req_for_mono; [apply union_subseteq_l|apply union_subseteq_l|done].
Qed.

Lemma subscribe_first relay np bp evs :
  ∃ rest, sent (subscribe relay np bp evs).1 = req (token 0) np bp :: rest.
Proof.
  unfold NostrHub.subscribe.
  destruct (open_query_spec np bp 0) as (st & -> & Hn & Hb).
  rewrite sent_prepend. simpl. eauto.
Qed.

Lemma subscribe_reqs relay np bp evs msg :
  msg ∈ sent (subscribe relay np bp evs).1 → is_req msg = true →
  req_for np bp msg.
Proof.
  unfold NostrHub.subscribe.
  destruct (open_query_spec np bp 0) as (st & -> & Hn & Hb).
  rewrite sent_prepend. simpl. intros Hin Hreq.
  apply elem_of_cons in Hin as [->|Hin].
  - by exists (token 0), np, bp.
  - apply receive_loop_reqs in Hin; [|done]. by rewrite Hn, Hb in Hin.
Qed.

(** No REQ that [subscribe] sends has a [since] key in a filter. *)
Lemma subscribe_reqs_have_no_since relay np bp evs msg :
  msg ∈ sent (subscribe relay np bp evs).1 → is_req msg = true →
  omap since_of (filters msg) = [].
Proof.
  intros Hin Hreq.
  by destruct (subscribe_reqs _ _ _ _ _ Hin Hreq) as (sub & np' & bp' & _ & _ & ->).
Qed.

Lemma recheck_reqs st :
  ∃ pre st', recheck st = (pre, st')
    ∧ nostr_pubkeys st' = nostr_pubkeys st
    ∧ bridged_pubkeys st' = bridged_pubkeys st
    ∧ ∀ m, m ∈ sent pre → is_req m = true →
           last (sent pre) = Some m
           ∧ m = req (token (queries st)) (nostr_pubkeys st) (bridged_pubkeys st).
Proof.
  unfold NostrHub.recheck. case_bool_decide.
  - eexists _, _. split; [reflexivity|]. simpl. split; [done|]. split; [done|].
    intros m Hm Hreq. apply elem_of_cons in Hm as [->|Hm]; [discriminate|].
    by apply list_elem_of_singleton in Hm as ->.
  - exists [], st. split; [done|]. split; [done|]. split; [done|].
    intros m Hm. by apply elem_of_nil in Hm.
Qed.

(** Right after a REQ the counts are those of the sets: the check at the
    top of the inner loop sends nothing. *)
Lemma recheck_fresh np bp n :
  recheck (open_query np bp n).2 = ([], (open_query np bp n).2).
Proof.
  unfold NostrHub.recheck. simpl. rewrite bool_decide_eq_false_2; [done|]. tauto.
Qed.

Lemma loaded_frame np bp resp evs :
  loaded np bp (Frame resp :: evs) = loaded np bp evs.
Proof. done. Qed.

Lemma loaded_timeout np bp evs : loaded np bp (Timeout :: evs) = loaded np bp evs.
Proof. done. Qed.

Lemma loaded_loaded np bp nn nb evs :
  loaded np bp (Loaded nn nb :: evs) = loaded (np ∪ nn) (bp ∪ nb) evs.
Proof. done. Qed.

Lemma last_sent_prepend acts r m :
  last (sent r.1) = Some m → last (sent (prepend acts r).1) = Some m.
Proof. intros H. rewrite sent_prepend, last_app, H. done. Qed.

(** Every REQ of the inner loop is the last message sent by the time the
    first [k] events have been taken, for some [k], and is built from
    the pubkey sets as they are then. *)
Lemma receive_loop_req_moment evs : ∀ st msg,
  msg ∈ sent (receive_loop evs st).1 → is_req msg = true →
  ∃ n k,
    last (sent (receive_loop (take k evs) st).1) = Some msg
    ∧ msg = req (token n)
                (loaded (nostr_pubkeys st) (bridged_pubkeys st) (take k evs)).1
                (loaded (nostr_pubkeys st) (bridged_pubkeys st) (take k evs)).2.
Proof.
  assert (∀ l st pre st' msg,
            recheck st = (pre, st') → msg ∈ sent pre → is_req msg = true →
            (∀ m, m ∈ sent pre → is_req m = true →
                  last (sent pre) = Some m
                  ∧ m = req (token (queries st)) (nostr_pubkeys st) (bridged_pubkeys st)) →
            ∃ n k,
              last (sent (receive_loop (take k l) st).1) = Some msg
              ∧ msg = req (token n)
                          (loaded (nostr_pubkeys st) (bridged_pubkeys st) (take k l)).1
                          (loaded (nostr_pubkeys st) (bridged_pubkeys st) (take k l)).2)
    as Hnow.
  { intros l st pre st' msg Hre Hin Hreq Hpre.
    destruct (Hpre msg Hin Hreq) as [Hlast ->].
    exists (queries st), 0%nat. rewrite take_0. simpl. by rewrite Hre. }
  induction evs as [|ev rest IH]; intros st msg; simpl NostrHub.receive_loop;
    destruct (recheck_reqs st) as (pre & st' & Hre & Hn & Hb & Hpre); rewrite Hre.
  { simpl. intros Hin Hreq. by eapply (Hnow []). }
  assert (∀ x st2,
            nostr_pubkeys st2 = (loaded (nostr_pubkeys st) (bridged_pubkeys st) [ev]).1 →
            bridged_pubkeys st2 = (loaded (nostr_pubkeys st) (bridged_pubkeys st) [ev]).2 →
            (∀ tail, receive_loop (ev :: tail) st = prepend x (receive_loop tail st2)) →
            msg ∈ sent (receive_loop rest st2).1 → is_req msg = true →
            ∃ n k,
              last (sent (receive_loop (take k (ev :: rest)) st).1) = Some msg
              ∧ msg = req (token n)
                          (loaded (nostr_pubkeys st) (bridged_pubkeys st)
                                  (take k (ev :: rest))).1
                          (loaded (nostr_pubkeys st) (bridged_pubkeys st)
                                  (take k (ev :: rest))).2)
    as Hlater.
  { intros x st2 E1 E2 Hstep Hin Hreq.
    destruct (IH st2 msg Hin Hreq) as (n & k & Hlast & ->).
    exists n, (S k). rewrite firstn_cons, Hstep. split; [by apply last_sent_prepend|].
    rewrite E1, E2. by destruct ev. }
  destruct ev as [resp| |nn nb].
  - destruct (Py.subscript resp 0) as [kind|] eqn:Hk;
      [|simpl; intros; by eapply (Hnow (Frame resp :: rest))].
    destruct (Py.eq_str kind "CLOSED") eqn:Hc.
    + rewrite sent_prepend, sent_app. simpl sent at 2.
      rewrite !elem_of_app, list_elem_of_singleton.
      intros [[Hin| ->]|Hin] Hreq.
      * by eapply (Hnow (Frame resp :: rest)).
      * exists (queries st'), 1%nat. simpl take. simpl NostrHub.receive_loop.
        rewrite Hre, Hk, Hc. simpl.
        pose proof (recheck_fresh (nostr_pubkeys st') (bridged_pubkeys st') (queries st'))
          as Hfresh. simpl in Hfresh. rewrite Hfresh. simpl.
        rewrite app_nil_r, sent_app. simpl. rewrite last_snoc.
        by rewrite Hn, Hb.
      * eapply Hlater; [| |intros tail; simpl; by rewrite Hre, Hk, Hc|exact Hin|exact Hreq];
          simpl; congruence.
    + match goal with
      | |- context [match ?h with Some _ => _ | None => _ end] =>
          destruct h as [acts|] eqn:Hh
      end; [|simpl; intros; by eapply (Hnow (Frame resp :: rest))].
      assert (sent acts = []) as Hacts.
      { destruct (Py.eq_str kind "EVENT"); [|by simplify_eq].
        destruct (Py.subscript resp 2) as [event|]; [|done].
        by eapply handled_sends_nothing. }
      destruct (limit_reached limit (S (received st'))) eqn:Hl.
      * simpl. rewrite sent_app, Hacts, app_nil_r.
        intros; by eapply (Hnow (Frame resp :: rest)).
      * rewrite sent_prepend, sent_app, Hacts, app_nil_r, elem_of_app.
        intros [Hin|Hin] Hreq; [by eapply (Hnow (Frame resp :: rest))|].
        eapply Hlater;
          [| |intros tail; simpl; by rewrite Hre, Hk, Hc, Hh, Hl|exact Hin|exact Hreq];
          simpl; congruence.
  - rewrite sent_prepend, elem_of_app.
    intros [Hin|Hin] Hreq; [by eapply (Hnow (Timeout :: rest))|].
    eapply Hlater; [| |intros tail; simpl; by rewrite Hre|exact Hin|exact Hreq];
      simpl; congruence.
  - rewrite sent_prepend, elem_of_app.
    intros [Hin|Hin] Hreq; [by eapply (Hnow (Loaded nn nb :: rest))|].
    eapply Hlater; [| |intros tail; simpl; by rewrite Hre|exact Hin|exact Hreq];
      simpl; congruence.
Qed.

Lemma subscribe_req_moment relay np bp evs msg :
  msg ∈ sent (subscribe relay np bp evs).1 → is_req msg = true →
  ∃ n k,
    last (sent (subscribe relay np bp (take k evs)).1) = Some msg
    ∧ msg = req (token n) (loaded np bp (take k evs)).1 (loaded np bp (take k evs)).2.
Proof.
  unfold NostrHub.subscribe.
  destruct (open_query_spec np bp 0) as (st & Hq & Hn & Hb). rewrite Hq.
  rewrite sent_prepend. simpl. intros Hin Hreq.
  apply elem_of_cons in Hin as [->|Hin].
  - exists 0%nat, 0%nat. rewrite take_0. simpl.
    pose proof (recheck_fresh np bp 0) as Hfresh. rewrite Hq in Hfresh.
    simpl in Hfresh. by rewrite Hfresh.
  - destruct (receive_loop_req_moment _ _ _ Hin Hreq) as (n & k & Hlast & Hmsg).
    rewrite Hn, Hb in Hmsg. exists n, k. split; [|done].
    by rewrite last_cons, Hlast.
Qed.

(** C8: the first message [subscribe] sends is a REQ for the pubkey sets
    it starts with, and every REQ it sends carries exactly two filters:
    [#p] with the sorted [bridged_pubkeys] and the supported kinds, and
    [authors] with the sorted [nostr_pubkeys] and the supported kinds
    other than reaction (kind 7).  The two sets are the globals as they
    are when the REQ goes out: the REQ is the last message sent once the
    first [k] events have been taken, and its sets are the initial ones
    with what the loader added among those [k] events. *)
Theorem subscribe_req_filters relay np bp evs :
  (∃ rest, sent (subscribe relay np bp evs).1 = req (token 0) np bp :: rest) ∧
  ∀ msg, msg ∈ sent (subscribe relay np bp evs).1 → is_req msg = true →
    ∃ n k,
      let now := loaded np bp (take k evs) in
      last (sent (subscribe relay np bp (take k evs)).1) = Some msg
      ∧ msg = JArr [ JStr "REQ"; JStr (token n);
                     JObj [ ("#p", JArr (JStr <$> sorted now.2));
                            ("kinds", JArr (JNum <$> elements SUPPORTED_KINDS)) ];
                     JObj [ ("authors", JArr (JStr <$> sorted now.1));
                            ("kinds", JArr (JNum <$> AUTHOR_FILTER_KINDS SUPPORTED_KINDS)) ] ]
      ∧ Sorted str_le (sorted now.2) ∧ (∀ x, x ∈ sorted now.2 ↔ x ∈ now.2)
      ∧ Sorted str_le (sorted now.1) ∧ (∀ x, x ∈ sorted now.1 ↔ x ∈ now.1)
      ∧ NoDup (AUTHOR_FILTER_KINDS SUPPORTED_KINDS)
      ∧ (∀ k, k ∈ AUTHOR_FILTER_KINDS SUPPORTED_KINDS
              ↔ k ∈ SUPPORTED_KINDS ∧ k ≠ 7)
      ∧ NoDup (elements SUPPORTED_KINDS)
      ∧ (∀ k, k ∈ elements SUPPORTED_KINDS ↔ k ∈ SUPPORTED_KINDS).
Proof.
  split; [apply subscribe_first|].
  intros msg Hin Hreq.
  destruct (subscribe_req_moment _ _ _ _ _ Hin Hreq) as (n & k & Hlast & ->).
  exists n, k. simpl.
  destruct (sorted_spec (loaded np bp (take k evs)).2) as (Sb & _ & Eb).
  destruct (sorted_spec (loaded np bp (take k evs)).1) as (Sn & _ & En).
  destruct (author_filter_kinds_spec SUPPORTED_KINDS) as [Nk Ek].
  split; [done|]. split; [done|].
  repeat split; try done;
    try (by apply Eb); try (by apply En); try (by apply Ek);
    try apply NoDup_elements; by apply elem_of_elements.
Qed.

End SubscribeFacts.

Lemma subscribe_req_filters_witness :
  let evs := NostrHub.Loaded {[Cases.FRANK_PUBKEY]} ∅ :: Cases.closed_after_event in
  let run := λ evs, NostrHub.subscribe Cases.verify_ok Cases.uri_for_note Cases.npub_of
                      Cases.DELETE_TASK_DELAY Cases.SUPPORTED_KINDS Cases.token None
                      "wss://reelaay" Cases.nostr_pubkeys Cases.bridged_pubkeys evs in
  let msg := NostrHub.req Cases.SUPPORTED_KINDS "sub123"
               (Cases.nostr_pubkeys ∪ {[Cases.FRANK_PUBKEY]})
               (Cases.bridged_pubkeys ∪ ∅) in
  ∃ n k,
    let now := NostrHub.loaded Cases.nostr_pubkeys Cases.bridged_pubkeys (take k evs) in
    last (NostrHub.sent (run (take k evs)).1) = Some msg
    ∧ msg = JArr [ JStr "REQ"; JStr (Cases.token n);
                   JObj [ ("#p", JArr (JStr <$> NostrHub.sorted now.2));
                          ("kinds", JArr (JNum <$> elements Cases.SUPPORTED_KINDS)) ];
                   JObj [ ("authors", JArr (JStr <$> NostrHub.sorted now.1));
                          ("kinds", JArr (JNum <$> NostrHub.AUTHOR_FILTER_KINDS
                                                     Cases.SUPPORTED_KINDS)) ] ]
    ∧ Sorted NostrHub.str_le (NostrHub.sorted now.2)
    ∧ (∀ x, x ∈ NostrHub.sorted now.2 ↔ x ∈ now.2)
    ∧ Sorted NostrHub.str_le (NostrHub.sorted now.1)
    ∧ (∀ x, x ∈ NostrHub.sorted now.1 ↔ x ∈ now.1)
    ∧ NoDup (NostrHub.AUTHOR_FILTER_KINDS Cases.SUPPORTED_KINDS)
    ∧ (∀ k, k ∈ NostrHub.AUTHOR_FILTER_KINDS Cases.SUPPORTED_KINDS
            ↔ k ∈ Cases.SUPPORTED_KINDS ∧ k ≠ 7)
    ∧ NoDup (elements Cases.SUPPORTED_KINDS)
    ∧ (∀ k, k ∈ elements Cases.SUPPORTED_KINDS ↔ k ∈ Cases.SUPPORTED_KINDS).
Proof.
  intros evs run msg.
  apply (proj2 (subscribe_req_filters Cases.verify_ok Cases.uri_for_note Cases.npub_of
                  Cases.DELETE_TASK_DELAY Cases.SUPPORTED_KINDS Cases.token None
                  "wss://reelaay" Cases.nostr_pubkeys Cases.bridged_pubkeys evs)).
  - vm_compute. right. right. left.
  - reflexivity.
Defined.

(** C7: the relay answers a REQ with one event ([created_at] 678) and then
    CLOSED.  [subscribe] connects once and sends the same REQ again on the
    same socket; no filter of either REQ has a [since] key. *)
Theorem subscribe_closed_resubscribes_without_since :
  let np := Cases.nostr_pubkeys in
  let bp := Cases.bridged_pubkeys in
  let log := (NostrHub.subscribe Cases.verify_ok Cases.uri_for_note Cases.npub_of
                Cases.DELETE_TASK_DELAY Cases.SUPPORTED_KINDS Cases.token None
                "wss://reelaay" np bp Cases.closed_after_event).1 in
  log = [ NostrHub.Connect "wss://reelaay";
          NostrHub.Send (NostrHub.req Cases.SUPPORTED_KINDS "sub123" np bp);
          NostrHub.CreateTask Cases.task_for_bob;
          NostrHub.Send (NostrHub.req Cases.SUPPORTED_KINDS "sub123" np bp) ]
  ∧ Py.assoc "created_at"
      (match Cases.note_by_bob with JObj f => f | _ => [] end) = Some (JNum 678)
  ∧ Forall (λ msg, omap NostrHub.since_of (NostrHub.filters msg) = [])
           (NostrHub.sent log).
Proof.
  intros np bp log. split; [vm_compute; reflexivity|].
  split; [reflexivity|].
  vm_compute. repeat constructor.
Qed.

(** ** Copies *)

Lemma add_absent (copies : list Target) (t : Target) :
  t ∉ copies → Models.add copies t = copies ++ [t].
Proof. intros H. unfold Models.add. by rewrite bool_decide_eq_false_2. Qed.

Lemma add_present (copies : list Target) (t : Target) :
  t ∈ copies → Models.add copies t = copies.
Proof. intros H. unfold Models.add. by rewrite bool_decide_eq_true_2. Qed.

Lemma add_elem (copies : list Target) (t : Target) : t ∈ Models.add copies t.
Proof.
  unfold Models.add. case_bool_decide; [done|].
  apply elem_of_app. right. by apply list_elem_of_singleton.
Qed.

Lemma copies_in_other_empty (label : string) (copies : list Target) :
  Models.copies_in label (filter (λ c, protocol c ≠ label) copies) = [].
Proof.
  unfold Models.copies_in.
  induction copies as [|c rest IH]; [done|].
  rewrite (filter_cons (λ c, protocol c ≠ label)).
  case_decide; [|done].
  rewrite (filter_cons (λ c, protocol c = label)).
  by case_decide.
Qed.

Lemma other_of_other (label : string) (copies : list Target) :
  filter (λ c, protocol c ≠ label) (filter (λ c, protocol c ≠ label) copies)
  = filter (λ c, protocol c ≠ label) copies.
Proof.
  induction copies as [|c rest IH]; [done|].
  rewrite (filter_cons (λ c, protocol c ≠ label)).
  case_decide; [|done].
  rewrite (filter_cons (λ c, protocol c ≠ label)).
  case_decide; [by f_equal|done].
Qed.

(** ** [Nostr.send] *)

Section NostrSendFacts.
Context (bech32_prefix_for : json → option string)
        (id_to_uri : string → json → option string).

Local Abbreviation send := (Nostr.send bech32_prefix_for id_to_uri).

(** What a [True] return of [Nostr.send] says about the run. *)
Lemma nostr_send_true_inv copies from_user converted relay put_ok after :
  send copies from_user converted relay put_ok = (Return true, after) →
  ∃ event prefix id uri,
    converted = Some event ∧ relay = Nostr.Answered ∧ put_ok = true ∧
    bech32_prefix_for (JObj event) = Some prefix ∧
    Py.assoc "id" event = Some id ∧
    id_to_uri prefix id = Some uri ∧
    after = Nostr.mkAfter
              (filter (λ c, protocol c ≠ "nostr") copies ++ [mkTarget uri "nostr"])
              true.
Proof.
  unfold Nostr.send. intros H.
  repeat case_match; simplify_eq.
  eexists _, _, _, _. repeat split; try done.
  f_equal. apply add_absent.
  intros Hin%list_elem_of_filter. by destruct Hin as [Hne _].
Qed.

Lemma copies_in_replaced (copies : list Target) (uri : string) :
  Models.copies_in "nostr"
    (filter (λ c, protocol c ≠ "nostr") copies ++ [mkTarget uri "nostr"])
  = [mkTarget uri "nostr"].
Proof.
  unfold Models.copies_in. rewrite filter_app.
  fold (Models.copies_in "nostr" (filter (λ c, protocol c ≠ "nostr") copies)).
  by rewrite copies_in_other_empty.
Qed.

(** C10: a successful [Nostr.send] leaves as the object's copies its
    earlier copies of other protocols, in their order, followed by one
    ['nostr'] entry: the URI that [id_to_uri(bech32_prefix_for(event),
    event['id'])] gives for the event just converted and published.  So
    the object has exactly one ['nostr'] copy, whatever Nostr copies it
    had before, and it has been stored. *)
Theorem nostr_send_replaces_nostr_copy copies from_user converted relay put_ok after :
  send copies from_user converted relay put_ok = (Return true, after) →
  ∃ event prefix id uri,
    converted = Some event ∧
    bech32_prefix_for (JObj event) = Some prefix ∧
    Py.assoc "id" event = Some id ∧
    id_to_uri prefix id = Some uri ∧
    Nostr.copies_after after
    = filter (λ c, protocol c ≠ "nostr") copies ++ [mkTarget uri "nostr"] ∧
    Models.copies_in "nostr" (Nostr.copies_after after) = [mkTarget uri "nostr"] ∧
    filter (λ c, protocol c ≠ "nostr") (Nostr.copies_after after)
    = filter (λ c, protocol c ≠ "nostr") copies ∧
    Nostr.stored after = true.
Proof.
  intros H.
  destruct (nostr_send_true_inv _ _ _ _ _ _ H)
    as (event & prefix & id & uri & ? & _ & _ & ? & ? & ? & ->).
  exists event, prefix, id, uri. simpl.
  rewrite copies_in_replaced, filter_app, other_of_other.
  repeat split; try done. by rewrite app_nil_r.
Qed.

End NostrSendFacts.

Lemma nostr_send_replaces_nostr_copy_witness :
  let after := (Nostr.send Cases.prefix_of Cases.uri_of Cases.profile_copies
                  (Some Cases.EVE_PUBKEY) (Some Cases.profile_event)
                  Nostr.Answered true).2 in
  ∃ event prefix id uri,
    Some Cases.profile_event = Some event ∧
    Cases.prefix_of (JObj event) = Some prefix ∧
    Py.assoc "id" event = Some id ∧
    Cases.uri_of prefix id = Some uri ∧
    Nostr.copies_after after
    = filter (λ c, protocol c ≠ "nostr") Cases.profile_copies
      ++ [mkTarget uri "nostr"] ∧
    Models.copies_in "nostr" (Nostr.copies_after after) = [mkTarget uri "nostr"] ∧
    filter (λ c, protocol c ≠ "nostr") (Nostr.copies_after after)
    = filter (λ c, protocol c ≠ "nostr") Cases.profile_copies ∧
    Nostr.stored after = true.
Proof.
  intros after.
  apply (nostr_send_replaces_nostr_copy Cases.prefix_of Cases.uri_of
           Cases.profile_copies (Some Cases.EVE_PUBKEY) (Some Cases.profile_event)
           Nostr.Answered true after).
  vm_compute. reflexivity.
Defined.

(** A second send of the same profile: the copy of the first send is
    replaced, not kept beside the new one. *)
Example nostr_send_twice :
  Nostr.send Cases.prefix_of Cases.uri_of Cases.profile_copies
    (Some Cases.EVE_PUBKEY) (Some Cases.profile_event) Nostr.Answered true
  = (Return true, Cases.profile_after)
  ∧ Nostr.send Cases.prefix_of Cases.uri_of (Nostr.copies_after Cases.profile_after)
      (Some Cases.EVE_PUBKEY) (Some Cases.profile_event) Nostr.Answered true
    = (Return true, Cases.profile_after).
Proof. split; vm_compute; reflexivity. Qed.

(** ** The NIP-05 endpoint *)

Section Nip05Facts.
Context (users_of : string → list Nostr.user) (uri_to_id : string → option string).

Local Abbreviation nip_05 := (Nostr.nip_05 users_of uri_to_id).
Local Abbreviation query_get := (Nostr.query_get users_of).

Local Abbreviation listed := (Nostr.listed users_of).

Lemma query_get_matches proto name u :
  query_get proto name = Some u →
  u ∈ users_of proto ∧
  (Nostr.handle u = Some name ∨ Nostr.handle_as_domain u = Some name
   ∨ Nostr.key_id u = name).
Proof.
  unfold Nostr.query_get. intros H.
  apply find_some in H as [Hin Hm]. split; [by apply list_elem_of_In|].
  unfold Nostr.matches in Hm.
  apply orb_prop in Hm as [Hm|Hm]; [apply orb_prop in Hm as [Hm|Hm]|].
  - left. by apply bool_decide_eq_true in Hm.
  - right; left. by apply bool_decide_eq_true in Hm.
  - right; right. by apply String.eqb_eq.
Qed.

Lemma listed_unique name for_request npub :
  listed name for_request npub →
  ∀ npub', listed name for_request npub' → npub' = npub.
Proof.
  intros (p & u & -> & _ & Hq & _ & Hc & _) npub'
         (p' & u' & [= <-] & _ & Hq' & _ & Hc' & _).
  congruence.
Qed.

(** The handler, for a non-empty [name], by whether a copy is listed. *)
Lemma nip_05_cases name for_request :
  name ≠ "" →
  (∃ npub, listed name for_request npub ∧
           nip_05 (Some name) for_request
           = match uri_to_id npub with
             | Some hex => Nostr.Names name hex
             | None => Nostr.ServerError
             end)
  ∨ ((¬ ∃ npub, listed name for_request npub) ∧
     nip_05 (Some name) for_request = Nostr.NotFound).
Proof.
  intros Hname. apply String.eqb_neq in Hname.
  unfold Nostr.nip_05, Nostr.listed. rewrite Hname.
  destruct for_request as [proto|];
    [|right; split; [by intros (? & ? & ? & ? & _)|done]].
  destruct (String.eqb proto Nostr.LABEL) eqn:Hp.
  { apply String.eqb_eq in Hp as ->.
    right; split; [by intros (? & ? & ? & [= <-] & ? & _)|done]. }
  apply String.eqb_neq in Hp.
  destruct (query_get proto name) as [u|] eqn:Hq;
    [|right; split; [intros (? & ? & ? & [= <-] & _ & ? & _); congruence|done]].
  destruct (Nostr.is_enabled_nostr u) eqn:He;
    [|right; split; [intros (? & ? & ? & [= <-] & _ & ? & ? & _); congruence|done]].
  destruct (Models.get_copy Nostr.LABEL (Nostr.copies u)) as [npub|] eqn:Hc;
    [|right; split; [intros (? & ? & ? & [= <-] & _ & ? & _ & ? & _); congruence|done]].
  destruct (String.eqb npub "") eqn:Hn.
  { apply String.eqb_eq in Hn as ->.
    right; split; [intros (? & ? & ? & [= <-] & _ & ? & _ & ? & ?); congruence|done]. }
  apply String.eqb_neq in Hn.
  left. exists npub. split; [by exists proto, u|done].
Qed.

(** C9, as the code has it: for a request with a non-empty [name], the
    endpoint answers [{'names': {name: hex}}] exactly when the requesting
    protocol is not Nostr and the first user its query returns for [name]
    is enabled for Nostr and has a Nostr copy, [hex] being that copy's
    key; it answers 404 exactly when there is no such user.  (A copy that
    [uri_to_id] cannot decode is the remaining case, an error.) *)
Theorem nip_05_spec name for_request :
  name ≠ "" →
  (∀ n hex, nip_05 (Some name) for_request = Nostr.Names n hex ↔
            n = name ∧ ∃ npub, listed name for_request npub ∧ uri_to_id npub = Some hex) ∧
  (nip_05 (Some name) for_request = Nostr.NotFound ↔
     ¬ ∃ npub, listed name for_request npub) ∧
  nip_05 (Some name) for_request ≠ Nostr.BadRequest ∧
  (for_request = Some Nostr.LABEL → nip_05 (Some name) for_request = Nostr.NotFound).
Proof.
  intros Hname.
  destruct (nip_05_cases name for_request Hname) as [(npub & Hl & E)|[Hl E]].
  - pose proof (listed_unique _ _ _ Hl) as Hu.
    split; [|split; [|split]].
    + intros n hex. rewrite E. split.
      * destruct (uri_to_id npub) eqn:Ed; intros [= <- <-]; eauto.
      * intros [-> (npub' & Hl' & Hd)]. rewrite <- (Hu _ Hl'), Hd. done.
    + rewrite E. split.
      * by destruct (uri_to_id npub).
      * intros Hno. destruct Hno. eauto.
    + rewrite E. by destruct (uri_to_id npub).
    + intros ->. by destruct Hl as (? & ? & [= <-] & ? & _).
  - split; [|split; [|split]].
    + intros n hex. rewrite E. split; [done|].
      intros [_ (npub & Hl' & _)]. destruct Hl. eauto.
    + by rewrite E.
    + by rewrite E.
    + by rewrite E.
Qed.

End Nip05Facts.

Lemma nip_05_spec_witness :
  Nostr.nip_05 Cases.users_of Cases.uri_to_id (Some "fake-handle-alice") (Some "fake")
  = Nostr.Names "fake-handle-alice" Cases.EVE_PUBKEY ↔
  "fake-handle-alice" = "fake-handle-alice" ∧
  ∃ npub, Nostr.listed Cases.users_of "fake-handle-alice" (Some "fake") npub
          ∧ Cases.uri_to_id npub = Some Cases.EVE_PUBKEY.
Proof.
  assert ("fake-handle-alice" ≠ "") as Hname by discriminate.
  apply (proj1 (nip_05_spec Cases.users_of Cases.uri_to_id "fake-handle-alice"
                  (Some "fake") Hname)).
Defined.

(** A request without a [name] parameter is answered 400, not 404, and no
    names are returned. *)
Lemma nip_05_missing_name_is_400 :
  let r := Nostr.nip_05 Cases.users_of Cases.uri_to_id None (Some "fake") in
  r = Nostr.BadRequest ∧ r ≠ Nostr.NotFound ∧ ∀ n hex, r ≠ Nostr.Names n hex.
Proof. simpl. repeat split; discriminate. Qed.

Example nip_05_alice :
  Nostr.nip_05 Cases.users_of Cases.uri_to_id (Some "fake-handle-alice") (Some "fake")
  = Nostr.Names "fake-handle-alice" Cases.EVE_PUBKEY.
Proof. vm_compute. reflexivity. Qed.

Example nip_05_native_nostr :
  Nostr.nip_05 Cases.users_of Cases.uri_to_id (Some "npub123") (Some "nostr")
  = Nostr.NotFound.
Proof. vm_compute. reflexivity. Qed.

(** ** [ATProto.create_for] *)

Section Runs.
Import ATProto.
Lemma bind_run {A B} (m : M A) (f : A → M B) s r s' :
  (m ≫= f) s = (r, s') →
  (∃ site, m s = (Raise site, s') ∧ r = Raise site)
  ∨ (∃ a s1, m s = (Return a, s1) ∧ f a s1 = (r, s')).
Proof.
  unfold mbind, M_bind. destruct (m s) as [[a|site] s1]; intros H.
  - right. eauto.
  - left. exists site. by simplify_eq.
Qed.

Lemma ret_run {A} (a : A) s r s' :
  (mret a : M A) s = (r, s') → r = Return a ∧ s' = s.
Proof. by intros [= <- <-]. Qed.

Lemma raise_run {A} site s (r : result A) s' :
  raise site s = (r, s') → r = Raise site ∧ s' = s.
Proof. by intros [= <- <-]. Qed.

Lemma get_state_run s r s' : get_state s = (r, s') → r = Return s ∧ s' = s.
Proof. by intros [= <- <-]. Qed.

Lemma emit_run e s r s' :
  emit e s = (r, s') →
  r = Return () ∧ is_atproto s' = is_atproto s ∧ user_copies s' = user_copies s
  ∧ user_obj s' = user_obj s ∧ repos s' = repos s ∧ log s' = log s ++ [e].
Proof. by intros [= <- <-]. Qed.

Lemma set_user_copies_run c s r s' :
  set_user_copies c s = (r, s') →
  r = Return () ∧ is_atproto s' = is_atproto s ∧ user_copies s' = c
  ∧ user_obj s' = user_obj s ∧ repos s' = repos s ∧ log s' = log s.
Proof. by intros [= <- <-]. Qed.

Lemma set_user_obj_run p s r s' :
  set_user_obj p s = (r, s') →
  r = Return () ∧ is_atproto s' = is_atproto s ∧ user_copies s' = user_copies s
  ∧ user_obj s' = p ∧ repos s' = repos s ∧ log s' = log s.
Proof. by intros [= <- <-]. Qed.

Lemma set_repo_run did st s r s' :
  set_repo did st s = (r, s') →
  r = Return () ∧ is_atproto s' = is_atproto s ∧ user_copies s' = user_copies s
  ∧ user_obj s' = user_obj s ∧ repos s' = <[did := st]> (repos s) ∧ log s' = log s.
Proof. by intros [= <- <-]. Qed.

Lemma call_run site ok e s r s' :
  call site ok e s = (r, s') →
  (ok = false ∧ r = Raise site ∧ s' = s)
  ∨ (ok = true ∧ r = Return () ∧ is_atproto s' = is_atproto s
     ∧ user_copies s' = user_copies s ∧ user_obj s' = user_obj s
     ∧ repos s' = repos s ∧ log s' = log s ++ [e]).
Proof.
  unfold call. destruct ok; intros H.
  - right. split; [done|]. by apply emit_run.
  - left. by apply raise_run in H as [-> ->].
Qed.
End Runs.

(** One step of inverting a run of an [ATProto.M] computation. *)
Ltac run_step :=
  match goal with
  | H : (_ ≫= _) _ = (_, _) |- _ =>
      apply bind_run in H as [(? & H & ?) | (? & ? & ? & H)]
  | H : @mret ATProto.M _ _ _ _ = (_, _) |- _ => apply ret_run in H as [? ?]
  | H : ATProto.raise _ _ = (_, _) |- _ => apply raise_run in H as [? ?]
  | H : ATProto.get_state _ = (_, _) |- _ => apply get_state_run in H as [? ?]
  | H : ATProto.emit _ _ = (_, _) |- _ => apply emit_run in H as (? & ? & ? & ? & ? & ?)
  | H : ATProto.set_user_copies _ _ = (_, _) |- _ =>
      apply set_user_copies_run in H as (? & ? & ? & ? & ? & ?)
  | H : ATProto.set_user_obj _ _ = (_, _) |- _ =>
      apply set_user_obj_run in H as (? & ? & ? & ? & ? & ?)
  | H : ATProto.set_repo _ _ _ = (_, _) |- _ =>
      apply set_repo_run in H as (? & ? & ? & ? & ? & ?)
  | H : ATProto.call _ _ _ _ = (_, _) |- _ =>
      apply call_run in H as [(? & ? & ?) | (? & ? & ? & ? & ? & ? & ?)]
  | H : (match ?x with _ => _ end) _ = (_, _) |- _ => destruct x eqn:?
  | H : (if ?b then _ else _) _ = (_, _) |- _ => destruct b eqn:?
  end; simplify_eq.


Section CreateForFacts.
Import ATProto.

Lemma new_did_failure o handle s site s' :
  create_new_did o handle s = (Raise site, s') → site ≠ "user.put" →
  user_copies s' = user_copies s.
Proof.
  intros H Hs. unfold create_new_did in H.
  repeat run_step; congruence.
Qed.

Lemma new_did_success o handle s s' :
  create_new_did o handle s = (Return (), s') →
  ∃ did, create_plc o = Some did ∧
    user_copies s' = Models.add (user_copies s) (mkTarget did "atproto") ∧
    repos s' = <[did := None]> (repos s) ∧
    is_atproto s' = is_atproto s ∧
    store_did_doc_ok o = true ∧ set_dns_ok o = true ∧ repo_create_ok o = true ∧
    commit_initial_ok o = true ∧ put_user_ok o = true.
Proof.
  intros H. unfold create_new_did in H.
  repeat run_step; (eexists; split; [reflexivity|]; repeat split; congruence).
Qed.

Lemma create_for_active o s h did status :
  is_atproto s = false →
  handle_as o = Some h →
  truthy_value (Models.get_copy LABEL (user_copies s)) = Some did →
  repos s !! did = Some status →
  falsy status = true →
  create_for o s = (Return (), s).
Proof.
  intros Ha Hh Hc Hr Hf.
  unfold create_for, mbind, M_bind, get_state.
  rewrite Ha, Hh. unfold mret at 1, M_ret at 1.
  by rewrite Hc, Hr, Hf.
Qed.

Lemma create_for_fresh_failure o s site s' :
  truthy_value (Models.get_copy LABEL (user_copies s)) = None →
  create_for o s = (Raise site, s') → site ≠ "user.put" →
  user_copies s' = user_copies s.
Proof.
  intros Hc H Hs. unfold create_for in H.
  repeat run_step; try congruence.
  by eapply new_did_failure.
Qed.

(** A tombstoned shadow: the copies are wiped before the new DID is
    made, so a failure on the way leaves them empty. *)
Lemma create_for_tombstoned_failure o s did site s' :
  truthy_value (Models.get_copy LABEL (user_copies s)) = Some did →
  repos s !! did = Some (Some TOMBSTONED) →
  create_for o s = (Raise site, s') → site ≠ "user.put" →
  site ≠ "user.handle_as" → site ≠ "assert not isinstance(user, ATProto)" →
  user_copies s' = [].
Proof.
  intros Hc Hr H Hs Hs1 Hs2. unfold create_for in H.
  repeat run_step; try congruence;
    match goal with
    | H : create_new_did _ _ _ = _ |- _ =>
        apply new_did_failure in H; [congruence|done]
    end.
Qed.

Lemma get_copy_add_fresh label copies did :
  Models.get_copy label copies = None →
  Models.get_copy label (Models.add copies (mkTarget did label)) = Some did.
Proof.
  unfold Models.add. case_bool_decide as Hin.
  - intros Hnone. exfalso. induction copies as [|t rest IH]; [by apply elem_of_nil in Hin|].
    simpl in Hnone. destruct (String.eqb (protocol t) label) eqn:E; [done|].
    apply elem_of_cons in Hin as [<-|Hin]; [|by apply IH].
    simpl in E. by rewrite String.eqb_refl in E.
  - clear Hin. induction copies as [|t rest IH]; simpl.
    + by rewrite String.eqb_refl.
    + destruct (String.eqb (protocol t) label); [done|]. apply IH.
Qed.

Lemma get_copy_some_elem label copies u :
  Models.get_copy label copies = Some u →
  ∃ t, t ∈ copies ∧ protocol t = label ∧ uri t = u.
Proof.
  induction copies as [|t rest IH]; [done|]. simpl.
  destruct (String.eqb (protocol t) label) eqn:E.
  - intros [= <-]. apply String.eqb_eq in E. exists t. by rewrite elem_of_cons; auto.
  - intros H. destruct (IH H) as (t' & ? & ? & ?). exists t'.
    by rewrite elem_of_cons; auto.
Qed.

Lemma truthy_value_none_get_copy copies :
  (∀ t, t ∈ copies → protocol t = LABEL → uri t ≠ "") →
  truthy_value (Models.get_copy LABEL copies) = None →
  Models.get_copy LABEL copies = None.
Proof.
  intros Hne. destruct (Models.get_copy LABEL copies) as [u|] eqn:E; [|done].
  destruct (get_copy_some_elem _ _ _ E) as (t & Hin & Hp & <-).
  simpl. destruct (String.eqb (uri t) "") eqn:Eu; [|done].
  apply String.eqb_eq in Eu. by destruct (Hne t Hin Hp).
Qed.

Lemma truthy_value_some did : did ≠ "" → truthy_value (Some did) = Some did.
Proof. intros H. simpl. apply String.eqb_neq in H. by rewrite H. Qed.

Lemma new_did_shadow o h s s' :
  Models.get_copy LABEL (user_copies s) = None →
  create_plc o ≠ Some "" →
  create_new_did o h s = (Return (), s') →
  is_atproto s' = is_atproto s ∧
  ∃ did status, truthy_value (Models.get_copy LABEL (user_copies s')) = Some did ∧
                repos s' !! did = Some status ∧ falsy status = true.
Proof.
  intros Hc Hplc H.
  destruct (new_did_success _ _ _ _ H) as (did & Hd & Hu & Hr & Ha & _).
  split; [done|]. exists did, None.
  rewrite Hu, Hr. change (mkTarget did "atproto") with (mkTarget did LABEL).
  rewrite (get_copy_add_fresh LABEL _ did Hc), lookup_insert_eq.
  split; [|done]. apply truthy_value_some. congruence.
Qed.

Local Ltac reactivated s :=
  match goal with
  | Hc : truthy_value (Models.get_copy LABEL (user_copies s)) = Some ?d
    |- _ ∧ (∃ did status,
               truthy_value (Models.get_copy LABEL (user_copies ?x)) = _ ∧ _) =>
      split; [congruence|]; exists d, None;
      replace (user_copies x) with (user_copies s) by congruence;
      replace (repos x) with (<[d:=None]> (repos s)) by congruence;
      split; [done|]; split; [apply lookup_insert_eq|done]
  end.

(** After a successful [create_for] the user has an ATProto copy whose
    repo is active. *)
Lemma create_for_success_shadow o s s' :
  (∀ t, t ∈ user_copies s → protocol t = LABEL → uri t ≠ "") →
  create_plc o ≠ Some "" →
  create_for o s = (Return (), s') →
  is_atproto s' = false ∧
  ∃ did status, truthy_value (Models.get_copy LABEL (user_copies s')) = Some did ∧
                repos s' !! did = Some status ∧ falsy status = true.
Proof.
  intros Hne Hplc H. unfold create_for in H.
  repeat run_step;
    try match goal with
      | H : create_new_did _ _ ?x = _ |- _ =>
          apply new_did_shadow in H as [Ha ?];
          [split; [congruence|done]
          |first [apply truthy_value_none_get_copy; by auto
                 |by replace (user_copies x) with (@nil Target) by congruence]
          |done]
      end.
  - split; [done|]. eauto.
  - reactivated s.
  - reactivated s.
Qed.

End CreateForFacts.

Section CreateForCopies.
Import ATProto.

(** When the new-DID path has changed [user.copies], every step before
    the closing [user.put()] has gone through. *)
Lemma new_did_added_steps o handle s r s' :
  create_new_did o handle s = (r, s') →
  user_copies s' ≠ user_copies s →
  ∃ did, create_plc o = Some did
    ∧ user_copies s' = Models.add (user_copies s) (mkTarget did "atproto")
    ∧ store_did_doc_ok o = true ∧ set_dns_ok o = true
    ∧ repo_create_ok o = true ∧ commit_initial_ok o = true
    ∧ (r = Return () ∨ r = Raise "user.put").
Proof.
  intros H Hne. unfold create_new_did in H.
  repeat run_step; try congruence.
  all: eexists; split; [reflexivity|].
  all: split; [congruence|].
  all: repeat (split; [done|]); by auto.
Qed.

Lemma new_did_added_reload o handle s r s' :
  create_new_did o handle s = (r, s') →
  user_copies s' ≠ user_copies s →
  profile_has_as1 (user_obj s) = false → reload_profile o ≠ None.
Proof.
  intros H Hne Hp. unfold create_new_did in H.
  repeat run_step; try congruence.
  all: exfalso;
    match goal with
    | N : negb (profile_has_as1 _) = false |- _ => apply negb_false_iff in N
    end; congruence.
Qed.

Lemma new_did_added_profile o handle s r s' :
  create_new_did o handle s = (r, s') →
  user_copies s' ≠ user_copies s →
  profile_has_as1 (user_obj s') = true →
  pinned_post o ≠ None
  ∧ ∃ rec, convert_profile o = Some (Some rec)
           ∧ commit_profile_ok o = true ∧ put_profile_ok o = true.
Proof.
  intros H Hne Hp. unfold create_new_did in H.
  repeat run_step; try congruence.
  all: try (split; [congruence|]; eexists; repeat split; congruence).
  all: exfalso;
    repeat match goal with
           | E : user_obj ?a = _ |- _ => rewrite E in Hp
           end; simpl in *; congruence.
Qed.

Lemma new_did_added o handle s r s' :
  create_new_did o handle s = (r, s') →
  user_copies s' ≠ user_copies s →
  ∃ did, create_plc o = Some did
    ∧ user_copies s' = Models.add (user_copies s) (mkTarget did "atproto")
    ∧ store_did_doc_ok o = true ∧ set_dns_ok o = true
    ∧ repo_create_ok o = true ∧ commit_initial_ok o = true
    ∧ (profile_has_as1 (user_obj s) = false → reload_profile o ≠ None)
    ∧ (profile_has_as1 (user_obj s') = true →
       pinned_post o ≠ None
       ∧ ∃ rec, convert_profile o = Some (Some rec)
                ∧ commit_profile_ok o = true ∧ put_profile_ok o = true)
    ∧ (r = Return () ∨ r = Raise "user.put").
Proof.
  intros H Hne.
  destruct (new_did_added_steps _ _ _ _ _ H Hne) as (did & ? & ? & ? & ? & ? & ? & ?).
  exists did. repeat (split; [done|]).
  split; [by eapply new_did_added_reload|].
  split; [by eapply new_did_added_profile|done].
Qed.

Lemma create_for_failure_cases o s site s' :
  create_for o s = (Raise site, s') → site ≠ "user.put" →
  (¬ tombstoned s → user_copies s' = user_copies s)
  ∧ (tombstoned s →
     user_copies s' = []
     ∨ (user_copies s' = user_copies s
        ∧ (site = "user.handle_as"
           ∨ site = "assert not isinstance(user, ATProto)"))).
Proof.
  intros H Hs. unfold create_for, tombstoned in H |- *.
  repeat run_step.
  all: try match goal with
           | N : create_new_did _ _ ?x = (Raise _, _) |- _ =>
               apply new_did_failure in N; [|done]
           end.
  all: split.
  all: first
    [ intros Hnt; exfalso; apply Hnt; eexists; split; [reflexivity|];
      match goal with
      | B : bool_decide (_ = Some TOMBSTONED) = true |- _ =>
          apply bool_decide_eq_true in B
      end; congruence
    | intros _; congruence
    | intros _; left; congruence
    | intros _; right; split; [congruence|by auto]
    | intros (did & Hd & Hr); exfalso; simplify_eq;
      repeat match goal with
             | B : bool_decide _ = false |- _ => apply bool_decide_eq_false in B
             end;
      simpl in *; done ].
Qed.

Lemma create_for_added o s r s' :
  create_for o s = (r, s') →
  user_copies s' ≠ user_copies s → user_copies s' ≠ [] →
  ∃ did, create_plc o = Some did
    ∧ (¬ tombstoned s →
       user_copies s' = Models.add (user_copies s) (mkTarget did "atproto"))
    ∧ (tombstoned s → user_copies s' = [mkTarget did "atproto"])
    ∧ store_did_doc_ok o = true ∧ set_dns_ok o = true
    ∧ repo_create_ok o = true ∧ commit_initial_ok o = true
    ∧ (profile_has_as1 (user_obj s) = false → reload_profile o ≠ None)
    ∧ (profile_has_as1 (user_obj s') = true →
       pinned_post o ≠ None
       ∧ ∃ rec, convert_profile o = Some (Some rec)
                ∧ commit_profile_ok o = true ∧ put_profile_ok o = true)
    ∧ (r = Return () ∨ r = Raise "user.put").
Proof.
  intros H Hne Hnil. unfold create_for in H.
  repeat run_step; try congruence.
  all: match goal with
       | N : create_new_did _ _ ?x = _ |- _ =>
           apply new_did_added in N as (did & Hplc & Hadd & Hrest); [|congruence];
           exists did; split; [done|]
       end.
  all: destruct Hrest as (? & ? & ? & ? & Hre & Hpr & Hend).
  all: split;
    [first [ intros Hnt; exfalso; apply Hnt; eexists; split; [eassumption|];
             match goal with
             | B : bool_decide (_ = Some TOMBSTONED) = true |- _ =>
                 apply bool_decide_eq_true in B
             end; congruence
           | intros _; congruence ]|].
  all: split;
    [first [ intros (d & Hd & _); congruence
           | intros _; rewrite Hadd;
             match goal with
             | |- Models.add (user_copies ?x) _ = _ =>
                 replace (user_copies x) with (@nil Target) by congruence
             end; reflexivity ]|].
  all: do 4 (split; [assumption|]).
  all: split; [|by split].
  all: intros Hp; apply Hre;
    repeat match goal with
           | E : user_obj ?a = _ |- context [user_obj ?a] => rewrite E
           end; simpl in *; congruence.
Qed.

End CreateForCopies.

(** C3, as the code has it: when [create_for] fails at a step before the
    closing [user.put()], [user.copies] is as it was when the new-DID
    path was entered: unchanged, unless the user's repo was tombstoned;
    then [create_for] has emptied [user.copies] before that path, and
    they are left empty.  The [Target(did, 'atproto')] is in
    [user.copies] only once PLC, the DID document, the DNS record, the
    profile fetch, the repo, the initial commit and, for a user with a
    profile, its conversion, commit and put have all gone through. *)
Theorem create_for_failure_copies (o : ATProto.oracle) (s : ATProto.state) :
  (∀ site s',
     ATProto.create_for o s = (Raise site, s') → site ≠ "user.put" →
     (¬ ATProto.tombstoned s → ATProto.user_copies s' = ATProto.user_copies s)
     ∧ (ATProto.tombstoned s →
        ATProto.user_copies s' = []
        ∨ (ATProto.user_copies s' = ATProto.user_copies s
           ∧ (site = "user.handle_as"
              ∨ site = "assert not isinstance(user, ATProto)")))) ∧
  (∀ r s',
     ATProto.create_for o s = (r, s') →
     ATProto.user_copies s' ≠ ATProto.user_copies s →
     ATProto.user_copies s' ≠ [] →
     ∃ did, ATProto.create_plc o = Some did
       ∧ (¬ ATProto.tombstoned s →
          ATProto.user_copies s'
          = Models.add (ATProto.user_copies s) (mkTarget did "atproto"))
       ∧ (ATProto.tombstoned s → ATProto.user_copies s' = [mkTarget did "atproto"])
       ∧ ATProto.store_did_doc_ok o = true ∧ ATProto.set_dns_ok o = true
       ∧ ATProto.repo_create_ok o = true ∧ ATProto.commit_initial_ok o = true
       ∧ (ATProto.profile_has_as1 (ATProto.user_obj s) = false →
          ATProto.reload_profile o ≠ None)
       ∧ (ATProto.profile_has_as1 (ATProto.user_obj s') = true →
          ATProto.pinned_post o ≠ None
          ∧ ∃ rec, ATProto.convert_profile o = Some (Some rec)
                   ∧ ATProto.commit_profile_ok o = true
                   ∧ ATProto.put_profile_ok o = true)
       ∧ (r = Return () ∨ r = Raise "user.put")).
Proof.
  split.
  - intros site s'. apply create_for_failure_cases.
  - intros r s'. apply create_for_added.
Qed.

Lemma create_for_failure_copies_witness :
  let fresh := ATProto.create_for Cases.plc_down Cases.alice_new in
  let again := ATProto.create_for Cases.plc_down Samples.alice_tombstoned in
  (fresh.1 = Raise "did.create_plc"
   ∧ ATProto.user_copies fresh.2 = ATProto.user_copies Cases.alice_new)
  ∧ (again.1 = Raise "did.create_plc"
     ∧ (ATProto.user_copies again.2 = []
        ∨ (ATProto.user_copies again.2 = ATProto.user_copies Samples.alice_tombstoned
           ∧ ("did.create_plc" = "user.handle_as"
              ∨ "did.create_plc" = "assert not isinstance(user, ATProto)")))).
Proof.
  intros fresh again.
  assert (ATProto.tombstoned Samples.alice_tombstoned) as Ht.
  { exists "did:plc:old". split; vm_compute; reflexivity. }
  assert (¬ ATProto.tombstoned Cases.alice_new) as Hn.
  { intros (did & Hd & _). vm_compute in Hd. discriminate. }
  split; (split; [vm_compute; reflexivity|]).
  - apply (proj1 (proj1 (create_for_failure_copies Cases.plc_down Cases.alice_new)
                    "did.create_plc" fresh.2 eq_refl ltac:(discriminate))).
    exact Hn.
  - apply (proj2 (proj1 (create_for_failure_copies Cases.plc_down Samples.alice_tombstoned)
                    "did.create_plc" again.2 eq_refl ltac:(discriminate))).
    exact Ht.
Defined.

(** A user whose repo is tombstoned and who has a Nostr copy: PLC is down,
    so [create_for] fails at the first step of the new-DID path, and
    [user.copies], Nostr copy included, is empty afterwards. *)
Lemma create_for_tombstoned_failure_loses_copies :
  let run := ATProto.create_for Cases.plc_down Samples.alice_tombstoned in
  run.1 = Raise "did.create_plc"
  ∧ ATProto.user_copies Samples.alice_tombstoned
    = [mkTarget Cases.EVE_NPUB_URI "nostr"; mkTarget "did:plc:old" "atproto"]
  ∧ ATProto.user_copies run.2 = []
  ∧ ATProto.user_copies run.2 ≠ ATProto.user_copies Samples.alice_tombstoned.
Proof.
  split; [vm_compute; reflexivity|].
  split; [reflexivity|].
  split; [vm_compute; reflexivity|].
  vm_compute. discriminate.
Qed.

(** C4: [create_for] on a user whose shadow repo exists and is active
    returns at once and changes nothing: no PLC operation, no DNS record,
    no new entry in [user.copies] (the state, call log included, is the
    same).  So a second [create_for] after a successful first one is a
    no-op. *)
Theorem create_for_idempotent :
  (∀ o s h did status,
     ATProto.is_atproto s = false →
     ATProto.handle_as o = Some h →
     ATProto.truthy_value (Models.get_copy ATProto.LABEL (ATProto.user_copies s))
     = Some did →
     ATProto.repos s !! did = Some status →
     ATProto.falsy status = true →
     ATProto.create_for o s = (Return (), s)) ∧
  (∀ o1 o2 s s1 h,
     (∀ t, t ∈ ATProto.user_copies s → protocol t = ATProto.LABEL → uri t ≠ "") →
     ATProto.create_plc o1 ≠ Some "" →
     ATProto.create_for o1 s = (Return (), s1) →
     ATProto.handle_as o2 = Some h →
     ATProto.create_for o2 s1 = (Return (), s1)).
Proof.
  split.
  - apply create_for_active.
  - intros o1 o2 s s1 h Hne Hplc H1 Hh.
    destruct (create_for_success_shadow _ _ _ Hne Hplc H1)
      as (Ha & did & status & Hc & Hr & Hf).
    by eapply create_for_active.
Qed.

Lemma create_for_idempotent_witness :
  ATProto.create_for Cases.all_ok Cases.alice_bridged = (Return (), Cases.alice_bridged)
  ∧ ATProto.create_for Cases.all_ok (ATProto.create_for Cases.all_ok Cases.alice_new).2
    = (Return (), (ATProto.create_for Cases.all_ok Cases.alice_new).2).
Proof.
  split.
  - apply (proj1 create_for_idempotent Cases.all_ok Cases.alice_bridged
             "alice.fa.brid.gy" "did:plc:alice" None).
    + reflexivity.
    + reflexivity.
    + vm_compute. reflexivity.
    + vm_compute. reflexivity.
    + reflexivity.
  - apply (proj2 create_for_idempotent Cases.all_ok Cases.all_ok Cases.alice_new
             (ATProto.create_for Cases.all_ok Cases.alice_new).2 "alice.fa.brid.gy").
    + intros t Hin _. apply list_elem_of_singleton in Hin as ->. discriminate.
    + discriminate.
    + vm_compute. reflexivity.
    + reflexivity.
Defined.

Example create_for_twice :
  ∃ s1, ATProto.create_for Cases.all_ok Cases.alice_new = (Return (), s1)
        ∧ ATProto.create_for Cases.all_ok s1 = (Return (), s1)
        ∧ ATProto.user_copies s1
          = [mkTarget Cases.EVE_NPUB_URI "nostr"; mkTarget "did:plc:alice" "atproto"].
Proof.
  eexists. split; [vm_compute; reflexivity|].
  split; [vm_compute; reflexivity|reflexivity].
Qed.

(** ** [ATProto.send] *)

Section Flows.
Import ATProto.

Lemma bind_flow {A B} (m : S A) (f : A → S B) s fl s' :
  (m ≫= f) s = (fl, s') →
  (∃ r, m s = (Exit r, s') ∧ fl = Exit r)
  ∨ (∃ a s1, m s = (Go a, s1) ∧ f a s1 = (fl, s')).
Proof.
  unfold mbind, S_bind. destruct (m s) as [[a|r] s1]; intros H.
  - right. eauto.
  - left. exists r. by simplify_eq.
Qed.

Lemma go_flow {A} (a : A) s fl s' :
  (mret a : S A) s = (fl, s') → fl = Go a ∧ s' = s.
Proof. by intros [= <- <-]. Qed.

Lemma returns_flow {A} b s (fl : flow A) s' :
  returns b s = (fl, s') → fl = Exit (Return b) ∧ s' = s.
Proof. by intros [= <- <-]. Qed.

Lemma raises_flow {A} site s (fl : flow A) s' :
  raises site s = (fl, s') → fl = Exit (Raise site) ∧ s' = s.
Proof. by intros [= <- <-]. Qed.

Lemma does_flow e s fl s' :
  does e s = (fl, s') →
  fl = Go () ∧ base_obj s' = base_obj s ∧ effects s' = effects s ++ [e].
Proof. by intros [= <- <-]. Qed.

Lemma set_base_flow b s fl s' :
  set_base b s = (fl, s') →
  fl = Go () ∧ base_obj s' = b ∧ effects s' = effects s.
Proof. by intros [= <- <-]. Qed.

Lemma get_base_flow s fl s' :
  get_base s = (fl, s') → fl = Go (base_obj s) ∧ s' = s.
Proof. by intros [= <- <-]. Qed.

Lemma answered_flow {A} site (x : option A) s fl s' :
  answered site x s = (fl, s') →
  (x = None ∧ fl = Exit (Raise site) ∧ s' = s)
  ∨ (∃ a, x = Some a ∧ fl = Go a ∧ s' = s).
Proof.
  unfold answered. destruct x as [a|]; intros H.
  - right. exists a. by apply go_flow in H as [-> ->].
  - left. by apply raises_flow in H as [-> ->].
Qed.

Lemma check_flow site ok s fl s' :
  check site ok s = (fl, s') →
  (ok = false ∧ fl = Exit (Raise site) ∧ s' = s)
  ∨ (ok = true ∧ fl = Go () ∧ s' = s).
Proof.
  unfold check. destruct ok; intros H.
  - right. by apply go_flow in H as [-> ->].
  - left. by apply raises_flow in H as [-> ->].
Qed.
End Flows.

(** One step of inverting a run of an [ATProto.S] computation. *)
Ltac flow_step :=
  match goal with
  | H : (_ ≫= _) _ = (_, _) |- _ =>
      apply bind_flow in H as [(? & H & ?) | (? & ? & ? & H)]
  | H : @mret ATProto.S _ _ _ _ = (_, _) |- _ => apply go_flow in H as [? ?]
  | H : ATProto.returns _ _ = (_, _) |- _ => apply returns_flow in H as [? ?]
  | H : ATProto.raises _ _ = (_, _) |- _ => apply raises_flow in H as [? ?]
  | H : ATProto.does _ _ = (_, _) |- _ => apply does_flow in H as (? & ? & ?)
  | H : ATProto.set_base _ _ = (_, _) |- _ => apply set_base_flow in H as (? & ? & ?)
  | H : ATProto.get_base _ = (_, _) |- _ => apply get_base_flow in H as [? ?]
  | H : ATProto.answered _ _ _ = (_, _) |- _ =>
      apply answered_flow in H as [(? & ? & ?) | (? & ? & ? & ?)]
  | H : ATProto.check _ _ _ = (_, _) |- _ =>
      apply check_flow in H as [(? & ? & ?) | (? & ? & ?)]
  | H : (match ?x with _ => _ end) _ = (_, _) |- _ => destruct x eqn:?
  | H : (if ?b then _ else _) _ = (_, _) |- _ => destruct b eqn:?
  end; simplify_eq.

(** Rewrites the effects of the final state down to those of the first. *)
Ltac effects_chain :=
  repeat match goal with
         | H : ATProto.effects ?a = _ |- context [ATProto.effects ?a] =>
             progress rewrite H
         end;
  rewrite <- ?app_assoc.

Section SendFacts.
Import ATProto.

Lemma find_base_effects e s fl s' :
  find_base e s = (fl, s') → effects s' = effects s.
Proof.
  intros H. unfold find_base in H.
  repeat flow_step; congruence.
Qed.

Lemma truthy_value_inv x d : truthy_value x = Some d → x = Some d ∧ d ≠ "".
Proof.
  destruct x as [u|]; [|done]. simpl.
  destruct (String.eqb u "") eqn:E; [done|].
  intros [= <-]. by apply String.eqb_neq in E.
Qed.

Lemma truthy_value_falsy x : truthy_value x = None ↔ falsy x = true.
Proof.
  destruct x as [u|]; [|done]. simpl.
  by destruct (String.eqb u "").
Qed.

Lemma prepare_go e s ctx s' :
  prepare e s = (Go ctx, s') →
  base_obj s' = base_obj s ∧
  effects s' = effects s ++ [ConvertBase; GetOrCreateUser; LoadDidDoc (ctx_did ctx)] ∧
  user_did e = Some (Some (ctx_did ctx)) ∧
  convert e = Some (ctx_record ctx) ∧
  ctx_verb ctx = (if equals (as1_verb e) "stop-following" then Some "delete"
                  else as1_verb e) ∧
  equals (as1_verb e) "flag" = false ∧
  (equals (as1_verb e) "stop-following" = false → falsy (recipient_if_dm e) = true) ∧
  (one_of (as1_verb e) ["delete"; "undo"] = false → Py.truthy (ctx_record ctx) = true).
Proof.
  intros H. unfold prepare, bound, dm_or_commit in H.
  repeat flow_step;
    (split; [congruence|]; split; [by effects_chain|]; split;
     [by match goal with
         | T : truthy_value _ = Some _ |- _ =>
             apply truthy_value_inv in T as [-> _]
         end|];
     split; [done|]; split; [done|]; split; [done|]; split;
     [intros ?; first [discriminate | by apply truthy_value_falsy]|];
     intros Hv; simpl;
     match goal with
     | T : negb (Py.truthy _) && _ = false |- _ =>
         rewrite Hv in T; simpl in T; rewrite andb_true_r in T;
         by apply negb_false_iff in T
     end).
Qed.

Lemma equals_inv x v : equals x v = true → x = Some v.
Proof. apply bool_decide_eq_true. Qed.

(** A [True] from before the commit stage: the actor was deactivated, a
    report was filed, block records were deleted, or a DM was sent. *)
Lemma prepare_true e s s' :
  prepare e s = (Exit (Return true), s') →
  base_obj s' = base_obj s ∧ adds_copy e = false.
Proof.
  intros H. unfold prepare, bound, dm_or_commit in H.
  repeat flow_step;
    (split; [congruence|]; unfold adds_copy;
     first
       [ match goal with
         | V : equals (as1_verb e) ?v = true |- _ =>
             apply equals_inv in V; rewrite V; reflexivity
         end
       | match goal with
         | T : truthy_value (recipient_if_dm e) = Some _ |- _ =>
             apply truthy_value_inv in T as [-> T];
             apply String.eqb_neq in T; simpl; rewrite T;
             apply andb_false_r
         end ]).
Qed.

Lemma record_type_state e record s fl s' :
  record_type e record s = (fl, s') → s' = s.
Proof.
  intros H. unfold record_type in H. by repeat flow_step.
Qed.

Lemma record_type_truthy e record s type s' :
  record_type e record s = (Go type, s') → Py.truthy record = true →
  ∃ t, type = Some t.
Proof.
  intros H Ht. unfold record_type in H. rewrite Ht in H.
  repeat flow_step; eauto.
Qed.






(** A [True] from the commit stage of a delete or undo leaves the base
    object alone. *)
Lemma write_commit_true_delete e ctx s fl s' :
  write_commit e ctx s = (fl, s') →
  fl = Exit (Return true) ∨ fl = Go true →
  one_of (ctx_verb ctx) ["delete"; "undo"] = true →
  base_obj s' = base_obj s.
Proof.
  intros H Hfl Hv. unfold write_commit, record_type, bridged_copy in H.
  rewrite Hv in H.
  repeat flow_step; try (by destruct Hfl); congruence.
Qed.

Lemma one_of_delete_undo_update v :
  one_of v ["delete"; "undo"] = false →
  one_of v ["update"; "delete"; "undo"] = equals v "update".
Proof.
  destruct v as [v|]; [|done]. unfold one_of, equals. intros H.
  apply bool_decide_eq_false in H. apply bool_decide_ext.
  rewrite !elem_of_cons, elem_of_nil in *. split; [|by intros [= ->]; auto].
  intros [->|?]; [done|tauto].
Qed.

(** A [True] from the commit stage of any other send: the write, and the
    copy that names it. *)
Lemma write_commit_true_write e ctx s fl s' :
  write_commit e ctx s = (fl, s') →
  fl = Exit (Return true) ∨ fl = Go true →
  one_of (ctx_verb ctx) ["delete"; "undo"] = false →
  Py.truthy (ctx_record ctx) = true →
  ∃ b f t a coll rk,
    base_obj s = Some b
    ∧ ctx_record ctx = JObj f ∧ Py.assoc "$type" f = Some (JStr t)
    ∧ lexicon_type e t = Some "record"
    ∧ ((ctx_verb ctx = Some "update" ∧ a = UPDATE
        ∧ ∃ copy, Models.get_copy LABEL (obj_copies b) = Some copy
                  ∧ parse_at_uri e copy = Some (ctx_did ctx, coll, rk)
                  ∧ (t ≠ "" → coll = t))
       ∨ (ctx_verb ctx ≠ Some "update" ∧ a = CREATE ∧ coll = t
          ∧ rk = if decide (t = "app.bsky.actor.profile") then "self"
                 else next_tid e))
    ∧ effects s'
      = effects s
        ++ [Commit (ctx_did ctx)
              (mkWrite a (Some coll) (Some rk) (Some (ctx_record ctx))
               :: send_derived_writes e);
            PutBase]
    ∧ base_obj s'
      = Some (mkObj (obj_id b)
                    (Models.add (obj_copies b)
                       (mkTarget (at_uri (ctx_did ctx) t rk) LABEL))
                    (obj_type b)).
Proof.
  intros H Hfl Hv Ht. unfold write_commit, record_type, bridged_copy, first_write in H.
  rewrite Ht, Hv, (one_of_delete_undo_update _ Hv) in H. simpl in H.
  destruct (equals (ctx_verb ctx) "update") eqn:Hu.
  - apply equals_inv in Hu as Hu'.
    repeat flow_step; try (by destruct Hfl).
    match goal with
    | T : truthy_value (Models.get_copy _ _) = Some _ |- _ =>
        apply truthy_value_inv in T as [T _]
    end.
    match goal with
    | B : negb (_ =? _)%string || _ = false |- _ =>
        apply orb_false_iff in B as [Bd Bc];
        apply negb_false_iff, String.eqb_eq in Bd; subst
    end.
    eexists _, _, _, UPDATE, _, _.
    split; [eassumption|]. split; [reflexivity|]. split; [eassumption|].
    split; [match goal with
            | E : (?x =? "record")%string = true |- _ =>
                apply String.eqb_eq in E; by subst
            end|].
    split.
    { left. split; [done|]. split; [done|]. eexists. split; [eassumption|].
      split; [eassumption|]. intros Hne. apply String.eqb_neq in Hne.
      simpl in Bc. rewrite Hne in Bc.
      by apply negb_false_iff, String.eqb_eq in Bc. }
    split; [by effects_chain|].
    match goal with
    | B : base_obj ?x = base_obj ?y, B' : base_obj ?y = Some _ |- base_obj ?x = _ =>
        rewrite B, B'
    end.
    match goal with
    | A : Some _ = base_obj s, A' : base_obj s = Some _ |- _ =>
        rewrite A' in A; injection A as ->
    end.
    reflexivity.
  - repeat flow_step; try (by destruct Hfl).
    eexists _, _, _, CREATE, _, _.
    split; [symmetry; eassumption|]. split; [reflexivity|]. split; [eassumption|].
    split; [match goal with
            | E : (?x =? "record")%string = true |- _ =>
                apply String.eqb_eq in E; by subst
            end|].
    split.
    { right. split; [intros V; unfold equals in Hu; by rewrite V, bool_decide_eq_true_2 in Hu|].
      split; [done|]. split; [reflexivity|]. reflexivity. }
    split.
    { effects_chain. simpl. unfold equals.
      repeat f_equal. case_bool_decide; case_decide; congruence. }
    match goal with
    | B : base_obj ?x = base_obj ?y, B' : base_obj ?y = Some _ |- base_obj ?x = _ =>
        rewrite B, B'
    end.
    unfold equals. simpl. unfold at_uri.
    case_bool_decide; case_decide; congruence.
Qed.

Lemma reach_commit_go e obj ctx st :
  reach_commit e (mkSend (Some obj) []) = (Go ctx, st) →
  effects st = [ConvertBase; GetOrCreateUser; LoadDidDoc (ctx_did ctx)]
  ∧ base_obj st = base_of e obj
  ∧ ∃ s0, prepare e s0 = (Go ctx, st).
Proof.
  intros H. unfold reach_commit in H.
  apply bind_flow in H as [(r & H & ?)|([] & s0 & H0 & H)]; [done|].
  assert (s0 = mkSend (Some obj) []) as -> by (by repeat flow_step).
  apply bind_flow in H as [(r & H & ?)|([] & s1 & H1 & H)]; [done|].
  pose proof (find_base_effects _ _ _ _ H1) as He.
  destruct (prepare_go _ _ _ _ H) as (Hb & Hx & _).
  rewrite Hx, He, Hb. unfold base_of. rewrite H1. eauto.
Qed.

Lemma reach_commit_true e obj st :
  reach_commit e (mkSend (Some obj) []) = (Exit (Return true), st) →
  base_obj st = base_of e obj ∧ adds_copy e = false.
Proof.
  intros H. unfold reach_commit in H.
  apply bind_flow in H as [(r & H & ?)|([] & s0 & H0 & H)];
    [by repeat flow_step|].
  assert (s0 = mkSend (Some obj) []) as -> by (by repeat flow_step).
  apply bind_flow in H as [(r & H & ?)|([] & s1 & H1 & H)].
  { simplify_eq. unfold find_base in H. by repeat flow_step. }
  destruct (prepare_true _ _ _ H) as [Hb Ha].
  unfold base_of. rewrite H1. done.
Qed.

Lemma adds_copy_verb e ctx s s' :
  prepare e s = (Go ctx, s') →
  adds_copy e = negb (one_of (ctx_verb ctx) ["delete"; "undo"])
  ∧ (adds_copy e = true → ctx_verb ctx = as1_verb e).
Proof.
  intros H. destruct (prepare_go _ _ _ _ H) as (_ & _ & _ & _ & Hv & Hf & Hdm & _).
  rewrite Hv. unfold adds_copy.
  destruct (equals (as1_verb e) "stop-following") eqn:Es.
  - apply equals_inv in Es. by rewrite Es.
  - rewrite (Hdm eq_refl), andb_true_r. split; [|done].
    destruct (as1_verb e) as [v|]; [|done]. simpl.
    f_equal. unfold equals in *.
    apply bool_decide_eq_false in Es, Hf.
    apply bool_decide_ext. rewrite !elem_of_cons, !elem_of_nil.
    split; [|tauto]. intros [?|[?|[?|[?|?]]]]; try tauto; congruence.
Qed.

Lemma send_flows e obj r st :
  send e obj = (r, st) →
  ∃ fl, send_body e (mkSend (Some obj) []) = (fl, st) ∧
        (fl = Exit r ∨ ∃ b, fl = Go b ∧ r = Return b).
Proof.
  unfold send. destruct (send_body e _) as [[b|r'] st'] eqn:E; intros [= <- <-].
  - eexists. split; [done|]. right. eauto.
  - eexists. split; [done|]. by left.
Qed.

Lemma atproto_send_true e obj st :
  send e obj = (Return true, st) →
  if adds_copy e
  then ∃ b did f t a coll rk,
      base_of e obj = Some b ∧ user_did e = Some (Some did)
      ∧ convert e = Some (JObj f) ∧ Py.assoc "$type" f = Some (JStr t)
      ∧ ((as1_verb e = Some "update" ∧ a = UPDATE
          ∧ ∃ copy, Models.get_copy LABEL (obj_copies b) = Some copy
                    ∧ parse_at_uri e copy = Some (did, coll, rk)
                    ∧ (t ≠ "" → coll = t))
         ∨ (as1_verb e ≠ Some "update" ∧ a = CREATE ∧ coll = t
            ∧ rk = if decide (t = "app.bsky.actor.profile") then "self"
                   else next_tid e))
      ∧ effects st
        = [ConvertBase; GetOrCreateUser; LoadDidDoc did;
           Commit did (mkWrite a (Some coll) (Some rk) (Some (JObj f))
                       :: send_derived_writes e);
           PutBase]
      ∧ base_obj st
        = Some (mkObj (obj_id b)
                      (Models.add (obj_copies b) (mkTarget (at_uri did t rk) LABEL))
                      (obj_type b))
  else base_obj st = base_of e obj.
Proof.
  intros H. destruct (send_flows _ _ _ _ H) as (fl & Hb & Hfl).
  unfold send_body in Hb.
  apply bind_flow in Hb as [(r & Hr & ->)|(ctx & s1 & Hr & Hw)].
  - destruct Hfl as [[= ->]|(? & ? & _)]; [|done].
    destruct (reach_commit_true _ _ _ Hr) as [Hbase ->]. done.
  - destruct (reach_commit_go _ _ _ _ Hr) as (He & Hbase & s0 & Hp).
    destruct (prepare_go _ _ _ _ Hp) as (_ & _ & Hdid & Hconv & Hv & _ & _ & Ht).
    destruct (adds_copy_verb _ _ _ _ Hp) as [Hadds Hverb]. rewrite Hadds in *.
    assert (fl = Exit (Return true) ∨ fl = Go true) as Hfl'.
    { destruct Hfl as [->|(b & -> & [= <-])]; auto. }
    destruct (one_of (ctx_verb ctx) ["delete"; "undo"]) eqn:Ev; simpl.
    + rewrite <- Hbase. by eapply write_commit_true_delete.
    + specialize (Hverb eq_refl).
      assert (Py.truthy (ctx_record ctx) = true) as Htr.
      { apply Ht. by rewrite <- Hverb. }
      destruct (write_commit_true_write _ _ _ _ _ Hw Hfl' Ev Htr)
        as (b & f & t & a & coll & rk & Hb0 & Hrec & Hty & _ & Hrk & Hx & Hb1).
      exists b, (ctx_did ctx), f, t, a, coll, rk.
      rewrite <- Hverb, <- Hrec.
      split; [congruence|]. split; [done|]. split; [done|]. split; [done|].
      split; [done|]. split; [by rewrite Hx, He|done].
Qed.

End SendFacts.

Example send_create_post :
  ATProto.send Cases.create_post Cases.create_activity
  = (Return true,
     ATProto.mkSend
       (Some (ATProto.mkObj (Some "fake:post")
                [mkTarget "at://did:plc:alice/app.bsky.feed.post/3knew" "atproto"]
                (Some "note")))
       [ATProto.ConvertBase; ATProto.GetOrCreateUser;
        ATProto.LoadDidDoc "did:plc:alice";
        ATProto.Commit "did:plc:alice"
          [ATProto.mkWrite ATProto.CREATE (Some "app.bsky.feed.post") (Some "3knew")
                           (Some Cases.post_record)];
        ATProto.PutBase]).
Proof. vm_compute. reflexivity. Qed.

Example send_delete_post :
  ATProto.send Cases.delete_post Cases.delete_activity
  = (Return true,
     ATProto.mkSend (Some Cases.stored_post)
       [ATProto.ConvertBase; ATProto.GetOrCreateUser;
        ATProto.LoadDidDoc "did:plc:alice";
        ATProto.Commit "did:plc:alice"
          [ATProto.mkWrite ATProto.DELETE (Some "app.bsky.feed.post") (Some "3kpost")
                           None]]).
Proof. vm_compute. reflexivity. Qed.

Example send_undo_block :
  ATProto.send Cases.undo_block Cases.undo_activity
  = (Return true,
     ATProto.mkSend (Some (ATProto.mkObj None [] (Some "block")))
       [ATProto.ConvertBase; ATProto.GetOrCreateUser;
        ATProto.LoadDidDoc "did:plc:alice";
        ATProto.Commit "did:plc:alice"
          [ATProto.mkWrite ATProto.DELETE (Some "app.bsky.graph.block") (Some "3kblock")
                           None]]).
Proof. vm_compute. reflexivity. Qed.

Example send_update_foreign :
  ATProto.send Cases.update_foreign Cases.update_activity
  = (Return false, ATProto.mkSend (Some Cases.foreign_post) Cases.lookups_made).
Proof. vm_compute. reflexivity. Qed.

Example send_update_gone :
  ATProto.send Cases.update_gone Cases.update_activity
  = (Return false, ATProto.mkSend (Some Cases.stored_post) Cases.lookups_made).
Proof. vm_compute. reflexivity. Qed.

Example send_update_unparsed :
  ATProto.send Cases.update_unparsed Cases.update_activity
  = (Raise "parse_at_uri", ATProto.mkSend (Some Cases.odd_post) Cases.lookups_made).
Proof. vm_compute. reflexivity. Qed.



(** C2, as the code has it: when [ATProto.send] returns [True] for a send
    that writes a record (not a delete, undo, stop-following, flag or DM),
    [base_obj.copies] becomes [add(copies, Target(at://did/type/rkey,
    'atproto'))], appended unless an equal entry is there already: [did]
    is the sender's ATProto copy, [type] the [$type] of the converted
    record, and [rkey] the record key of the write that this [send]
    committed to that repo: that of the existing copy for an update,
    ['self'] for a new profile, [next_tid()] for any other new record.
    When it returns [True] for any of those other sends, [base_obj] is
    as [send] found it.  When [Nostr.send] returns [True], the copies are
    the earlier non-Nostr ones followed by one ['nostr'] entry, the URI
    that [id_to_uri(bech32_prefix_for(event), event['id'])] gives for the
    published event. *)
Theorem send_true_copies :
  (∀ e obj st,
     ATProto.send e obj = (Return true, st) →
     if ATProto.adds_copy e
     then ∃ b did f t a coll rk,
         ATProto.base_of e obj = Some b
         ∧ ATProto.user_did e = Some (Some did)
         ∧ ATProto.convert e = Some (JObj f) ∧ Py.assoc "$type" f = Some (JStr t)
         ∧ ((ATProto.as1_verb e = Some "update" ∧ a = ATProto.UPDATE
             ∧ ∃ copy, Models.get_copy ATProto.LABEL (ATProto.obj_copies b) = Some copy
                       ∧ ATProto.parse_at_uri e copy = Some (did, coll, rk)
                       ∧ (t ≠ "" → coll = t))
            ∨ (ATProto.as1_verb e ≠ Some "update" ∧ a = ATProto.CREATE ∧ coll = t
               ∧ rk = if decide (t = "app.bsky.actor.profile") then "self"
                      else ATProto.next_tid e))
         ∧ ATProto.effects st
           = [ATProto.ConvertBase; ATProto.GetOrCreateUser; ATProto.LoadDidDoc did;
              ATProto.Commit did
                (ATProto.mkWrite a (Some coll) (Some rk) (Some (JObj f))
                 :: ATProto.send_derived_writes e);
              ATProto.PutBase]
         ∧ ATProto.base_obj st
           = Some (ATProto.mkObj (ATProto.obj_id b)
                     (Models.add (ATProto.obj_copies b)
                        (mkTarget (ATProto.at_uri did t rk) "atproto"))
                     (ATProto.obj_type b))
     else ATProto.base_obj st = ATProto.base_of e obj) ∧
  (∀ bech32_prefix_for id_to_uri copies from_user converted relay put_ok after,
     Nostr.send bech32_prefix_for id_to_uri copies from_user converted relay put_ok
     = (Return true, after) →
     ∃ event prefix id uri,
       converted = Some event
       ∧ bech32_prefix_for (JObj event) = Some prefix
       ∧ Py.assoc "id" event = Some id
       ∧ id_to_uri prefix id = Some uri
       ∧ Nostr.copies_after after
         = filter (λ c, protocol c ≠ "nostr") copies ++ [mkTarget uri "nostr"]
       ∧ Nostr.stored after = true).
Proof.
  split.
  - apply atproto_send_true.
  - intros bech32_prefix_for id_to_uri copies from_user converted relay put_ok after H.
    destruct (nostr_send_true_inv _ _ _ _ _ _ _ _ H)
      as (event & prefix & id & uri & ? & _ & _ & ? & ? & ? & ->).
    by exists event, prefix, id, uri.
Qed.

Lemma send_true_copies_witness :
  (∃ b did f t a coll rk,
      ATProto.base_of Cases.create_post Cases.create_activity = Some b
      ∧ ATProto.user_did Cases.create_post = Some (Some did)
      ∧ ATProto.convert Cases.create_post = Some (JObj f)
      ∧ Py.assoc "$type" f = Some (JStr t)
      ∧ ((ATProto.as1_verb Cases.create_post = Some "update" ∧ a = ATProto.UPDATE
          ∧ ∃ copy, Models.get_copy ATProto.LABEL (ATProto.obj_copies b) = Some copy
                    ∧ ATProto.parse_at_uri Cases.create_post copy = Some (did, coll, rk)
                    ∧ (t ≠ "" → coll = t))
         ∨ (ATProto.as1_verb Cases.create_post ≠ Some "update" ∧ a = ATProto.CREATE
            ∧ coll = t
            ∧ rk = if decide (t = "app.bsky.actor.profile") then "self"
                   else ATProto.next_tid Cases.create_post))
      ∧ ATProto.effects (ATProto.send Cases.create_post Cases.create_activity).2
        = [ATProto.ConvertBase; ATProto.GetOrCreateUser; ATProto.LoadDidDoc did;
           ATProto.Commit did
             (ATProto.mkWrite a (Some coll) (Some rk) (Some (JObj f))
              :: ATProto.send_derived_writes Cases.create_post);
           ATProto.PutBase]
      ∧ ATProto.base_obj (ATProto.send Cases.create_post Cases.create_activity).2
        = Some (ATProto.mkObj (ATProto.obj_id b)
                  (Models.add (ATProto.obj_copies b)
                     (mkTarget (ATProto.at_uri did t rk) "atproto"))
                  (ATProto.obj_type b))) ∧
  ATProto.base_obj (ATProto.send Cases.delete_post Cases.delete_activity).2
  = ATProto.base_of Cases.delete_post Cases.delete_activity ∧
  ∃ event prefix id uri,
    Some Cases.profile_event = Some event
    ∧ Cases.prefix_of (JObj event) = Some prefix
    ∧ Py.assoc "id" event = Some id
    ∧ Cases.uri_of prefix id = Some uri
    ∧ Nostr.copies_after
        (Nostr.send Cases.prefix_of Cases.uri_of Cases.profile_copies
           (Some Cases.EVE_PUBKEY) (Some Cases.profile_event) Nostr.Answered true).2
      = filter (λ c, protocol c ≠ "nostr") Cases.profile_copies
        ++ [mkTarget uri "nostr"]
    ∧ Nostr.stored
        (Nostr.send Cases.prefix_of Cases.uri_of Cases.profile_copies
           (Some Cases.EVE_PUBKEY) (Some Cases.profile_event) Nostr.Answered true).2
      = true.
Proof.
  split; [|split].
  - apply (proj1 send_true_copies Cases.create_post Cases.create_activity
             (ATProto.send Cases.create_post Cases.create_activity).2).
    vm_compute. reflexivity.
  - apply (proj1 send_true_copies Cases.delete_post Cases.delete_activity
             (ATProto.send Cases.delete_post Cases.delete_activity).2).
    vm_compute. reflexivity.
  - apply (proj2 send_true_copies Cases.prefix_of Cases.uri_of
             Cases.profile_copies (Some Cases.EVE_PUBKEY) (Some Cases.profile_event)
             Nostr.Answered true
             (Nostr.send Cases.prefix_of Cases.uri_of Cases.profile_copies
                (Some Cases.EVE_PUBKEY) (Some Cases.profile_event) Nostr.Answered
                true).2).
    vm_compute. reflexivity.
Defined.

(** A delete of a bridged post: [ATProto.send] commits the deletion and
    returns [True], and the base object's copies are what they were; no
    entry is gained. *)
Lemma atproto_send_delete_gains_no_copy :
  (ATProto.send Cases.delete_post Cases.delete_activity).1 = Return true ∧
  ATProto.base_of Cases.delete_post Cases.delete_activity = Some Cases.stored_post ∧
  ATProto.base_obj (ATProto.send Cases.delete_post Cases.delete_activity).2
  = Some Cases.stored_post ∧
  ¬ Models.gains_one_copy "atproto" (ATProto.obj_copies Cases.stored_post)
      (ATProto.obj_copies Cases.stored_post).
Proof.
  split; [vm_compute; reflexivity|].
  split; [vm_compute; reflexivity|].
  split; [vm_compute; reflexivity|].
  intros (t & _ & _ & _ & Hlen). simpl in Hlen. lia.
Qed.

(** * Further properties *)

(** ** The relay list *)

Section RelayFacts.
Import Relays.
Context (is_blocklisted : string → bool).

Local Abbreviation add_relay := (add_relay is_blocklisted).
Local Abbreviation add_relays := (add_relays is_blocklisted).

Lemma add_relay_cases st c :
  (add_relay st c = st ∧ (is_blocklisted c = true ∨ c ∈ subscribed_relays st))
  ∨ (add_relay st c = mkRelays (subscribed_relays st ++ [c]) (started st ++ [c])
     ∧ is_blocklisted c = false ∧ c ∉ subscribed_relays st).
Proof.
  unfold Relays.add_relay. destruct (is_blocklisted c); [by left; auto|].
  case_bool_decide; [left|right]; auto.
Qed.

Lemma add_relays_inv calls : ∀ st,
  NoDup (subscribed_relays st) → started st = subscribed_relays st →
  NoDup (subscribed_relays (add_relays st calls))
  ∧ started (add_relays st calls) = subscribed_relays (add_relays st calls)
  ∧ ∀ r, r ∈ subscribed_relays (add_relays st calls)
         ↔ r ∈ subscribed_relays st ∨ (r ∈ calls ∧ is_blocklisted r = false).
Proof.
  induction calls as [|c rest IH]; intros st Hnd Hst; simpl.
  - split; [done|]. split; [done|]. intros r. rewrite elem_of_nil. tauto.
  - destruct (add_relay_cases st c) as [[-> Hc]|(-> & Hb & Hc)].
    + destruct (IH st Hnd Hst) as (? & ? & Hin). split; [done|]. split; [done|].
      intros r. rewrite Hin, elem_of_cons. split; [tauto|].
      intros [?|[[->|?] ?]]; [tauto| |tauto].
      destruct Hc; [congruence|tauto].
    + edestruct (IH (mkRelays (subscribed_relays st ++ [c]) (started st ++ [c])))
        as (? & ? & Hin); simpl.
      { apply NoDup_app. split; [done|]. split; [|apply NoDup_singleton].
        intros x Hx Hx'. apply list_elem_of_singleton in Hx' as ->. done. }
      { by rewrite Hst. }
      split; [done|]. split; [done|].
      intros r. rewrite Hin. simpl.
      rewrite elem_of_app, list_elem_of_singleton, elem_of_cons.
      split; [|tauto]. intros [[?| ->]|?]; tauto.
Qed.

(** X1: after any run of [add_relay] calls from the empty list,
    [subscribed_relays] has no duplicate, one subscriber thread was started
    for each of its relays, in the same order, and it holds exactly the
    relays asked for that are not blocklisted. *)
Theorem add_relays_spec (calls : list string) :
  let st := add_relays no_relays calls in
  NoDup (subscribed_relays st)
  ∧ started st = subscribed_relays st
  ∧ ∀ r, r ∈ subscribed_relays st ↔ r ∈ calls ∧ is_blocklisted r = false.
Proof.
  destruct (add_relays_inv calls no_relays) as (? & ? & Hin); [apply NoDup_nil_2|done|].
  split; [done|]. split; [done|].
  intros r. rewrite Hin. simpl. rewrite elem_of_nil. tauto.
Qed.

Lemma add_relay_prefix st r :
  subscribed_relays st `prefix_of` subscribed_relays (add_relay st r).
Proof.
  unfold Relays.add_relay. repeat case_match; try done. simpl. by apply prefix_app_r.
Qed.

End RelayFacts.

(** ** The user loader *)

Section LoaderFacts.
Import Loader.
Context (is_blocklisted : string → bool) (uri_to_id : string → option string)
        (PROTOCOLS : list (option string)) (datastore : list user)
        (fetch_fails : string → bool).

Local Abbreviation add_nostr := (add_nostr is_blocklisted uri_to_id).
Local Abbreviation new_bridged := (new_bridged datastore fetch_fails).
Local Abbreviation load_users :=
  (_load_users is_blocklisted uri_to_id PROTOCOLS datastore fetch_fails).

Lemma add_nostr_spec users : ∀ g r g',
  add_nostr g users = (r, g') →
  nostr_pubkeys g ⊆ nostr_pubkeys g'
  ∧ bridged_pubkeys g' = bridged_pubkeys g
  ∧ pubkeys_loaded_at g' = pubkeys_loaded_at g
  ∧ pubkeys_initialized g' = pubkeys_initialized g
  ∧ Relays.subscribed_relays (relays g) `prefix_of` Relays.subscribed_relays (relays g')
  ∧ (r = Some () → ∀ u, u ∈ users →
       ∃ pk, uri_to_id (key_id u) = Some pk ∧ pk ∈ nostr_pubkeys g').
Proof.
  induction users as [|u rest IH]; intros g r g' H; simpl in H.
  - simplify_eq. repeat split; try done. intros _ u Hu. by apply elem_of_nil in Hu.
  - destruct (uri_to_id (key_id u)) as [pk|] eqn:Hpk.
    2:{ simplify_eq. repeat split; done. }
    assert (∀ g1, nostr_pubkeys (with_nostr g pk) ⊆ nostr_pubkeys g1 →
              bridged_pubkeys g1 = bridged_pubkeys g →
              pubkeys_loaded_at g1 = pubkeys_loaded_at g →
              pubkeys_initialized g1 = pubkeys_initialized g →
              Relays.subscribed_relays (relays g)
                `prefix_of` Relays.subscribed_relays (relays g1) →
              add_nostr g1 rest = (r, g') →
              nostr_pubkeys g ⊆ nostr_pubkeys g'
              ∧ bridged_pubkeys g' = bridged_pubkeys g
              ∧ pubkeys_loaded_at g' = pubkeys_loaded_at g
              ∧ pubkeys_initialized g' = pubkeys_initialized g
              ∧ Relays.subscribed_relays (relays g)
                  `prefix_of` Relays.subscribed_relays (relays g')
              ∧ (r = Some () → ∀ u0, u0 ∈ u :: rest →
                   ∃ pk, uri_to_id (key_id u0) = Some pk ∧ pk ∈ nostr_pubkeys g'))
      as Hstep.
    { intros g1 Hn Hb Hl Hi Hr Hrun.
      destruct (IH _ _ _ Hrun) as (Hn' & Hb' & Hl' & Hi' & Hr' & Hall).
      simpl in Hn.
      split; [clear -Hn Hn'; set_solver|]. split; [congruence|]. split; [congruence|].
      split; [congruence|]. split; [by etrans|].
      intros Hok u0 Hu0. apply elem_of_cons in Hu0 as [->|Hu0]; [|by auto].
      exists pk. split; [done|]. clear -Hn Hn'. set_solver. }
    destruct (target u) as [[t|]|site].
    + destruct (String.eqb t "").
      * by apply (Hstep (with_nostr g pk)).
      * apply (Hstep (with_relay is_blocklisted (with_nostr g pk) t)); try done.
        simpl. apply add_relay_prefix.
    + by apply (Hstep (with_nostr g pk)).
    + simplify_eq. simpl. split; [apply union_subseteq_r|]. repeat split; done.
Qed.

Lemma add_bridged_spec users : ∀ s r s',
  add_bridged s users = (r, s') →
  s ⊆ s'
  ∧ (r = Some () → ∀ u, u ∈ users → ∃ pk, hex_pubkey u = Some pk ∧ pk ∈ s').
Proof.
  induction users as [|u rest IH]; intros s r s' H; simpl in H.
  - simplify_eq. split; [done|]. intros _ u Hu. by apply elem_of_nil in Hu.
  - destruct (hex_pubkey u) as [pk|] eqn:Hpk; [|by simplify_eq].
    destruct (IH _ _ _ H) as [Hs Hall]. split; [clear -Hs; set_solver|].
    intros Hok u0 Hu0. apply elem_of_cons in Hu0 as [->|Hu0]; [|by auto].
    exists pk. split; [done|]. clear -Hs. set_solver.
Qed.

Lemma new_bridged_spec since protos : ∀ users,
  new_bridged protos since = Some users →
  ∀ u, u ∈ datastore → bridged protos since u → u ∈ users.
Proof.
  induction protos as [|p rest IH]; intros users H u Hu (Hp & Hn & Hs & He & Hup);
    simpl in H.
  - by apply elem_of_nil in Hp.
  - assert (bridged rest since u → ∀ users', new_bridged rest since = Some users' →
            u ∈ users') as Hrest by eauto.
    destruct p as [p|].
    + case_bool_decide as Hskip.
      * apply elem_of_cons in Hp as [Hp|Hp]; [by simplify_eq|].
        by apply Hrest.
      * destruct (fetch_fails p); [done|].
        destruct (new_bridged rest since) as [users'|] eqn:Hr; [|done].
        simplify_eq. apply elem_of_app.
        apply elem_of_cons in Hp as [Hp|Hp]; [left|right; by apply Hrest].
        simplify_eq. unfold Loader.new_of. by apply list_elem_of_filter.
    + apply elem_of_cons in Hp as [Hp|Hp]; [done|]. by apply Hrest.
Qed.

Lemma load_users_grows_sets now g :
  nostr_pubkeys g ⊆ nostr_pubkeys (load_users now g)
  ∧ bridged_pubkeys g ⊆ bridged_pubkeys (load_users now g).
Proof.
  unfold Loader._load_users.
  destruct (fetch_fails "Nostr"); [done|].
  destruct (add_nostr g _) as [r g1] eqn:Hn.
  destruct (add_nostr_spec _ _ _ _ Hn) as (Hs & Hb & _ & _ & Hr & _).
  destruct r; [|by rewrite Hb].
  destruct (new_bridged _ _) as [users|]; [|by rewrite Hb].
  destruct (add_bridged _ users) as [r b] eqn:Hbr.
  destruct (add_bridged_spec _ _ _ _ Hbr) as [Hsb _].
  rewrite Hb in Hsb. by destruct r.
Qed.

(** X2: [_load_users] only adds: whatever fails on the way, no pubkey
    leaves [nostr_pubkeys] or [bridged_pubkeys], and [subscribed_relays]
    is extended at its end. *)
Theorem load_users_grows now g : grows g (load_users now g).
Proof.
  unfold grows, Loader._load_users.
  destruct (fetch_fails "Nostr"); [done|].
  destruct (add_nostr g _) as [r g1] eqn:Hn.
  destruct (add_nostr_spec _ _ _ _ Hn) as (Hs & Hb & _ & _ & Hr & _).
  destruct r; [|by rewrite Hb].
  destruct (new_bridged _ _) as [users|]; [|by rewrite Hb].
  destruct (add_bridged _ users) as [r b] eqn:Hbr.
  destruct (add_bridged_spec _ _ _ _ Hbr) as [Hsb _].
  rewrite Hb in Hsb. by destruct r.
Qed.

(** X3: [pubkeys_loaded_at] moves only when the whole load went through:
    if a run of [_load_users] changes it, it is the time the run started,
    [pubkeys_initialized] is set, and the pubkey of every user that the
    queries select is in its set. *)
Theorem load_users_timestamp now g :
  let g' := load_users now g in
  pubkeys_loaded_at g' ≠ pubkeys_loaded_at g →
  pubkeys_loaded_at g' = now
  ∧ pubkeys_initialized g' = true
  ∧ (∀ u, u ∈ datastore → native (pubkeys_loaded_at g) u →
       ∃ pk, uri_to_id (key_id u) = Some pk ∧ pk ∈ nostr_pubkeys g')
  ∧ (∀ u, u ∈ datastore → bridged PROTOCOLS (pubkeys_loaded_at g) u →
       ∃ pk, hex_pubkey u = Some pk ∧ pk ∈ bridged_pubkeys g').
Proof.
  unfold Loader._load_users.
  destruct (fetch_fails "Nostr"); [done|].
  destruct (add_nostr g _) as [r g1] eqn:Hn.
  destruct (add_nostr_spec _ _ _ _ Hn) as (Hs & Hb & Hl & Hi & Hr & Hall).
  destruct r as [[]|]; [|by simpl; intros []].
  destruct (new_bridged _ _) as [users|] eqn:Hnb; [|by simpl; intros []].
  destruct (add_bridged _ users) as [r b] eqn:Hbr.
  destruct (add_bridged_spec _ _ _ _ Hbr) as [Hsb Hallb].
  destruct r as [[]|]; [|by simpl; intros []].
  simpl. intros _. split; [done|]. split; [done|]. split.
  - intros u Hu Hnat. apply Hall; [done|].
    unfold Loader.new_nostr. by apply list_elem_of_filter.
  - intros u Hu Hbrd. apply Hallb; [done|]. by eapply new_bridged_spec.
Qed.

End LoaderFacts.

(** ** [handle]: which events are enqueued *)

Section HandleFacts.
Import NostrHub HubLog.
Context (verify : json → option bool) (uri_for : json → option string)
        (id_to_uri : string → json → option string) (DELETE_TASK_DELAY : Z).

Local Abbreviation handle := (handle verify uri_for id_to_uri DELETE_TASK_DELAY).

Lemma mentions_of_elem tags : ∀ ms m,
  mentions_of tags = Some ms → m ∈ ms →
  ∃ tag t0, tag ∈ tags ∧ Py.subscript tag 0 = Some t0
            ∧ Py.eq_str t0 "p" = true ∧ Py.subscript tag 1 = Some m.
Proof.
  induction tags as [|tag rest IH]; intros ms m H Hm; simpl in H.
  - simplify_eq. by apply elem_of_nil in Hm.
  - destruct (Py.subscript tag 0) as [t0|] eqn:H0; [|done].
    destruct (Py.eq_str t0 "p") eqn:Hp.
    + destruct (Py.subscript tag 1) as [t1|] eqn:H1; [|done].
      destruct (Py.hashable t1); [|done].
      destruct (mentions_of rest) as [ms'|] eqn:Hr; [|done].
      simplify_eq. apply elem_of_cons in Hm as [->|Hm].
      * exists tag, t0. split; [left|done].
      * destruct (IH _ _ eq_refl Hm) as (tag' & t0' & ? & ?).
        exists tag', t0'. split; [by right|done].
    + destruct (IH _ _ H Hm) as (tag' & t0' & ? & ?).
      exists tag', t0'. split; [by right|done].
Qed.

Lemma mentions_bridged_elem ms bp :
  mentions_bridged ms bp = true → ∃ m, JStr m ∈ ms ∧ m ∈ bp.
Proof.
  unfold mentions_bridged. rewrite existsb_exists.
  intros (x & Hx & Hin). destruct x; try done.
  apply bool_decide_eq_true in Hin. exists s. split; [|done].
  by apply list_elem_of_In.
Qed.

(** X4: [handle] enqueues a task only for an event whose author is in
    [nostr_pubkeys] or that has a ['p'] tag with a pubkey of
    [bridged_pubkeys]; the task is delayed if and only if the event's kind
    is 5 (delete). *)
Theorem handle_enqueued_relevant np bp event t :
  handle np bp event = Enqueued t →
  ((∃ pk, author event pk ∧ pk ∈ np) ∨ (∃ m, mentions event m ∧ m ∈ bp))
  ∧ ∃ f, event = JObj f
         ∧ (delay t = Some DELETE_TASK_DELAY ∧ Py.get "kind" f = JNum 5
            ∨ delay t = None ∧ Py.get "kind" f ≠ JNum 5).
Proof.
  intros H. split.
  - unfold NostrHub.handle in H.
    destruct event as [| | | |?|f]; try discriminate.
    destruct (well_formed (JObj f)); simpl in H; [|discriminate].
    destruct (Py.iterate _) as [tag_list|] eqn:Hit; [|discriminate].
    destruct (mentions_of tag_list) as [ms|] eqn:Hms; [|discriminate].
    destruct (Py.in_strings _ np) as [from_native|] eqn:Hin; [|discriminate].
    destruct (from_native || mentions_bridged ms bp) eqn:Hrel; [|discriminate].
    clear H. apply orb_true_iff in Hrel as [->|Hmb].
    + left. unfold Py.in_strings in Hin.
      destruct (Py.get "pubkey" f) as [| | |pk| |] eqn:Hpk; try discriminate.
      exists pk. split; [by exists f|].
      injection Hin as Hin. by apply bool_decide_eq_true_1 in Hin.
    + right. apply mentions_bridged_elem in Hmb as (m & Hm & Hbp).
      destruct (mentions_of_elem _ _ _ Hms Hm) as (tag & t0 & ? & ? & ? & ?).
      exists m. split; [|done].
      destruct (Py.assoc "tags" f) as [tags|] eqn:Htags.
      * by exists f, tags, tag_list, tag, t0.
      * simpl in Hit. simplify_eq. by apply elem_of_nil in H.
  - destruct (handle_enqueued_inv _ _ _ _ _ _ _ _ H)
      as (f & obj_id & npub_uri & -> & _ & _ & _ & _ & ->).
    exists f. split; [done|]. simpl. unfold Py.eq_num, KIND_DELETE.
    destruct (Py.get "kind" f) as [| |n| | |]; try (right; split; [done|discriminate]).
    destruct (Z.eqb_spec n 5) as [->|Hn]; [by left|].
    right. split; [done|]. intros ?. simplify_eq.
Qed.

Lemma mentions_of_short tags :
  JArr [JStr "p"] ∈ tags → mentions_of tags = None.
Proof.
  induction tags as [|tag rest IH]; intros Hin; [by apply elem_of_nil in Hin|].
  apply elem_of_cons in Hin as [<-|Hin]; [done|].
  simpl. rewrite (IH Hin). by repeat case_match.
Qed.

Lemma handle_short_p_tag np bp f tags :
  well_formed (JObj f) = true →
  Py.assoc "tags" f = Some (JArr tags) →
  JArr [JStr "p"] ∈ tags →
  handle np bp (JObj f) = Raised.
Proof.
  intros Hwf Htags Hin. unfold NostrHub.handle.
  rewrite Hwf, Htags. simpl. by rewrite (mentions_of_short _ Hin).
Qed.

Lemma mentions_of_plain tags :
  Forall plain_tag tags →
  ∃ ms, mentions_of tags = Some ms
        ∧ ∀ m more, JArr (JStr "p" :: JStr m :: more) ∈ tags → JStr m ∈ ms.
Proof.
  induction 1 as [|tag rest (k & v & more & ->) _ (ms & IH & Hall)].
  - exists []. split; [done|]. intros m more Hin. by apply elem_of_nil in Hin.
  - simpl. rewrite IH. destruct (String.eqb k "p") eqn:Hk.
    + exists (JStr v :: ms). split; [done|].
      intros m more' Hin. apply elem_of_cons in Hin as [Heq|Hin]; [simplify_eq; left|].
      right. by eapply Hall.
    + exists ms. split; [done|].
      intros m more' Hin. apply elem_of_cons in Hin as [Heq|Hin]; [|by eapply Hall].
      by simplify_eq.
Qed.

Lemma mentions_bridged_intro ms bp m :
  JStr m ∈ ms → m ∈ bp → mentions_bridged ms bp = true.
Proof.
  intros Hm Hbp. unfold mentions_bridged. apply existsb_exists.
  exists (JStr m). split; [by apply list_elem_of_In|]. by apply bool_decide_eq_true.
Qed.

(** X6: an event with kind, pubkey, id and sig, tags of the usual shape, a
    string pubkey, whose id and signature verify and whose URIs can be
    built, is enqueued once it is by an author of [nostr_pubkeys] or has a
    ['p'] tag of a pubkey in [bridged_pubkeys]: one task on the [receive]
    queue, with the event's URI as id, protocol [nostr] and the author's
    npub URI as [authed_as]. *)
Theorem handle_enqueues np bp f pk tags obj_id npub_uri :
  well_formed (JObj f) = true →
  Py.get "pubkey" f = JStr pk →
  Py.assoc "tags" f = Some (JArr tags) →
  Forall plain_tag tags →
  verify (JObj f) = Some true →
  uri_for (JObj f) = Some obj_id →
  id_to_uri "npub" (JStr pk) = Some npub_uri →
  pk ∈ np ∨ (∃ m more, JArr (JStr "p" :: JStr m :: more) ∈ tags ∧ m ∈ bp) →
  ∃ delay, handle np bp (JObj f)
           = Enqueued (mkTask "receive" obj_id "nostr" npub_uri (JObj f) delay).
Proof.
  intros Hwf Hpk Htags Hplain Hv Hu Hn Hrel. unfold NostrHub.handle.
  rewrite Hwf, Htags, Hpk. simpl.
  destruct (mentions_of_plain _ Hplain) as (ms & -> & Hall).
  assert (bool_decide (pk ∈ np) || mentions_bridged ms bp = true) as ->.
  { apply orb_true_iff. destruct Hrel as [?|(m & more & Hin & Hbp)].
    - left. by apply bool_decide_eq_true.
    - right. eapply mentions_bridged_intro; [|done]. by eapply Hall. }
  simpl. rewrite Hv, Hu, Hn. eauto.
Qed.

End HandleFacts.

(** ** [subscribe]: re-querying *)

Section RequeryFacts.
Import NostrHub HubLog.
Context (verify : json → option bool) (uri_for : json → option string)
        (id_to_uri : string → json → option string) (DELETE_TASK_DELAY : Z)
        (SUPPORTED_KINDS : gset Z) (token : nat → string) (limit : option nat).

Local Abbreviation handle := (handle verify uri_for id_to_uri DELETE_TASK_DELAY).
Local Abbreviation req := (req SUPPORTED_KINDS).
Local Abbreviation open_query := (open_query SUPPORTED_KINDS token).
Local Abbreviation recheck := (recheck SUPPORTED_KINDS token).
Local Abbreviation receive_loop :=
  (receive_loop verify uri_for id_to_uri DELETE_TASK_DELAY SUPPORTED_KINDS token limit).
Local Abbreviation subscribe :=
  (subscribe verify uri_for id_to_uri DELETE_TASK_DELAY SUPPORTED_KINDS token limit).
Local Abbreviation from_frames :=
  (from_frames verify uri_for id_to_uri DELETE_TASK_DELAY).

Lemma recheck_settled st : settled st → recheck st = ([], st).
Proof.
  intros [Hn Hb]. unfold NostrHub.recheck.
  rewrite bool_decide_eq_false_2; [done|]. tauto.
Qed.

Lemma handled_sent np bp event :
  sent match handle np bp event with
       | Raised | Ignored => []
       | Enqueued t => [CreateTask t]
       end = [].
Proof. by case_match. Qed.

Lemma receive_loop_quiet evs : ∀ st,
  settled st → quiet (nostr_pubkeys st) (bridged_pubkeys st) evs →
  Forall (λ m, ∃ n, m = req (token n) (nostr_pubkeys st) (bridged_pubkeys st))
         (sent (receive_loop evs st).1).
Proof.
  induction evs as [|ev rest IH]; intros st Hst Hq; simpl NostrHub.receive_loop;
    rewrite (recheck_settled _ Hst).
  - constructor.
  - apply Forall_cons in Hq as [Hev Hq]. destruct ev as [resp| |nn nb].
    + destruct (Py.subscript resp 0) as [kind|]; [|constructor].
      destruct (Py.eq_str kind "CLOSED").
      * rewrite sent_prepend. simpl. constructor; [by eauto|].
        by apply (IH (mkSub _ _ _ _ _ _ _)).
      * match goal with
        | |- context [match ?h with Some _ => _ | None => _ end] =>
            destruct h as [acts|] eqn:Hh
        end; [|constructor].
        assert (sent acts = []) as Hacts.
        { destruct (Py.eq_str kind "EVENT"); [|by simplify_eq].
          destruct (Py.subscript resp 2) as [event|]; [|done].
          by eapply handled_sends_nothing. }
        destruct (limit_reached limit (S (received st))).
        -- simpl. rewrite Hacts. constructor.
        -- rewrite sent_prepend. simpl. rewrite Hacts. simpl.
           by apply (IH (bump st)).
    + rewrite sent_prepend. simpl.
      by apply (IH st).
    + rewrite sent_prepend. simpl. destruct Hev as [Hnn Hnb].
      assert (load st nn nb = st) as ->; [|by apply IH].
      unfold load. destruct st as [np bp ? ? ? ? ?]. simpl in *.
      rewrite (union_comm_L _ nn), (subseteq_union_1_L nn) by done.
      by rewrite (union_comm_L _ nb), (subseteq_union_1_L nb) by done.
Qed.

(** X7: while no run of the loader adds a pubkey that was not there when
    [subscribe] started, [subscribe] never sends CLOSE: every message it
    sends is the REQ for the pubkey sets it started with. *)
Theorem subscribe_quiet relay np bp evs :
  quiet np bp evs →
  Forall (λ m, ∃ n, m = req (token n) np bp) (sent (subscribe relay np bp evs).1).
Proof.
  intros Hq. unfold NostrHub.subscribe. simpl.
  constructor; [by eauto|].
  by apply (receive_loop_quiet evs (mkSub _ _ _ _ _ _ _)).
Qed.




Lemma subscribe_unfold relay np bp evs :
  subscribe relay np bp evs
  = prepend [Connect relay; Send (req (token 0) np bp)]
            (receive_loop evs (mkSub np bp (size np) (size bp) (token 0) 1 0)).
Proof. reflexivity. Qed.





Lemma tasks_app a b : tasks (a ++ b) = tasks a ++ tasks b.
Proof. apply omap_app. Qed.

Lemma tasks_prepend a r : tasks (prepend a r).1 = tasks a ++ tasks r.1.
Proof. apply tasks_app. Qed.

Lemma recheck_tasks st :
  tasks (recheck st).1 = []
  ∧ nostr_pubkeys (recheck st).2 = nostr_pubkeys st
  ∧ bridged_pubkeys (recheck st).2 = bridged_pubkeys st.
Proof. unfold NostrHub.recheck. by case_bool_decide. Qed.

Lemma from_frames_later np bp np0 bp0 ev evs t :
  np0 ⊆ np → bp0 ⊆ bp →
  from_frames np bp evs t → from_frames np0 bp0 (ev :: evs) t.
Proof.
  intros ?? (resp & event & np' & bp' & ? & ? & ? & ? & ?).
  exists resp, event, np', bp'. split; [by right|]. split; [done|].
  split; [by etrans|]. split; [by etrans|done].
Qed.

Lemma receive_loop_tasks evs : ∀ st t,
  t ∈ tasks (receive_loop evs st).1 →
  from_frames (nostr_pubkeys st) (bridged_pubkeys st) evs t.
Proof.
  induction evs as [|ev rest IH]; intros st t; simpl NostrHub.receive_loop;
    destruct (recheck_tasks st) as (Hpre & Hn & Hb);
    destruct (recheck st) as [pre st']; simpl in Hpre, Hn, Hb.
  - simpl. rewrite Hpre. intros Hin. by apply elem_of_nil in Hin.
  - assert (∀ st1, nostr_pubkeys st ⊆ nostr_pubkeys st1 →
                   bridged_pubkeys st ⊆ bridged_pubkeys st1 →
                   t ∈ tasks (receive_loop rest st1).1 →
                   from_frames (nostr_pubkeys st) (bridged_pubkeys st) (ev :: rest) t)
      as Hlater.
    { intros st1 ?? Hin. eapply from_frames_later; [done|done|]. by apply IH. }
    destruct ev as [resp| |nn nb].
    + destruct (Py.subscript resp 0) as [kind|] eqn:Hkind;
        [|simpl; rewrite Hpre; intros Hin; by apply elem_of_nil in Hin].
      destruct (Py.eq_str kind "CLOSED").
      * rewrite tasks_prepend, tasks_app, Hpre. simpl.
        apply Hlater; simpl; by rewrite ?Hn, ?Hb.
      * destruct (Py.eq_str kind "EVENT") eqn:Hev.
        -- destruct (Py.subscript resp 2) as [event|] eqn:Hevent;
             [|simpl; rewrite Hpre; intros Hin; by apply elem_of_nil in Hin].
           destruct (handle _ _ event) as [| t' |] eqn:Hh;
             [| |simpl; rewrite Hpre; intros Hin; by apply elem_of_nil in Hin].
           ++ destruct (limit_reached limit (S (received st'))).
              ** simpl. rewrite tasks_app, Hpre. intros Hin. by apply elem_of_nil in Hin.
              ** rewrite tasks_prepend, tasks_app, Hpre. simpl.
                 apply Hlater; simpl; by rewrite ?Hn, ?Hb.
           ++ assert (from_frames (nostr_pubkeys st) (bridged_pubkeys st)
                        (Frame resp :: rest) t') as Hhere.
              { exists resp, event, (nostr_pubkeys st'), (bridged_pubkeys st').
                split; [left|]. split; [by exists kind|].
                split; [by rewrite Hn|]. split; [by rewrite Hb|done]. }
              destruct (limit_reached limit (S (received st'))).
              ** simpl. rewrite tasks_app, Hpre. simpl.
                 intros Hin. by apply list_elem_of_singleton in Hin as ->.
              ** rewrite tasks_prepend, tasks_app, Hpre. simpl.
                 intros Hin. apply elem_of_cons in Hin as [->|Hin]; [done|].
                 revert Hin. apply Hlater; simpl; by rewrite ?Hn, ?Hb.
        -- destruct (limit_reached limit (S (received st'))).
           ** simpl. rewrite tasks_app, Hpre. intros Hin. by apply elem_of_nil in Hin.
           ** rewrite tasks_prepend, tasks_app, Hpre. simpl.
              apply Hlater; simpl; by rewrite ?Hn, ?Hb.
    + rewrite tasks_prepend, Hpre. simpl. apply Hlater; by rewrite ?Hn, ?Hb.
    + rewrite tasks_prepend, Hpre. simpl. apply Hlater; simpl; rewrite ?Hn, ?Hb.
      * apply union_subseteq_l.
      * apply union_subseteq_l.
Qed.

(** X10: every task that [subscribe] enqueues is for the event of an EVENT
    frame it received, accepted by [handle] under pubkey sets that include
    the initial ones; the event's id and signature verified and the task
    carries the event. *)
Theorem subscribe_tasks relay np bp evs t :
  t ∈ tasks (subscribe relay np bp evs).1 →
  ∃ resp event np' bp',
    Frame resp ∈ evs ∧ event_frame resp event
    ∧ np ⊆ np' ∧ bp ⊆ bp'
    ∧ handle np' bp' event = Enqueued t
    ∧ verify event = Some true ∧ nostr t = event.
Proof.
  rewrite subscribe_unfold, tasks_prepend. simpl. intros Hin.
  apply receive_loop_tasks in Hin as (resp & event & np' & bp' & ? & ? & ? & ? & Hh).
  exists resp, event, np', bp'. repeat (split; [done|]).
  destruct (handle_enqueued_inv _ _ _ _ _ _ _ _ Hh)
    as (f & obj_id & npub_uri & -> & _ & ? & _ & _ & ->).
  done.
Qed.

(** X5: an event that has kind, pubkey, id and sig and a ['p'] tag with
    nothing after the ['p'] raises in [handle], whoever its author is and
    before its signature is looked at; [subscribe] enqueues nothing for it
    and ends with that exception, the later frames unread. *)
Theorem subscribe_fails_on_short_p_tag relay np bp sub f tags evs :
  well_formed (JObj f) = true →
  Py.assoc "tags" f = Some (JArr tags) →
  JArr [JStr "p"] ∈ tags →
  handle np bp (JObj f) = Raised
  ∧ subscribe relay np bp (Frame (JArr [JStr "EVENT"; sub; JObj f]) :: evs)
    = ([Connect relay; Send (req (token 0) np bp)], Failed).
Proof.
  intros Hwf Htags Hin.
  pose proof (handle_short_p_tag verify uri_for id_to_uri DELETE_TASK_DELAY
                np bp f tags Hwf Htags Hin) as Hh.
  split; [done|].
  rewrite subscribe_unfold. cbn -[NostrHub.handle NostrHub.recheck].
  rewrite recheck_settled by done. cbn -[NostrHub.handle]. by rewrite Hh.
Qed.

End RequeryFacts.

(** ** [Nostr.target_for] *)

Section TargetFacts.
Import NostrClass.

Lemma first_write_relay_inv tags : ∀ url,
  first_write_relay tags = Return (Some url) →
  ∃ pre tag post,
    tags = pre ++ tag :: post
    ∧ Forall (λ t, write_relay t = Some false) pre
    ∧ write_relay tag = Some true ∧ Py.subscript tag 1 = Some url.
Proof.
  induction tags as [|tag rest IH]; intros url H; simpl in H; [done|].
  destruct (write_relay tag) as [[]|] eqn:Hw; [| |done].
  - destruct (Py.subscript tag 1) as [u|] eqn:Hu; [|done]. simplify_eq.
    by exists [], tag, rest.
  - destruct (IH _ H) as (pre & tag' & post & -> & Hpre & ? & ?).
    exists (tag :: pre), tag', post. split; [done|]. split; [by constructor|done].
Qed.

Lemma first_write_relay_intro pre tag post url :
  Forall (λ t, write_relay t = Some false) pre →
  write_relay tag = Some true → Py.subscript tag 1 = Some url →
  first_write_relay (pre ++ tag :: post) = Return (Some url).
Proof.
  intros Hpre Hw Hu. induction Hpre as [|t pre Ht _ IH]; simpl.
  - by rewrite Hw, Hu.
  - by rewrite Ht.
Qed.

(** X11: [target_for] answers with [tag[1]] of the first tag of the
    owner's relay list that starts with ['r'] and has two items or
    ['write'] as its third; the ['r'] tags before it are read relays.  It
    answers so only for an owner whose id starts with [nostr:npub]. *)
Theorem target_for_first_write_relay owner relays_of url :
  target_for owner relays_of = Return (Some url) ↔
  ∃ id event pre tag post,
    owner = Some id ∧ String.prefix "nostr:npub" id = true
    ∧ relays_of id = Some event
    ∧ Py.iterate (default (JArr []) (Py.assoc "tags" event)) = Some (pre ++ tag :: post)
    ∧ Forall (λ t, write_relay t = Some false) pre
    ∧ write_relay tag = Some true ∧ Py.subscript tag 1 = Some url.
Proof.
  unfold target_for. split.
  - destruct (ATProto.truthy_value owner) as [id|] eqn:Ho; [|done].
    apply truthy_value_inv in Ho as [-> _].
    destruct (String.prefix "nostr:npub" id) eqn:Hp; [|done].
    destruct (relays_of id) as [[|kv event]|] eqn:Hr; [done| |done].
    change (match Py.assoc "tags" (kv :: event) with
            | Some v => v
            | None => JArr []
            end) with (default (JArr []) (Py.assoc "tags" (kv :: event))).
    destruct (Py.iterate _) as [tag_list|] eqn:Hit; [|done].
    intros H. apply first_write_relay_inv in H as (pre & tag & post & -> & ? & ? & ?).
    by exists id, (kv :: event), pre, tag, post.
  - intros (id & event & pre & tag & post & -> & Hp & Hr & Hit & Hpre & Hw & Hu).
    assert (id ≠ "") as Hne by (intros ->; discriminate).
    rewrite (truthy_value_some _ Hne), Hp, Hr.
    destruct event as [|kv event]; [by destruct pre|].
    change (match Py.assoc "tags" (kv :: event) with
            | Some v => v
            | None => JArr []
            end) with (default (JArr []) (Py.assoc "tags" (kv :: event))).
    rewrite Hit. by apply first_write_relay_intro.
Qed.

End TargetFacts.

Section LoaderBlocked.
Import Loader.
Context (is_blocklisted : string → bool) (uri_to_id : string → option string)
        (PROTOCOLS : list (option string)) (datastore : list user)
        (fetch_fails : string → bool).

Local Abbreviation add_nostr := (add_nostr is_blocklisted uri_to_id).
Local Abbreviation load_users :=
  (_load_users is_blocklisted uri_to_id PROTOCOLS datastore fetch_fails).
Local Abbreviation runs :=
  (runs is_blocklisted uri_to_id PROTOCOLS datastore fetch_fails).

Lemma add_nostr_fails users : ∀ g u site,
  u ∈ users → target u = Raise site → (add_nostr g users).1 = None.
Proof.
  induction users as [|v rest IH]; intros g u site Hu Ht; [by apply elem_of_nil in Hu|].
  simpl. destruct (uri_to_id (key_id v)); [|done].
  apply elem_of_cons in Hu as [<-|Hu]; [by rewrite Ht|].
  destruct (target v) as [[t|]|]; [|by eapply IH|done].
  destruct (String.eqb t ""); by eapply IH.
Qed.

Lemma load_users_blocked_once now g u site :
  u ∈ datastore → native (pubkeys_loaded_at g) u → target u = Raise site →
  pubkeys_loaded_at (load_users now g) = pubkeys_loaded_at g
  ∧ bridged_pubkeys (load_users now g) = bridged_pubkeys g
  ∧ pubkeys_initialized (load_users now g) = pubkeys_initialized g.
Proof.
  intros Hu Hn Ht. unfold Loader._load_users.
  destruct (fetch_fails "Nostr"); [done|].
  destruct (add_nostr g _) as [r g1] eqn:Hrun.
  destruct (add_nostr_spec _ _ _ _ _ _ Hrun) as (_ & Hb & Hl & Hi & _).
  assert (r = None) as ->; [|done].
  change r with (r, g1).1. rewrite <- Hrun. eapply add_nostr_fails; [|done].
  unfold Loader.new_nostr. by apply list_elem_of_filter.
Qed.

(** X12: one selected Nostr user whose [target_for] raises stops every run
    of [_load_users] before the bridged users are read: however often the
    timer fires, [bridged_pubkeys] and [pubkeys_loaded_at] stay as they
    were and [pubkeys_initialized] is not set. *)
Theorem load_users_blocked nows g u site :
  u ∈ datastore → native (pubkeys_loaded_at g) u → target u = Raise site →
  pubkeys_loaded_at (runs nows g) = pubkeys_loaded_at g
  ∧ bridged_pubkeys (runs nows g) = bridged_pubkeys g
  ∧ pubkeys_initialized (runs nows g) = pubkeys_initialized g.
Proof.
  intros Hu Hn Ht. revert g Hn.
  induction nows as [|now rest IH]; intros g Hn; [done|].
  destruct (load_users_blocked_once now g u site Hu Hn Ht) as (Hl & Hb & Hi).
  unfold Loader.runs in *. simpl.
  destruct (IH (load_users now g)) as (Hl' & Hb' & Hi'); [by rewrite Hl|].
  split; [congruence|]. split; congruence.
Qed.

End LoaderBlocked.

(** ** [Nostr.create_for] *)

Section NostrCreateFor.
Import NostrClass.
Context (bech32_prefix_for : json → option string)
        (id_to_uri : string → json → option string).

Local Abbreviation create_for := (create_for bech32_prefix_for id_to_uri).
Local Abbreviation send_profile := (send_profile bech32_prefix_for id_to_uri).

Lemma send_profile_user o p s :
  is_nostr (send_profile o p s).2 = is_nostr s
  ∧ user_copies (send_profile o p s).2 = user_copies s
  ∧ ∀ e, e ∈ log s → e ∈ log (send_profile o p s).2.
Proof.
  unfold NostrClass.send_profile. destruct (Nostr.send _ _ _ _ _ _ _) as [r after].
  simpl. repeat split. intros e He. apply elem_of_app. by left.
Qed.

Lemma create_for_present o s copy :
  is_nostr s = false →
  ATProto.truthy_value (Models.get_copy Nostr.LABEL (user_copies s)) = Some copy →
  create_for o s = (Return (), s).
Proof. intros Hn Hc. unfold NostrClass.create_for. by rewrite Hn, Hc. Qed.

Lemma create_for_stored o s n r s' :
  is_nostr s = false →
  Models.get_copy Nostr.LABEL (user_copies s) = None →
  npub o = Some n → put_user_ok o = true →
  create_for o s = (r, s') →
  is_nostr s' = false
  ∧ Models.get_copy Nostr.LABEL (user_copies s') = Some ("nostr:" +:+ n)
  ∧ PutUser ∈ log s'.
Proof.
  intros Hn Hc Hnpub Hput H.
  assert (is_nostr s' = false
          ∧ user_copies s' = Models.add (user_copies s) (mkTarget ("nostr:" +:+ n) "nostr")
          ∧ PutUser ∈ log s') as (Hn' & Hc' & Hlog).
  { unfold NostrClass.create_for in H. rewrite Hn, Hc, Hnpub, Hput in H.
    simpl in H.
    assert (PutUser ∈ log s ++ [PutUser]) as Hin.
    { apply elem_of_app. right. by apply list_elem_of_singleton. }
    destruct (user_obj s) as [p|]; [|by simplify_eq].
    destruct (negb _); [by simplify_eq|].
    destruct (has_as1 p).
    - match type of H with
      | NostrClass.send_profile _ _ ?o ?p ?s1 = _ =>
          destruct (send_profile_user o p s1) as (? & ? & Hl)
      end.
      rewrite H in *. simpl in *. split; [done|]. split; [done|]. by apply Hl.
    - destruct (reload_profile o) as [obj|]; [|by simplify_eq].
      match type of H with
      | NostrClass.send_profile _ _ ?o ?p ?s1 = _ =>
          destruct (send_profile_user o p s1) as (? & ? & Hl)
      end.
      rewrite H in *. simpl in *. split; [done|]. split; [done|].
      apply Hl, elem_of_app. by left. }
  split; [done|]. split; [|done].
  rewrite Hc'. change (mkTarget ("nostr:" +:+ n) "nostr")
    with (mkTarget ("nostr:" +:+ n) Nostr.LABEL).
  by apply get_copy_add_fresh.
Qed.

(** X13: once [create_for] has stored the user with the new Nostr copy,
    the copy stays whatever happens to the profile event (no profile
    object, a failing reload, a relay that is down), and every later
    [create_for] for the user returns at once: [create_for] does not send
    the profile again. *)
Theorem nostr_create_for_once o s n r s' :
  is_nostr s = false →
  Models.get_copy Nostr.LABEL (user_copies s) = None →
  npub o = Some n → put_user_ok o = true →
  create_for o s = (r, s') →
  Models.get_copy Nostr.LABEL (user_copies s') = Some ("nostr:" +:+ n)
  ∧ PutUser ∈ log s'
  ∧ ∀ o', create_for o' s' = (Return (), s').
Proof.
  intros Hn Hc Hnpub Hput H.
  destruct (create_for_stored o s n r s' Hn Hc Hnpub Hput H) as (Hn' & Hcopy & Hlog).
  split; [done|]. split; [done|].
  intros o'. apply (create_for_present o' s' ("nostr:" +:+ n)); [done|].
  by rewrite Hcopy.
Qed.

(** X14: after such a [create_for], the NIP-05 endpoint of the user's
    protocol answers for the user's handle with the hex pubkey of the copy
    that [create_for] added. *)
Theorem nostr_create_for_then_nip_05 o s n r s' users_of uri_to_id proto key handle hex :
  is_nostr s = false →
  Models.get_copy Nostr.LABEL (user_copies s) = None →
  npub o = Some n → put_user_ok o = true →
  create_for o s = (r, s') →
  proto ≠ Nostr.LABEL → handle ≠ "" →
  Nostr.query_get users_of proto handle = Some (as_user key handle true s') →
  uri_to_id ("nostr:" +:+ n) = Some hex →
  Nostr.nip_05 users_of uri_to_id (Some handle) (Some proto) = Nostr.Names handle hex.
Proof.
  intros Hn Hc Hnpub Hput H Hproto Hhandle Hq Hhex.
  destruct (create_for_stored o s n r s' Hn Hc Hnpub Hput H) as (_ & Hcopy & _).
  unfold Nostr.nip_05.
  apply String.eqb_neq in Hhandle, Hproto. rewrite Hhandle, Hproto, Hq.
  simpl. rewrite Hcopy. simpl. by rewrite Hhex.
Qed.

End NostrCreateFor.

(** ** [ATProto.send]: what it does outside *)

Section SendEffects.
Import ATProto SendLog.


Lemma lookups_all did :
  lookups did [ConvertBase; GetOrCreateUser; LoadDidDoc did].
Proof. exists []. by rewrite app_nil_r. Qed.

Lemma lookups_nil did : lookups did [].
Proof. apply prefix_nil. Qed.

Lemma lookups_one did : lookups did [ConvertBase].
Proof. by apply prefix_cons, prefix_nil. Qed.

Lemma lookups_two did : lookups did [ConvertBase; GetOrCreateUser].
Proof. by apply prefix_cons, prefix_cons, prefix_nil. Qed.





Lemma prepare_inactive e s fl s' status :
  repo_status e = Some status → falsy status = false →
  prepare e s = (fl, s') →
  (∀ ctx, fl ≠ Go ctx)
  ∧ ∃ did pre act,
      effects s' = effects s ++ pre ++ act
      ∧ lookups did pre
      ∧ (act = [] ∨ deactivation act)
      ∧ (fl = Exit (Return true) →
         as1_verb e = Some "delete"
         ∧ user_did e = Some (Some did)
         ∧ pre = [ConvertBase; GetOrCreateUser; LoadDidDoc did]
         ∧ act = [DeactivateRepo did; RemoveDns (user_handle e)]).
Proof.
  intros Hst Hf H. unfold prepare, bound, dm_or_commit in H.
  repeat flow_step.
  all: try match goal with
           | B : negb (falsy ?x) = false, F : falsy ?x = false |- _ =>
               by rewrite F in B
           end.
  all: split; [done|].
  all: repeat match goal with
              | T : truthy_value _ = Some _ |- _ =>
                  apply truthy_value_inv in T as [T _]
              | V : equals _ _ = true |- _ => apply equals_inv in V
              | E : (_ =? _)%string = true |- _ => apply String.eqb_eq in E
              end; simplify_eq.
  all: effects_chain.
  all: first
    [ exists "", [ConvertBase], []; simpl;
      split; [reflexivity|]; split; [apply lookups_one|]; by split; [left|]
    | exists "", [ConvertBase; GetOrCreateUser], []; simpl;
      split; [reflexivity|]; split; [apply lookups_two|]; by split; [left|]
    | eexists _, [ConvertBase; GetOrCreateUser; LoadDidDoc _], []; simpl;
      split; [reflexivity|]; split; [apply lookups_all|]; by split; [left|]
    | eexists _, [ConvertBase; GetOrCreateUser; LoadDidDoc _], _; simpl;
      split; [reflexivity|]; split; [apply lookups_all|];
      split; [right; unfold deactivation; eauto|]; by intros ].
Qed.

Lemma deactivation_only act :
  act = [] ∨ deactivation act →
  (∀ d ws, Commit d ws ∉ act) ∧ (CreateReport ∉ act) ∧ (∀ d, SendChat d ∉ act).
Proof.
  intros [->|[(did & ->)|(did & h & ->)]];
    (split; [intros d ws|split; [|intros d]]); intros Hin;
    repeat (apply elem_of_cons in Hin as [Hin|Hin]);
    try (by apply elem_of_nil in Hin); discriminate.
Qed.

Lemma lookups_only did pre :
  lookups did pre →
  (∀ d ws, Commit d ws ∉ pre) ∧ (CreateReport ∉ pre) ∧ (∀ d, SendChat d ∉ pre).
Proof.
  intros Hp.
  assert (∀ x, x ∈ pre → x ∈ [ConvertBase; GetOrCreateUser; LoadDidDoc did]) as Hall.
  { intros x Hx. destruct Hp as [k ->]. apply elem_of_app. by left. }
  (split; [intros d ws|split; [|intros d]]); intros Hin%Hall;
    repeat (apply elem_of_cons in Hin as [Hin|Hin]);
    try (by apply elem_of_nil in Hin); discriminate.
Qed.

(** X16: while the user's repo is deactivated or tombstoned, [send]
    commits nothing, files no report and sends no chat message; after its
    lookups the one thing it still does is the deactivation for a delete
    of the user itself, the only case in which it answers [True]. *)
Theorem send_inactive_repo e obj status r st :
  repo_status e = Some status → falsy status = false →
  send e obj = (r, st) →
  (∃ did pre act,
      effects st = pre ++ act ∧ lookups did pre ∧ (act = [] ∨ deactivation act))
  ∧ (∀ d ws, Commit d ws ∉ effects st)
  ∧ (CreateReport ∉ effects st)
  ∧ (∀ d, SendChat d ∉ effects st)
  ∧ (r = Return true →
     as1_verb e = Some "delete"
     ∧ ∃ did, user_did e = Some (Some did)
              ∧ effects st = [ConvertBase; GetOrCreateUser; LoadDidDoc did;
                              DeactivateRepo did; RemoveDns (user_handle e)]).
Proof.
  intros Hst Hf H.
  assert (∃ did pre act,
             effects st = pre ++ act ∧ lookups did pre ∧ (act = [] ∨ deactivation act)
             ∧ (r = Return true →
                as1_verb e = Some "delete"
                ∧ user_did e = Some (Some did)
                ∧ pre = [ConvertBase; GetOrCreateUser; LoadDidDoc did]
                ∧ act = [DeactivateRepo did; RemoveDns (user_handle e)]))
    as (did & pre & act & Hx & Hpre & Hact & Htrue).
  { destruct (send_flows _ _ _ _ H) as (fl & Hb & Hfl).
    unfold send_body in Hb.
    apply bind_flow in Hb as [(r' & Hr & ->)|(ctx & s1 & Hr & Hw)].
    - destruct Hfl as [[= <-]|(? & ? & _)]; [|done].
      unfold reach_commit in Hr.
      apply bind_flow in Hr as [(r0 & H0 & ?)|([] & s0 & H0 & Hr)].
      { repeat flow_step. exists "", [], []. split; [done|].
        split; [apply lookups_nil|]. by split; [left|]. }
      assert (s0 = mkSend (Some obj) []) as -> by (by repeat flow_step).
      apply bind_flow in Hr as [(r1 & H1 & ?)|([] & s2 & H1 & Hr)].
      { pose proof (find_base_effects _ _ _ _ H1) as He. simpl in He.
        exists "", [], []. rewrite He. split; [done|].
        split; [apply lookups_nil|]. split; [by left|].
        intros ->. simplify_eq. unfold find_base in H1. by repeat flow_step. }
      pose proof (find_base_effects _ _ _ _ H1) as He. simpl in He.
      destruct (prepare_inactive _ _ _ _ _ Hst Hf Hr)
        as (_ & did & pre & act & Hx & Hpre & Hact & Ht).
      exists did, pre, act. rewrite Hx, He. split; [done|]. split; [done|].
      split; [done|]. intros [= ->]. by apply Ht.
    - destruct (reach_commit_go _ _ _ _ Hr) as (_ & _ & s0 & Hp).
      destruct (prepare_inactive _ _ _ _ _ Hst Hf Hp) as (Hgo & _).
      by destruct (Hgo ctx). }
  destruct (lookups_only _ _ Hpre) as (Hc1 & Hr1 & Hs1).
  destruct (deactivation_only _ Hact) as (Hc2 & Hr2 & Hs2).
  split; [by exists did, pre, act|].
  rewrite Hx.
  split; [intros d ws; rewrite elem_of_app; intros [?|?]; [by eapply Hc1|by eapply Hc2]|].
  split; [rewrite elem_of_app; tauto|].
  split; [intros d; rewrite elem_of_app; intros [?|?]; [by eapply Hs1|by eapply Hs2]|].
  intros Hr. destruct (Htrue Hr) as (? & ? & -> & ->). split; [done|]. by exists did.
Qed.

Lemma one_of_update_delete_undo v :
  one_of v ["update"; "delete"; "undo"] = true →
  equals v "update" = false → one_of v ["delete"; "undo"] = true.
Proof.
  destruct v as [v|]; [|done]. unfold one_of, equals.
  intros H1 H2. apply bool_decide_eq_true in H1. apply bool_decide_eq_false in H2.
  apply bool_decide_eq_true. rewrite !elem_of_cons in *.
  destruct H1 as [->|?]; [congruence|done].
Qed.

Lemma one_of_none_of v :
  one_of v ["update"; "delete"; "undo"] = false →
  equals v "update" = false ∧ one_of v ["delete"; "undo"] = false.
Proof.
  destruct v as [v|]; [|by split; [apply bool_decide_eq_false|]].
  unfold one_of, equals.
  intros H. apply bool_decide_eq_false in H. rewrite !elem_of_cons in H.
  split; apply bool_decide_eq_false.
  - intros [= ->]. tauto.
  - rewrite !elem_of_cons. tauto.
Qed.

Lemma first_write_cases e ctx type coll rk :
  let w := first_write e ctx type coll rk in
  (one_of (ctx_verb ctx) ["update"; "delete"; "undo"] = false → action w = CREATE)
  ∧ (one_of (ctx_verb ctx) ["update"; "delete"; "undo"] = true →
     collection w = coll ∧ rkey w = rk
     ∧ (action w = UPDATE ∨ (action w = DELETE ∧ record w = None))).
Proof.
  unfold first_write. split.
  - intros H. apply one_of_none_of in H as [-> ->]. done.
  - intros H. destruct (equals (ctx_verb ctx) "update") eqn:Hu; [by auto|].
    rewrite (one_of_update_delete_undo _ H Hu). auto.
Qed.

Lemma write_commit_targets e ctx s fl s' did writes :
  (∀ d ws, Commit d ws ∉ effects s) →
  write_commit e ctx s = (fl, s') →
  Commit did writes ∈ effects s' →
  did = ctx_did ctx
  ∧ ∃ w, writes = w :: send_derived_writes e
         ∧ (action w = CREATE ∨ changes_copy e did (base_obj s) w).
Proof.
  intros He H Hin. revert Hin. unfold write_commit, record_type, bridged_copy in H.
  repeat flow_step.
  all: effects_chain; rewrite ?elem_of_app; simpl; intros Hin.
  all: repeat match goal with
              | Hin : _ ∨ _ |- _ => destruct Hin as [Hin|Hin]
              end.
  all: try (by destruct (He _ _ Hin)).
  all: repeat (apply elem_of_cons in Hin as [Hin|Hin]);
    try (by apply elem_of_nil in Hin); simplify_eq.
  all: split; [done|]; eexists; (split; [reflexivity|]).
  all: match goal with
       | |- context [first_write ?e ?ctx ?type ?coll ?rk] =>
           destruct (first_write_cases e ctx type coll rk) as [Hc Hu]
       end.
  all: try (left; by apply Hc).
  all: right;
    match goal with
    | V : one_of (ctx_verb _) _ = true |- _ =>
        destruct (Hu V) as (Hcoll & Hrk & Hact)
    end;
    match goal with
    | T : truthy_value (Models.get_copy _ _) = Some _ |- _ =>
        apply truthy_value_inv in T as [T _]
    end;
    match goal with
    | B : negb (_ =? _)%string || _ = false |- _ =>
        apply orb_false_iff in B as [B _];
        apply negb_false_iff, String.eqb_eq in B; subst
    end;
    eexists _, _, _, _; split; [eassumption|]; split; [eassumption|];
    split; [eassumption|]; done.
Qed.

Lemma prepare_commit e s fl s' did writes :
  effects s = [] →
  prepare e s = (fl, s') →
  Commit did writes ∈ effects s' →
  user_did e = Some (Some did) ∧ unblocks e writes.
Proof.
  intros He H Hin. revert Hin. unfold prepare, bound, dm_or_commit in H.
  repeat flow_step.
  all: effects_chain; rewrite ?He; simpl; intros Hin.
  all: repeat (apply elem_of_cons in Hin as [Hin|Hin]);
    try (by apply elem_of_nil in Hin); simplify_eq.
  all: repeat match goal with
              | T : truthy_value _ = Some _ |- _ =>
                  apply truthy_value_inv in T as [T _]
              | V : equals _ _ = true |- _ => apply equals_inv in V
              end.
  all: split; [congruence|]; eexists _, _; eauto.
Qed.

(** X17: every commit of [send] goes to the repo of the sender's own
    ATProto copy.  It is the commit of an undo of a block, or its first
    write creates a record, or, for an update, delete or undo, it
    changes exactly the record that the ATProto copy of the base object
    names in that repo, a delete without a record: [send] only modifies
    records it has bridged. *)
Theorem send_commit_targets e obj r st did writes :
  send e obj = (r, st) →
  Commit did writes ∈ effects st →
  user_did e = Some (Some did)
  ∧ (unblocks e writes
     ∨ ∃ w, writes = w :: send_derived_writes e
            ∧ (action w = CREATE ∨ changes_copy e did (base_of e obj) w)).
Proof.
  intros H Hin. destruct (send_flows _ _ _ _ H) as (fl & Hb & _).
  unfold send_body in Hb.
  apply bind_flow in Hb as [(r' & Hr & ->)|(ctx & s1 & Hr & Hw)].
  - unfold reach_commit in Hr.
    apply bind_flow in Hr as [(r0 & H0 & ?)|([] & s0 & H0 & Hr)].
    { repeat flow_step. by apply elem_of_nil in Hin. }
    assert (s0 = mkSend (Some obj) []) as -> by (by repeat flow_step).
    apply bind_flow in Hr as [(r1 & H1 & ?)|([] & s2 & H1 & Hr)].
    { pose proof (find_base_effects _ _ _ _ H1) as He. simpl in He.
      rewrite He in Hin. by apply elem_of_nil in Hin. }
    pose proof (find_base_effects _ _ _ _ H1) as He. simpl in He.
    destruct (prepare_commit _ _ _ _ _ _ He Hr Hin) as [Hd Hu]. auto.
  - destruct (reach_commit_go _ _ _ _ Hr) as (He & Hbase & s0 & Hp).
    destruct (prepare_go _ _ _ _ Hp) as (_ & _ & Hdid & _).
    assert (∀ d ws, Commit d ws ∉ effects s1) as Hno.
    { intros d ws. rewrite He. intros Hc.
      repeat (apply elem_of_cons in Hc as [Hc|Hc]);
        try (by apply elem_of_nil in Hc); discriminate. }
    destruct (write_commit_targets _ _ _ _ _ _ _ Hno Hw Hin) as (-> & w & -> & Hw').
    split; [done|]. right. exists w. split; [done|]. by rewrite <- Hbase.
Qed.

End SendEffects.

(** ** [ATProto.create_for]: the other branches *)

(** Rewrites the call log of the final state down to that of the first. *)
Ltac log_chain :=
  repeat match goal with
         | H : ATProto.log ?a = _ |- context [ATProto.log ?a] =>
             progress rewrite H
         end;
  rewrite <- ?app_assoc.

Section CreateForBranches.
Import ATProto.

Lemma new_did_copies o handle s r s' :
  create_new_did o handle s = (r, s') →
  user_copies s' = user_copies s
  ∨ ∃ did, create_plc o = Some did
           ∧ user_copies s' = Models.add (user_copies s) (mkTarget did "atproto").
Proof.
  intros H. unfold create_new_did in H.
  repeat run_step; first [left; congruence | right; eexists; split; [done|congruence]].
Qed.

(** X18: for a user whose repo is tombstoned, [create_for] empties
    [user.copies] before it makes the new DID: whatever happens after,
    the user is left without any copy, or with the new DID as its only
    copy; the copies in other protocols are gone.  On success the new
    DID is the only copy and its repo is active. *)
Theorem create_for_tombstoned_wipes o s h did r s' :
  is_atproto s = false →
  handle_as o = Some h →
  truthy_value (Models.get_copy LABEL (user_copies s)) = Some did →
  repos s !! did = Some (Some TOMBSTONED) →
  create_for o s = (r, s') →
  (user_copies s' = []
   ∨ ∃ new, create_plc o = Some new ∧ user_copies s' = [mkTarget new "atproto"])
  ∧ (r = Return () →
     ∃ new, create_plc o = Some new ∧ user_copies s' = [mkTarget new "atproto"]
            ∧ repos s' !! new = Some None).
Proof.
  intros Ha Hh Hc Hr H. unfold create_for in H.
  repeat run_step; try congruence.
  all: try (split; [left; congruence|done]).
  all: match goal with
       | N : create_new_did _ _ ?x = (?res, _) |- _ =>
           assert (user_copies x = []) as Hx by congruence;
           pose proof (new_did_copies _ _ _ _ _ N) as Hcopies;
           rewrite Hx in Hcopies
       end.
  all: split; [destruct Hcopies as [?|(new & ? & ?)]; eauto|].
  all: intros ->.
  all: match goal with
       | N : create_new_did _ _ _ = (Return (), _) |- _ =>
           destruct (new_did_success _ _ _ _ N) as (new & ? & Hu & Hrepo & _)
       end.
  all: exists new; rewrite Hu, Hx, Hrepo; split; [done|]; split; [done|];
    apply lookup_insert_eq.
Qed.

(** X19: for a user whose repo is deactivated (not tombstoned),
    [create_for] makes no new DID and leaves [user.copies] and the
    profile as they are.  When it returns, it has activated the repo,
    enqueued a commit task and, for a handle under the bridge's domain
    only, set the DNS record again, in this order and nothing else, and
    the repo is active.  When it fails, it has done these up to the call
    that failed, and the repo is active as soon as the activation went
    through. *)
Theorem create_for_reactivates o s h did status r s' :
  is_atproto s = false →
  handle_as o = Some h →
  truthy_value (Models.get_copy LABEL (user_copies s)) = Some did →
  repos s !! did = Some status →
  falsy status = false → status ≠ Some TOMBSTONED →
  create_for o s = (r, s') →
  user_copies s' = user_copies s ∧ user_obj s' = user_obj s
  ∧ (r = Return () →
     log s' = log s ++ [ActivateRepo did; CreateTask "atproto-commit"]
                    ++ (if handle_in_superdomain o then [SetDns h did] else [])
     ∧ repos s' = <[did := None]> (repos s)
     ∧ repos s' !! did = Some None)
  ∧ (∀ site, r = Raise site →
     (site = "storage.activate_repo" ∧ log s' = log s ∧ repos s' = repos s)
     ∨ (site = "create_task" ∧ log s' = log s ++ [ActivateRepo did]
        ∧ repos s' = <[did := None]> (repos s))
     ∨ (site = "set_dns" ∧ handle_in_superdomain o = true
        ∧ log s' = log s ++ [ActivateRepo did; CreateTask "atproto-commit"]
        ∧ repos s' = <[did := None]> (repos s))).
Proof.
  intros Ha Hh Hc Hr Hf Ht H. unfold create_for in H.
  repeat run_step; try congruence.
  all: try match goal with
           | B : bool_decide (_ = Some TOMBSTONED) = true |- _ =>
               by apply bool_decide_eq_true in B
           end.
  all: split; [congruence|]; split; [congruence|].
  all: split; [intros Hret|intros site Hsite]; try discriminate.
  all: try (injection Hsite as <-).
  all: try (assert (repos s' = <[did:=None]> (repos s)) as Hrepos by congruence).
  - left. by repeat split.
  - right; left. split; [done|]. split; [by log_chain|]. congruence.
  - right; right. split; [done|]. split; [done|]. split; [by log_chain|]. congruence.
  - split; [by log_chain|]. split; [done|]. rewrite Hrepos. apply lookup_insert_eq.
  - split; [by log_chain|]. split; [congruence|].
    match goal with
    | R : repos ?x = <[_:=_]> _ |- repos ?y !! _ = _ =>
        replace (repos y) with (repos x) by congruence; rewrite R
    end.
    apply lookup_insert_eq.
Qed.

End CreateForBranches.

Section FirstCommit.
Import ATProto.

Lemma new_did_first_commit o h s r s' :
  create_new_did o h s = (r, s') →
  ∃ extra, log s' = log s ++ extra
    ∧ ∀ before did writes,
        SendLog.first_commit extra = Some (before, did, writes) →
        create_plc o = Some did
        ∧ PlcCreate h did ∈ before ∧ RepoCreate did h ∈ before
        ∧ ∃ more, writes = mkWrite CREATE (Some "chat.bsky.actor.declaration")
                                   (Some "self") (Some chat_declaration) :: more.
Proof.
  intros H. unfold create_new_did in H.
  repeat run_step.
  all: try (exists []; rewrite app_nil_r; split; [congruence|]; done).
  all: log_chain; eexists; (split; [reflexivity|]).
  all: intros before did writes Hfirst; simpl in Hfirst; simplify_eq.
  all: split; [done|]; rewrite !elem_of_cons; eauto 10.
Qed.

(** X20: the first commit that [create_for] makes is the chat
    declaration ([allowIncoming: none], [chat.bsky.actor.declaration/self],
    with the pinned post when there is one), into the repo of the DID
    that this run registered at PLC and after the repo was created. *)
Theorem create_for_first_commit o s h r s' :
  handle_as o = Some h →
  create_for o s = (r, s') →
  ∃ extra, log s' = log s ++ extra
    ∧ ∀ before did writes,
        SendLog.first_commit extra = Some (before, did, writes) →
        create_plc o = Some did
        ∧ PlcCreate h did ∈ before ∧ RepoCreate did h ∈ before
        ∧ ∃ more, writes = mkWrite CREATE (Some "chat.bsky.actor.declaration")
                                   (Some "self") (Some chat_declaration) :: more.
Proof.
  intros Hh H. unfold create_for in H.
  repeat run_step.
  all: try match goal with
           | N : create_new_did _ _ ?x = _ |- _ =>
               destruct (new_did_first_commit _ _ _ _ _ N) as (extra & Hlog & Hfirst)
           end.
  all: try (exists []; rewrite app_nil_r; split; [congruence|]; done).
  all: try (exists extra; split; [congruence|]; exact Hfirst).
  all: try (log_chain; eexists; (split; [reflexivity|]);
            intros before did writes Hf; simpl in Hf;
            destruct (SendLog.first_commit extra) as [[[b d] w]|] eqn:Hfc; simplify_eq;
            first [destruct (Hfirst _ _ _ eq_refl) as (? & ? & ? & ?)
                  |destruct (Hfirst _ _ _ Hfc) as (? & ? & ? & ?)];
            split; [done|]; split; [by right|]; split; [by right|done]).
  all: log_chain; eexists; (split; [reflexivity|]).
  all: intros before did writes Hf; simpl in Hf; simplify_eq.
Qed.

End FirstCommit.

(** ** The [_atproto] DNS records *)

Lemma filter_ext_in {A} (P Q : A → Prop) `{∀ x, Decision (P x)} `{∀ x, Decision (Q x)}
      (l : list A) :
  (∀ x, x ∈ l → (P x ↔ Q x)) → filter P l = filter Q l.
Proof.
  induction l as [|a l IH]; intros Hext; [done|].
  rewrite !filter_cons.
  assert (filter P l = filter Q l) as -> by (apply IH; intros x Hx; apply Hext; by right).
  assert (P a ↔ Q a) as Ha by (apply Hext; left).
  repeat case_decide; tauto.
Qed.

Lemma filter_none {A} (P : A → Prop) `{∀ x, Decision (P x)} (l : list A) :
  (∀ x, x ∈ l → ¬ P x) → filter P l = [].
Proof.
  induction l as [|a l IH]; intros Hno; [done|].
  rewrite filter_cons, decide_False by (apply Hno; left).
  apply IH. intros x Hx. apply Hno. by right.
Qed.

Section DnsFacts.
Import Dns.

(** Outside of DEBUG. *)
Local Abbreviation remove_dns := (remove_dns false).
Local Abbreviation set_dns := (set_dns false).

Lemma list_txt_app z1 z2 n : list_txt (z1 ++ z2) n = list_txt z1 n ++ list_txt z2 n.
Proof. apply filter_app. Qed.

Lemma list_txt_delete z n m :
  list_txt (delete_all z (list_txt z n)) m = if decide (m = n) then [] else list_txt z m.
Proof.
  unfold delete_all, list_txt at 1. rewrite list_filter_filter.
  destruct (decide (m = n)) as [->|Hm].
  - apply filter_none. intros r Hr [Hp Hnot]. apply Hnot.
    unfold list_txt. by apply list_elem_of_filter.
  - unfold list_txt. apply filter_ext_in. intros r Hr. split; [tauto|].
    intros [Hname Ht]. split; [done|]. intros Hin.
    apply list_elem_of_filter in Hin as [[Hn _] _]. congruence.
Qed.

Lemma remove_dns_spec (list_ok create_ok : bool) handle z z' :
  remove_dns list_ok create_ok handle z = (Return (), z') →
  ∀ n, list_txt z' n = if decide (n = name_of handle) then [] else list_txt z n.
Proof.
  intros H n. unfold Dns.remove_dns in H.
  destruct list_ok; [|done]. simpl in H.
  destruct (list_txt z (name_of handle)) as [|r rs] eqn:Hl.
  - simplify_eq. case_decide; [by subst|done].
  - destruct create_ok; [|done]. simplify_eq. rewrite <- Hl. apply list_txt_delete.
Qed.

(** X21: outside of DEBUG, a [remove_dns] that goes through leaves no TXT
    record under [_atproto.<handle>.] and leaves the TXT records of every
    other name as they are; a failed one leaves the zone as it is. *)
Theorem remove_dns_removes (list_ok create_ok : bool) handle z r z' :
  remove_dns list_ok create_ok handle z = (r, z') →
  (r = Return () →
   list_txt z' (name_of handle) = []
   ∧ ∀ n, n ≠ name_of handle → list_txt z' n = list_txt z n)
  ∧ (r ≠ Return () → z' = z).
Proof.
  intros H. split.
  - intros ->. pose proof (remove_dns_spec _ _ _ _ _ H) as Hspec. split.
    + rewrite Hspec. by rewrite decide_True.
    + intros n Hn. rewrite Hspec. by rewrite decide_False.
  - intros Hr. unfold Dns.remove_dns in H.
    destruct list_ok; simpl in H; [|by simplify_eq].
    destruct (list_txt z (name_of handle)); [by simplify_eq|].
    destruct create_ok; by simplify_eq.
Qed.

(** X22: outside of DEBUG and for a handle that is not under one of the
    handle domains, a [set_dns] that goes through leaves exactly one TXT
    record under [_atproto.<handle>.], with the value ["did=<did>"] and
    the TTL 10800, whatever was there before, and leaves the TXT records
    of every other name as they are. *)
Theorem set_dns_sets (in_handle_domains : string → bool) (list_ok create_ok : bool)
        handle did z z' :
  in_handle_domains handle = false →
  set_dns in_handle_domains list_ok create_ok handle did z = (Return (), z') →
  list_txt z' (name_of handle)
  = [mkRrset (name_of handle) "TXT" 10800 [val_of did]]
  ∧ ∀ n, n ≠ name_of handle → list_txt z' n = list_txt z n.
Proof.
  intros Hh H. unfold Dns.set_dns in H. rewrite Hh in H. cbv iota in H.
  destruct (remove_dns list_ok create_ok handle z) as [[[]|site] z1] eqn:Hrm; [|done].
  pose proof (remove_dns_spec _ _ _ _ _ Hrm) as Hspec.
  destruct create_ok eqn:Hc; simpl in H; [|done]. simplify_eq.
  split.
  - rewrite list_txt_app, Hspec, decide_True by done. simpl.
    unfold list_txt. by rewrite filter_cons_True by done.
  - intros n Hn. rewrite list_txt_app, Hspec, decide_False by done.
    unfold list_txt at 2. rewrite filter_cons_False; [by rewrite app_nil_r|].
    simpl. intros [? _]. congruence.
Qed.

End DnsFacts.

(** ** [ATProto.set_username] *)

Section UsernameFacts.
Import Username.

(** X23: [set_username] changes something only for an enabled user with
    an active repo and a new handle that resolves to the user's own DID;
    the PLC directory is then updated first.  It answers [True] only
    when the handle is already the repo's and nothing is done, and ends
    without an answer after all four updates went through. *)
Theorem set_username_checks e username r log :
  set_username e username = (r, log) →
  let name := removeprefix_at username in
  (log ≠ [] →
   ∃ did repo rest,
     is_enabled e = true ∧ copy e = Some did ∧ load_repo e did = Some repo
     ∧ ATProto.falsy (status repo) = true ∧ handle repo ≠ Some name
     ∧ resolve_handle e name = Return (Some did)
     ∧ log = UpdatePlc did name :: rest)
  ∧ (r = Return (Some true) →
     log = [] ∧ ∃ did repo, copy e = Some did ∧ load_repo e did = Some repo
                            ∧ handle repo = Some name)
  ∧ (r = Return None →
     ∃ did, log = [UpdatePlc did name; StoreRepo did name;
                   WriteIdentity did name; LoadDidDoc did]).
Proof.
  intros H name. unfold set_username in H. fold name in H.
  destruct (is_enabled e) eqn:He; simpl in H; [|by simplify_eq].
  destruct (copy e) as [did|] eqn:Hc; simpl in H; [|by simplify_eq].
  destruct (load_repo e did) as [repo|] eqn:Hl; [|by simplify_eq].
  destruct (ATProto.falsy (status repo)) eqn:Hs; simpl in H; [|by simplify_eq].
  case_bool_decide as Hh.
  { simplify_eq. split; [done|]. split; [|done]. intros _. split; [done|]. eauto. }
  destruct (resolve_handle e name) as [resolved|site] eqn:Hr; [|by simplify_eq].
  case_bool_decide as Hres; [by simplify_eq|].
  assert (resolved = Some did) as -> by (by destruct (decide (resolved = Some did))).
  assert (∀ rest, log = UpdatePlc did name :: rest →
          ∃ did0 repo0 rest0,
            true = true ∧ Some did = Some did0 ∧ load_repo e did0 = Some repo0
            ∧ ATProto.falsy (status repo0) = true ∧ handle repo0 ≠ Some name
            ∧ Return (Some did) = Return (Some did0)
            ∧ log = UpdatePlc did0 name :: rest0) as Hlog.
  { intros rest ->. by exists did, repo, rest. }
  simpl in H.
  destruct (update_plc_ok e); simpl in H; [|by simplify_eq].
  destruct (store_repo_ok e); simpl in H;
    [|simplify_eq; split; [intros _; by eapply Hlog|done]].
  destruct (write_event_ok e); simpl in H;
    [|simplify_eq; split; [intros _; by eapply Hlog|done]].
  destruct (load_ok e); simpl in H;
    simplify_eq; (split; [intros _; by eapply Hlog|]); [|done].
  split; [done|]. eauto.
Qed.

End UsernameFacts.

(** ** Handle resolution *)

Section HandleIdFacts.
Import Handles.
Context (natives : list native) (repos : list repo)
        (handle_re : string → bool) (remote_resolve : string → result (option string)).

Local Abbreviation resolve_handle := (resolve_handle natives repos).
Local Abbreviation handle_to_id := (handle_to_id natives repos handle_re remote_resolve).
Local Abbreviation local := (local natives repos).

Lemma find_elem {A} (f : A → bool) (l : list A) x :
  find f l = Some x → x ∈ l ∧ f x = true.
Proof. intros H. apply find_some in H as [? ?]. by rewrite list_elem_of_In. Qed.

Lemma find_no_elem {A} (f : A → bool) (l : list A) :
  find f l = None → ∀ x, x ∈ l → f x = false.
Proof. intros H x Hx. apply (find_none f l H). by rewrite <- list_elem_of_In. Qed.

Lemma resolve_handle_local handle did :
  resolve_handle handle = Return (Some did) → local handle did.
Proof.
  unfold Handles.resolve_handle. destruct (String.eqb handle ""); [by intros|].
  destruct (find _ natives) as [u|] eqn:Hn.
  { intros [= <-]. apply find_elem in Hn as [Hin Hu].
    apply bool_decide_eq_true in Hu. left. by exists u. }
  assert (∀ u, u ∈ natives → native_handle u ≠ Some handle) as Hnone.
  { intros u Hu. apply (find_no_elem _ _ Hn) in Hu. by apply bool_decide_eq_false in Hu. }
  destruct (find (λ r, bool_decide (handle ∈ handles r ∧ status r = None)) repos)
    as [r|] eqn:Ha.
  { intros [= <-]. apply find_elem in Ha as [Hin Hr].
    apply bool_decide_eq_true in Hr as [? ?]. right. split; [done|]. exists r. auto. }
  destruct (find (λ r, bool_decide (handle ∈ handles r)) repos)
    as [r|] eqn:Hany; [|done].
  intros [= <-]. apply find_elem in Hany as [Hin Hr].
  apply bool_decide_eq_true in Hr. right. split; [done|]. exists r.
  repeat split; try done. right. intros r' Hr' Hh Hs.
  apply (find_no_elem _ _ Ha) in Hr'. apply bool_decide_eq_false in Hr'. tauto.
Qed.

Lemma resolve_handle_none handle :
  resolve_handle handle = Return None →
  (∀ u, u ∈ natives → native_handle u ≠ Some handle)
  ∧ (∀ r, r ∈ repos → handle ∉ handles r).
Proof.
  unfold Handles.resolve_handle. destruct (String.eqb handle ""); [by intros|].
  destruct (find _ natives) as [u|] eqn:Hn; [done|].
  destruct (find (λ r, bool_decide (handle ∈ handles r ∧ status r = None)) repos)
    as [r|] eqn:Ha; [done|].
  destruct (find (λ r, bool_decide (handle ∈ handles r)) repos)
    as [r|] eqn:Hany; [done|]. intros _. split.
  - intros u Hu. apply (find_no_elem _ _ Hn) in Hu. by apply bool_decide_eq_false in Hu.
  - intros r Hr. apply (find_no_elem _ _ Hany) in Hr. by apply bool_decide_eq_false in Hr.
Qed.

Lemma find_first {A} (f : A → bool) (l : list A) x :
  x ∈ l → f x = true → ∃ y, find f l = Some y.
Proof.
  intros Hin Hf. destruct (find f l) as [y|] eqn:E; [eauto|].
  by rewrite (find_no_elem _ _ E x Hin) in Hf.
Qed.

Lemma handle_to_id_resolves handle :
  handle ≠ "" → handle_re handle = true →
  handle_to_id handle
  = match resolve_handle handle with
    | Return None => remote_resolve handle
    | r => r
    end.
Proof.
  intros Hne Hre. unfold Handles.handle_to_id, owns_handle.
  apply String.eqb_neq in Hne. rewrite Hne, Hre. simpl.
  by destruct (resolve_handle handle) as [[d|]|site].
Qed.

(** X24: [handle_to_id] answers [None] for an empty handle and for one
    that does not match [HANDLE_RE], without looking anything up.  For
    any other handle a stored one wins: it answers the DID of a native
    user with the handle if there is one; else that of an active repo
    with the handle if there is one; else that of any repo with the
    handle; and only when no stored user or repo has the handle does it
    resolve the handle over the network.  A DID it answers always comes
    from one of these. *)
Theorem handle_to_id_local_first handle :
  (handle = "" ∨ handle_re handle = false → handle_to_id handle = Return None)
  ∧ (∀ did, handle_to_id handle = Return (Some did) →
       handle_re handle = true
       ∧ (local handle did
          ∨ ((∀ u, u ∈ natives → native_handle u ≠ Some handle)
             ∧ (∀ r, r ∈ repos → handle ∉ handles r)
             ∧ remote_resolve handle = Return (Some did))))
  ∧ (handle ≠ "" → handle_re handle = true →
     ((∃ u, u ∈ natives ∧ native_handle u = Some handle) →
      ∃ u, u ∈ natives ∧ native_handle u = Some handle
           ∧ handle_to_id handle = Return (Some (native_did u)))
     ∧ ((∀ u, u ∈ natives → native_handle u ≠ Some handle) →
        ((∃ r, r ∈ repos ∧ handle ∈ handles r ∧ status r = None) →
         ∃ r, r ∈ repos ∧ handle ∈ handles r ∧ status r = None
              ∧ handle_to_id handle = Return (Some (repo_did r)))
        ∧ ((∀ r, r ∈ repos → handle ∈ handles r → status r ≠ None) →
           (∃ r, r ∈ repos ∧ handle ∈ handles r) →
           ∃ r, r ∈ repos ∧ handle ∈ handles r
                ∧ handle_to_id handle = Return (Some (repo_did r)))
        ∧ ((∀ r, r ∈ repos → handle ∉ handles r) →
           handle_to_id handle = remote_resolve handle))).
Proof.
  split; [|split].
  - unfold Handles.handle_to_id, owns_handle. intros [-> | ->]; [done|].
    simpl. by rewrite orb_true_r.
  - unfold Handles.handle_to_id, owns_handle.
    intros did. destruct (handle_re handle); simpl; [|by rewrite orb_true_r].
    rewrite orb_false_r. destruct (String.eqb handle ""); [done|].
    destruct (resolve_handle handle) as [[d|]|site] eqn:Hr; [| |done].
    + intros [= ->]. split; [done|]. left. by apply resolve_handle_local.
    + intros Hrem. split; [done|]. right.
      destruct (resolve_handle_none _ Hr). done.
  - intros Hne Hre. rewrite (handle_to_id_resolves _ Hne Hre).
    unfold Handles.resolve_handle. apply String.eqb_neq in Hne. rewrite Hne.
    split.
    { intros (u & Hu & Hh).
      destruct (find_first (λ u, bool_decide (native_handle u = Some handle))
                           natives u Hu) as [y Hy];
        [by apply bool_decide_eq_true|].
      rewrite Hy. apply find_elem in Hy as [? Hb]. apply bool_decide_eq_true in Hb.
      by exists y. }
    intros Hnone.
    assert (find (λ u, bool_decide (native_handle u = Some handle)) natives = None)
      as ->.
    { destruct (find _ natives) as [y|] eqn:Hy; [|done].
      apply find_elem in Hy as [Hin Hb]. apply bool_decide_eq_true in Hb.
      by destruct (Hnone y Hin). }
    split; [|split].
    + intros (r & Hr & Hh & Hs).
      destruct (find_first (λ r, bool_decide (handle ∈ handles r ∧ status r = None))
                           repos r Hr) as [y Hy];
        [by apply bool_decide_eq_true|].
      rewrite Hy. apply find_elem in Hy as [? Hb].
      apply bool_decide_eq_true in Hb as [? ?]. by exists y.
    + intros Hinactive (r & Hr & Hh).
      assert (find (λ r, bool_decide (handle ∈ handles r ∧ status r = None)) repos
              = None) as ->.
      { destruct (find _ repos) as [y|] eqn:Hy; [|done].
        apply find_elem in Hy as [Hin Hb]. apply bool_decide_eq_true in Hb as [? ?].
        by destruct (Hinactive y Hin). }
      destruct (find_first (λ r, bool_decide (handle ∈ handles r)) repos r Hr)
        as [y Hy]; [by apply bool_decide_eq_true|].
      rewrite Hy. apply find_elem in Hy as [? Hb]. apply bool_decide_eq_true in Hb.
      by exists y.
    + intros Hno.
      assert (find (λ r, bool_decide (handle ∈ handles r ∧ status r = None)) repos
              = None) as ->.
      { destruct (find _ repos) as [y|] eqn:Hy; [|done].
        apply find_elem in Hy as [Hin Hb]. apply bool_decide_eq_true in Hb as [? ?].
        by destruct (Hno y Hin). }
      assert (find (λ r, bool_decide (handle ∈ handles r)) repos = None) as ->.
      { destruct (find _ repos) as [y|] eqn:Hy; [|done].
        apply find_elem in Hy as [Hin Hb]. apply bool_decide_eq_true in Hb.
        by destruct (Hno y Hin). }
      done.
Qed.

End HandleIdFacts.

(** ** [poll_chat_task] *)

Section ChatFacts.
Import Chat.
Context (get_log : json → option json)
        (to_as1 : json → option (list (string * json)))
        (at_uri : json → string → json → option string)
        (create_task_ok : task → bool) (put_ok : bool)
        (repo_did bot_id : string).

Local Abbreviation handle_log := (handle_log to_as1 at_uri create_task_ok repo_did bot_id).
Local Abbreviation handle_logs := (handle_logs to_as1 at_uri create_task_ok repo_did bot_id).
Local Abbreviation poll := (poll get_log to_as1 at_uri create_task_ok repo_did bot_id).
Local Abbreviation poll_chat_task :=
  (poll_chat_task get_log to_as1 at_uri create_task_ok put_ok repo_did bot_id).
Local Abbreviation from_message := (from_message at_uri create_task_ok repo_did).

Lemma handle_log_task log t :
  handle_log log = Return (Some t) → from_message t.
Proof.
  unfold Chat.handle_log, Chat.from_message. intros H.
  repeat case_match; simplify_eq. simpl.
  match goal with
  | E : Py.eq_str _ repo_did = false |- _ => rewrite E
  end.
  eauto 10.
Qed.

Lemma handle_logs_tasks logs r ts :
  handle_logs logs = (r, ts) → Forall from_message ts.
Proof.
  revert r ts. induction logs as [|log rest IH]; intros r ts H; simpl in H.
  - simplify_eq. constructor.
  - destruct (handle_log log) as [[t|]|site] eqn:Hl; [| |simplify_eq; constructor].
    + destruct (handle_logs rest) as [r' ts'] eqn:Hr. simplify_eq. simpl.
      constructor; [by eapply handle_log_task|by eapply IH].
    + destruct (handle_logs rest) as [r' ts'] eqn:Hr. simplify_eq. by eapply IH.
Qed.

Lemma poll_tasks fuel : ∀ cursor tasks r cursor' tasks',
  poll fuel cursor tasks = Some (r, cursor', tasks') →
  Forall from_message tasks → Forall from_message tasks'.
Proof.
  induction fuel as [|fuel IH]; intros cursor tasks r cursor' tasks' H Ht; [done|].
  simpl in H.
  destruct (get_log cursor) as [resp|]; [|by simplify_eq].
  destruct (item resp "logs") as [logs|]; [|by simplify_eq].
  destruct (Py.iterate logs) as [entries|]; [|by simplify_eq].
  destruct (handle_logs entries) as [[[]|site] ts] eqn:Hl.
  - pose proof (handle_logs_tasks _ _ _ Hl) as Hts.
    destruct (negb (Py.truthy logs) || _).
    + simplify_eq. by apply Forall_app.
    + eapply IH; [done|]. by apply Forall_app.
  - pose proof (handle_logs_tasks _ _ _ Hl) as Hts. simplify_eq. by apply Forall_app.
Qed.

(** X25: whatever the chat service sends, every task that
    [poll_chat_task] enqueues is for a message whose sender is not the
    bot's own repo: the task is authenticated as that sender, carries the
    message and its [sentAt], and has the [at://] URI of the sender and
    the message id as its id.  The bot's cursor is stored only when the
    task ends with [OK]. *)
Theorem poll_chat_task_tasks fuel cursor out :
  poll_chat_task fuel cursor = Some out →
  Forall from_message (enqueued out)
  ∧ (answer out ≠ Return "OK" → stored_cursor out = cursor).
Proof.
  unfold Chat.poll_chat_task. destruct (negb (Py.truthy cursor)).
  { intros [= <-]. split; [constructor|done]. }
  destruct (poll fuel cursor []) as [[[r cursor'] tasks]|] eqn:Hp; [|done].
  pose proof (poll_tasks _ _ _ _ _ _ Hp (Forall_nil_2 _)) as Ht.
  destruct r as [[]|site]; [destruct put_ok|]; intros [= <-]; done.
Qed.

End ChatFacts.

(** ** [derived_writes] *)

Section DerivedFacts.
Import Derived.
Context (ACTOR_TYPES : list string) (get_object : json → list (string * json)).

Local Abbreviation derived_writes := (derived_writes ACTOR_TYPES get_object).

Local Abbreviation actor_of := (actor_of get_object).

(** The action of the wallet write: an update for an activity other than
    a post, a create for anything else. *)
Local Abbreviation action_for f :=
  (if Py.eq_str (Py.get "objectType" f) "activity"
      && negb (Py.eq_str (Py.get "verb" f) "post")
   then ATProto.UPDATE else ATProto.CREATE).

Lemma in_set_hashable x names :
  Py.hashable x = true → in_set x names = Some (among x names).
Proof. intros H. unfold in_set. by rewrite H. Qed.

Lemma in_set_inv x names b : in_set x names = Some b → b = among x names.
Proof. unfold in_set. destruct (Py.hashable x); by intros [= <-]. Qed.

Lemma in_set_none x names : in_set x names = None → Py.hashable x = false.
Proof. unfold in_set. by destruct (Py.hashable x). Qed.

(** X26: [derived_writes] answers with no write or with one write, the
    wallet record of [webMonetization/self], which is the same whatever
    the actor's [monetization] says.  An activity whose verb is neither
    [post] nor [update] (a delete or an undo, say) yields no write.
    Anything else yields the wallet write exactly when the object, or
    for a CRUD verb its inner object, is an actor with [monetization]:
    as an update for an update activity, as a create otherwise, also for
    a delete that does not say [objectType: activity].  It raises only
    for an object that is not a dict, a verb that is a list or dict, or
    such an actor type. *)
Theorem derived_writes_wallet as1 :
  (∀ writes, derived_writes as1 = Return writes →
     (writes = [] ∨ writes = [wallet ATProto.CREATE] ∨ writes = [wallet ATProto.UPDATE])
     ∧ (writes ≠ [] →
        ∃ f, as1 = JObj f
             ∧ other_activity f = false
             ∧ among (Py.get "objectType" (actor_of f)) ACTOR_TYPES = true
             ∧ Py.truthy (Py.get "monetization" (actor_of f)) = true
             ∧ writes = [wallet (action_for f)]))
  ∧ (∀ f, as1 = JObj f → f ≠ [] → Py.hashable (Py.get "verb" f) = true →
       (other_activity f = true → derived_writes as1 = Return [])
       ∧ (other_activity f = false →
          Py.hashable (Py.get "objectType" (actor_of f)) = true →
          derived_writes as1
          = Return (if among (Py.get "objectType" (actor_of f)) ACTOR_TYPES
                       && Py.truthy (Py.get "monetization" (actor_of f))
                    then [wallet (action_for f)] else [])))
  ∧ (∀ site, derived_writes as1 = Raise site →
       Py.truthy as1 = true
       ∧ ∀ f, as1 = JObj f →
              Py.hashable (Py.get "verb" f) = false
              ∨ (other_activity f = false
                 ∧ Py.hashable (Py.get "objectType" (actor_of f)) = false)).
Proof.
  split; [|split].
  - intros writes H. unfold Derived.derived_writes in H.
    destruct (negb (Py.truthy as1)); [simplify_eq; split; [by left|done]|].
    destruct as1 as [| | | | |f]; try done.
    destruct (in_set (Py.get "verb" f) ATProto.CRUD_VERBS) as [crud|] eqn:Hcrud;
      [|done].
    apply in_set_inv in Hcrud as ->.
    change (if among (Py.get "verb" f) ATProto.CRUD_VERBS
            then get_object (JObj f) else f) with (actor_of f) in H.
    destruct (Py.eq_str (Py.get "objectType" f) "activity") eqn:Et;
      destruct (Py.eq_str (Py.get "verb" f) "post") eqn:Ep;
      destruct (Py.eq_str (Py.get "verb" f) "update") eqn:Eu;
      destruct (among (Py.get "verb" f) ["delete"; "undo"]) eqn:Ed;
      simpl in H;
      try (simplify_eq; split; [by left|done]).
    all: destruct (in_set (Py.get "objectType" (actor_of f)) ACTOR_TYPES)
      as [actor|] eqn:Hactor; [|done];
      apply in_set_inv in Hactor;
      destruct actor; simpl in H;
      [|simplify_eq; split; [by left|done]];
      destruct (Py.truthy (Py.get "monetization" (actor_of f))) eqn:Hm;
      simplify_eq; [|split; [by left|done]].
    all: split; [by auto|]; intros _; exists f; unfold other_activity;
      rewrite Et, Ep, Eu; by repeat split.
  - intros f -> Hne Hv. unfold Derived.derived_writes.
    destruct f as [|kv f']; [done|]. simpl Py.truthy. simpl negb. cbv iota.
    rewrite (in_set_hashable _ _ Hv).
    change (if among (Py.get "verb" (kv :: f')) ATProto.CRUD_VERBS
            then get_object (JObj (kv :: f')) else kv :: f')
      with (actor_of (kv :: f')).
    unfold other_activity.
    destruct (Py.eq_str (Py.get "objectType" (kv :: f')) "activity") eqn:Et;
      destruct (Py.eq_str (Py.get "verb" (kv :: f')) "post") eqn:Ep;
      destruct (Py.eq_str (Py.get "verb" (kv :: f')) "update") eqn:Eu;
      simpl.
    all: split; [try done; intros _; by repeat case_match|].
    all: try done.
    all: intros _ Ha; rewrite (in_set_hashable _ _ Ha); by destruct (_ && _).
  - intros site H. unfold Derived.derived_writes in H.
    destruct (Py.truthy as1) eqn:Ht; [|done]. split; [done|].
    simpl (negb _) in H. cbv iota in H.
    intros f ->.
    destruct (in_set (Py.get "verb" f) ATProto.CRUD_VERBS) as [crud|] eqn:Hcrud;
      [|left; by eapply in_set_none].
    apply in_set_inv in Hcrud as ->. right.
    change (if among (Py.get "verb" f) ATProto.CRUD_VERBS
            then get_object (JObj f) else f) with (actor_of f) in H.
    unfold other_activity.
    destruct (Py.eq_str (Py.get "objectType" f) "activity") eqn:Et;
      destruct (Py.eq_str (Py.get "verb" f) "post") eqn:Ep;
      destruct (Py.eq_str (Py.get "verb" f) "update") eqn:Eu;
      destruct (among (Py.get "verb" f) ["delete"; "undo"]) eqn:Ed;
      simpl in H |- *; try done.
    all: split; [done|].
    all: destruct (in_set (Py.get "objectType" (actor_of f)) ACTOR_TYPES)
      as [actor|] eqn:Hactor; [by destruct (actor && _)|by eapply in_set_none].
Qed.

End DerivedFacts.

(** ** The [atproto-did] endpoint *)

Section DidFacts.
Import DidEndpoint.
Context (users_of : string → option (list user))
        (url_re : string → option (string * string))
        (ATPROTO_HANDLE_DOMAINS : list string)
        (domain_or_parent_in : string → string → bool)
        (lower : string → string).

Local Abbreviation atproto_did :=
  (atproto_did users_of url_re ATPROTO_HANDLE_DOMAINS domain_or_parent_in lower).
Local Abbreviation by_domain := (by_domain domain_or_parent_in lower).

Lemma by_domain_found users username server domains : ∀ found u,
  by_domain users username server domains found = Some u →
  found = Some u
  ∨ (u ∈ users
     ∧ ∃ domain, domain ∈ domains ∧ domain_or_parent_in server domain = true
                 ∧ handle_as_domain u = Some (lower (username +:+ "." +:+ domain))).
Proof.
  induction domains as [|d rest IH]; intros found u H; simpl in H; [by left|].
  destruct (domain_or_parent_in server d) eqn:Hd.
  - apply IH in H as [H|(Hu & d' & Hd' & ? & ?)].
    + right. apply find_elem in H as [Hu Hh]. apply bool_decide_eq_true in Hh.
      split; [done|]. exists d. split; [left|done].
    + right. split; [done|]. exists d'. split; [by right|done].
  - apply IH in H as [H|(Hu & d' & Hd' & ? & ?)]; [by left|].
    right. split; [done|]. exists d'. split; [by right|done].
Qed.

(** X27: the endpoint answers with a DID only when both parameters are
    there and the protocol is known, and the DID is the non-empty ATProto
    copy of a stored user of that protocol whose key id or handle is the
    [id], or, for [ap], whose [handle_as_domain] is the lowercased
    [username.domain] of the [id]'s URL under a handle domain.  Without a
    parameter or for an unknown protocol it answers 400. *)
Theorem atproto_did_answers protocol id :
  (∀ copy, atproto_did protocol id = Did copy →
     copy ≠ ""
     ∧ ∃ p i users u,
         protocol = Some p ∧ id = Some i ∧ users_of p = Some users ∧ u ∈ users
         ∧ Models.get_copy ATProto.LABEL (copies u) = Some copy
         ∧ found_by url_re ATPROTO_HANDLE_DOMAINS domain_or_parent_in lower p i u)
  ∧ (atproto_did protocol id = BadRequest ↔
     ATProto.truthy_value protocol = None
     ∨ ATProto.truthy_value id = None
     ∨ ∃ p, protocol = Some p ∧ users_of p = None).
Proof.
  unfold DidEndpoint.atproto_did. split.
  - intros copy H.
    destruct (ATProto.truthy_value protocol) as [p|] eqn:Hp; [|done].
    apply truthy_value_inv in Hp as [-> _].
    destruct (users_of p) as [users|] eqn:Hu; [|done].
    destruct (ATProto.truthy_value id) as [i|] eqn:Hi; [|done].
    apply truthy_value_inv in Hi as [-> _].
    match type of H with
    | match ?user with Some _ => _ | None => _ end = _ =>
        destruct user as [u|] eqn:Huser; [|done]
    end.
    destruct (ATProto.truthy_value _) as [c|] eqn:Hc; [|done].
    apply truthy_value_inv in Hc as [Hc Hne]. simplify_eq.
    split; [done|]. exists p, i, users, u. repeat (split; [done|]).
    assert (u ∈ users ∧ found_by url_re ATPROTO_HANDLE_DOMAINS
                           domain_or_parent_in lower p i u) as [? ?]; [|done].
    unfold found_by.
    destruct (find (λ u, String.eqb (key_id u) i) users) as [u1|] eqn:H1.
    { simplify_eq. apply find_elem in H1 as [? Hk]. apply String.eqb_eq in Hk. auto. }
    destruct (find (λ u, bool_decide (handle u = Some i)) users) as [u2|] eqn:H2.
    { simplify_eq. apply find_elem in H2 as [? Hh]. apply bool_decide_eq_true in Hh. auto. }
    destruct (String.eqb p "ap") eqn:Hap; [|done]. apply String.eqb_eq in Hap as ->.
    destruct (url_re i) as [[username server]|] eqn:Hre; [|done].
    apply by_domain_found in Huser as [?|(? & d & ? & ? & ?)]; [done|].
    split; [done|]. right; right. split; [done|]. by exists username, server, d.
  - destruct (ATProto.truthy_value protocol) as [p|] eqn:Hp; [|by split; auto].
    apply truthy_value_inv in Hp as Hp'. destruct Hp' as [-> Hne].
    destruct (users_of p) as [users|] eqn:Hu.
    2:{ split; [|done]. intros _. right; right. by exists p. }
    destruct (ATProto.truthy_value id) as [i|] eqn:Hi; [|by split; auto].
    split.
    + repeat case_match; done.
    + intros [?|[?|(p' & [= <-] & ?)]]; congruence.
Qed.

End DidFacts.

(** ** [Nostr.send]: failures *)

Section NostrSendFailures.
Context (bech32_prefix_for : json → option string)
        (id_to_uri : string → json → option string).

Local Abbreviation send := (Nostr.send bech32_prefix_for id_to_uri).

(** What [send] publishes as the copy: [id_to_uri(bech32_prefix_for(event),
    event['id'])], [None] when one of the three raises. *)
Local Abbreviation copy_uri event :=
  (prefix ← bech32_prefix_for (JObj event);
   id ← Py.assoc "id" event;
   id_to_uri prefix id).

(** X28: [Nostr.send] stores the object exactly when it answers [True].
    Whatever fails up to the relay's answer leaves the copies untouched,
    also when the relay closes the connection and [send] answers
    [False].  A failure after the relay's answer leaves the object
    changed in memory and unstored: without its Nostr copies when the
    URI of the event could not be made, and with the new Nostr copy in
    their place when [obj.put()] failed.  Once the relay has answered
    for a signed event of the sender, these are the only outcomes. *)
Theorem nostr_send_failure copies from_user converted relay put_ok r after :
  send copies from_user converted relay put_ok = (r, after) →
  (Nostr.stored after = true ↔ r = Return true)
  ∧ (relay ≠ Nostr.Answered → Nostr.copies_after after = copies ∧ r ≠ Return true)
  ∧ (r = Return false → relay = Nostr.ClosedOK ∧ Nostr.copies_after after = copies)
  ∧ (∀ site, r = Raise site →
       (site ∈ ["assert from_user"; "convert"; "assert pubkey"; "assert sig";
                "websocket"]
        ∧ Nostr.copies_after after = copies)
       ∨ (site ∈ ["bech32_prefix_for"; "event['id']"; "id_to_uri"]
          ∧ relay = Nostr.Answered
          ∧ (∃ event, converted = Some event ∧ copy_uri event = None)
          ∧ Nostr.copies_after after = filter (λ c, protocol c ≠ "nostr") copies)
       ∨ (site = "obj.put" ∧ relay = Nostr.Answered ∧ put_ok = false
          ∧ ∃ event uri,
              converted = Some event ∧ copy_uri event = Some uri
              ∧ Nostr.copies_after after
                = filter (λ c, protocol c ≠ "nostr") copies ++ [mkTarget uri "nostr"]))
  ∧ (∀ hex_pubkey event,
       from_user = Some hex_pubkey → converted = Some event →
       Py.eq_str (Py.get "pubkey" event) hex_pubkey = true →
       Py.truthy (Py.get "sig" event) = true →
       relay = Nostr.Answered →
       match copy_uri event with
       | Some uri =>
           r = (if put_ok then Return true else Raise "obj.put")
           ∧ after = Nostr.mkAfter
                       (filter (λ c, protocol c ≠ "nostr") copies
                        ++ [mkTarget uri "nostr"]) put_ok
       | None =>
           (∃ site, r = Raise site)
           ∧ after = Nostr.mkAfter (filter (λ c, protocol c ≠ "nostr") copies) false
       end).
Proof.
  assert (∀ uri, Models.add (filter (λ c, protocol c ≠ "nostr") copies)
                   (mkTarget uri Nostr.LABEL)
                 = filter (λ c, protocol c ≠ "nostr") copies ++ [mkTarget uri "nostr"])
    as Hadd.
  { intros uri. apply add_absent.
    intros Hin%list_elem_of_filter. by destruct Hin as [Hne _]. }
  unfold Nostr.send. intros H.
  split; [|split; [|split; [|split]]].
  - repeat case_match; simplify_eq; simpl; split; intros; by simplify_eq.
  - intros Hrelay. repeat case_match; simplify_eq; simpl; by split.
  - intros ->. repeat case_match; simplify_eq; simpl; by split.
  - intros site ->.
    repeat case_match; simplify_eq; simpl;
      first [ left; split; [set_solver|reflexivity]
            | right; left; split; [set_solver|]; split; [reflexivity|];
              split; [|reflexivity]; eexists; split; [reflexivity|];
              simpl; by repeat (match goal with E : _ = _ |- _ => rewrite E end; simpl)
            | right; right; split; [reflexivity|]; split; [reflexivity|];
              split; [reflexivity|]; eexists _, _; split; [reflexivity|];
              split; [|apply Hadd];
              simpl; by repeat (match goal with E : _ = _ |- _ => rewrite E end; simpl) ].
  - intros hex event -> -> Hp Hs ->. rewrite Hp, Hs in H. simpl in H.
    destruct (bech32_prefix_for (JObj event)) as [prefix|]; simpl;
      [|simplify_eq; split; [by eexists|done]].
    destruct (Py.assoc "id" event) as [id|]; simpl;
      [|simplify_eq; split; [by eexists|done]].
    destruct (id_to_uri prefix id) as [uri|]; simpl;
      [|simplify_eq; split; [by eexists|done]].
    rewrite Hadd in H. destruct put_ok; by simplify_eq.
Qed.

End NostrSendFailures.

Section LoaderSizes.
Import Loader.
Context (is_blocklisted : string → bool) (uri_to_id : string → option string)
        (PROTOCOLS : list (option string)) (datastore : list user)
        (fetch_fails : string → bool)
        (SUPPORTED_KINDS : gset Z) (token : nat → string).

Local Abbreviation load_users :=
  (_load_users is_blocklisted uri_to_id PROTOCOLS datastore fetch_fails).

Lemma same_size_same_set (s s' : gset string) : s ⊆ s' → size s = size s' → s' = s.
Proof.
  intros Hsub Hsize. symmetry. apply set_subseteq_size_eq; [done|]. rewrite Hsize. lia.
Qed.

(** [subscribe]'s state once the loader has run: the sets are the globals
    of [g], the counts are the ones taken before. *)
Local Abbreviation seen_by st g :=
  (NostrHub.mkSub (nostr_pubkeys g) (bridged_pubkeys g)
                  (NostrHub.nostr_pubkeys_count st) (NostrHub.bridged_pubkeys_count st)
                  (NostrHub.subscription st) (NostrHub.queries st)
                  (NostrHub.received st)).

(** X29: [subscribe] notices new users by comparing the sizes of the
    pubkey sets with the sizes it took when it sent its REQ.  Nothing
    escapes it: after a run of [_load_users], the check at the top of
    its loop sends nothing (no CLOSE, no new REQ) exactly when the run
    has left both pubkey sets as they were. *)
Theorem load_users_same_size now g st :
  NostrHub.nostr_pubkeys_count st = size (nostr_pubkeys g) →
  NostrHub.bridged_pubkeys_count st = size (bridged_pubkeys g) →
  let g' := load_users now g in
  (NostrHub.recheck SUPPORTED_KINDS token (seen_by st g')).1 = []
  ↔ nostr_pubkeys g' = nostr_pubkeys g ∧ bridged_pubkeys g' = bridged_pubkeys g.
Proof.
  intros Hn Hb g'.
  destruct (load_users_grows_sets is_blocklisted uri_to_id PROTOCOLS datastore
              fetch_fails now g) as [Hsn Hsb].
  unfold NostrHub.recheck. simpl. rewrite Hn, Hb. case_bool_decide as Hd; simpl.
  - split; [done|]. intros [En Eb]. fold g' in Hd. rewrite En, Eb in Hd. tauto.
  - split; [|done]. intros _. fold g' in Hd.
    split; apply same_size_same_set; try done.
    + destruct (decide (size (nostr_pubkeys g) = size (nostr_pubkeys g'))); tauto.
    + destruct (decide (size (bridged_pubkeys g) = size (bridged_pubkeys g'))); tauto.
Qed.

End LoaderSizes.

(** ** Concrete runs *)

Lemma load_users_timestamp_witness :
  let g' := Loader._load_users Samples.no_blocklist Samples.uri_to_id
              Samples.PROTOCOLS Samples.datastore Samples.no_failure
              10 Samples.at_start in
  Loader.pubkeys_loaded_at g' = 10
  ∧ Loader.pubkeys_initialized g' = true
  ∧ (∀ u, u ∈ Samples.datastore →
       Loader.native (Loader.pubkeys_loaded_at Samples.at_start) u →
       ∃ pk, Samples.uri_to_id (Loader.key_id u) = Some pk
             ∧ pk ∈ Loader.nostr_pubkeys g')
  ∧ (∀ u, u ∈ Samples.datastore →
       Loader.bridged Samples.PROTOCOLS (Loader.pubkeys_loaded_at Samples.at_start) u →
       ∃ pk, Loader.hex_pubkey u = Some pk ∧ pk ∈ Loader.bridged_pubkeys g').
Proof.
  apply (load_users_timestamp Samples.no_blocklist Samples.uri_to_id
           Samples.PROTOCOLS Samples.datastore Samples.no_failure
           10 Samples.at_start).
  vm_compute. discriminate.
Defined.

Lemma handle_enqueued_relevant_witness :
  ((∃ pk, HubLog.author Cases.note_by_bob pk ∧ pk ∈ Cases.nostr_pubkeys)
   ∨ (∃ m, HubLog.mentions Cases.note_by_bob m ∧ m ∈ Cases.bridged_pubkeys))
  ∧ ∃ f, Cases.note_by_bob = JObj f
         ∧ (NostrHub.delay Cases.task_for_bob = Some Cases.DELETE_TASK_DELAY
            ∧ Py.get "kind" f = JNum 5
            ∨ NostrHub.delay Cases.task_for_bob = None ∧ Py.get "kind" f ≠ JNum 5).
Proof.
  apply (handle_enqueued_relevant Cases.verify_ok Cases.uri_for_note Cases.npub_of
           Cases.DELETE_TASK_DELAY Cases.nostr_pubkeys Cases.bridged_pubkeys
           Cases.note_by_bob Cases.task_for_bob).
  vm_compute. reflexivity.
Defined.

Lemma handle_enqueues_witness :
  ∃ delay,
    NostrHub.handle Cases.verify_ok Cases.uri_for_note Cases.npub_of
      Cases.DELETE_TASK_DELAY Cases.nostr_pubkeys Cases.bridged_pubkeys
      (JObj Samples.bob_fields)
    = NostrHub.Enqueued
        (NostrHub.mkTask "receive" "nostr:note1qqq" "nostr" Cases.BOB_NPUB_URI
                         (JObj Samples.bob_fields) delay).
Proof.
  apply (handle_enqueues Cases.verify_ok Cases.uri_for_note Cases.npub_of
           Cases.DELETE_TASK_DELAY Cases.nostr_pubkeys Cases.bridged_pubkeys
           Samples.bob_fields Cases.BOB_PUBKEY
           [JArr [JStr "p"; JStr Cases.EVE_PUBKEY]]).
  - reflexivity.
  - reflexivity.
  - reflexivity.
  - repeat constructor. by eexists _, _, _.
  - reflexivity.
  - reflexivity.
  - reflexivity.
  - left. apply (bool_decide_unpack _). vm_compute. exact I.
Defined.

Lemma subscribe_quiet_witness :
  Forall (λ m, ∃ n, m = NostrHub.req Cases.SUPPORTED_KINDS (Cases.token n)
                          Cases.nostr_pubkeys Cases.bridged_pubkeys)
         (NostrHub.sent
            (NostrHub.subscribe Cases.verify_ok Cases.uri_for_note Cases.npub_of
               Cases.DELETE_TASK_DELAY Cases.SUPPORTED_KINDS Cases.token None
               "wss://reelaay" Cases.nostr_pubkeys Cases.bridged_pubkeys
               Cases.closed_after_event).1).
Proof.
  apply (subscribe_quiet Cases.verify_ok Cases.uri_for_note Cases.npub_of
           Cases.DELETE_TASK_DELAY Cases.SUPPORTED_KINDS Cases.token None).
  repeat constructor.
Defined.


Lemma subscribe_tasks_witness :
  ∃ resp event np' bp',
    NostrHub.Frame resp ∈ Cases.closed_after_event
    ∧ HubLog.event_frame resp event
    ∧ Cases.nostr_pubkeys ⊆ np' ∧ Cases.bridged_pubkeys ⊆ bp'
    ∧ NostrHub.handle Cases.verify_ok Cases.uri_for_note Cases.npub_of
        Cases.DELETE_TASK_DELAY np' bp' event
      = NostrHub.Enqueued Cases.task_for_bob
    ∧ Cases.verify_ok event = Some true
    ∧ NostrHub.nostr Cases.task_for_bob = event.
Proof.
  apply (subscribe_tasks Cases.verify_ok Cases.uri_for_note Cases.npub_of
           Cases.DELETE_TASK_DELAY Cases.SUPPORTED_KINDS Cases.token None
           "wss://reelaay").
  vm_compute. left.
Defined.

Lemma subscribe_fails_on_short_p_tag_witness :
  NostrHub.handle Cases.verify_ok Cases.uri_for_note Cases.npub_of
    Cases.DELETE_TASK_DELAY Cases.nostr_pubkeys Cases.bridged_pubkeys
    (JObj Samples.short_p_fields)
  = NostrHub.Raised
  ∧ NostrHub.subscribe Cases.verify_ok Cases.uri_for_note Cases.npub_of
      Cases.DELETE_TASK_DELAY Cases.SUPPORTED_KINDS Cases.token None
      "wss://reelaay" Cases.nostr_pubkeys Cases.bridged_pubkeys
      (NostrHub.Frame (JArr [JStr "EVENT"; JStr "sub123"; JObj Samples.short_p_fields])
       :: Cases.closed_after_event)
    = ([NostrHub.Connect "wss://reelaay";
        NostrHub.Send (NostrHub.req Cases.SUPPORTED_KINDS (Cases.token 0)
                         Cases.nostr_pubkeys Cases.bridged_pubkeys)],
       NostrHub.Failed).
Proof.
  apply (subscribe_fails_on_short_p_tag Cases.verify_ok Cases.uri_for_note
           Cases.npub_of Cases.DELETE_TASK_DELAY Cases.SUPPORTED_KINDS Cases.token
           None "wss://reelaay" Cases.nostr_pubkeys Cases.bridged_pubkeys
           (JStr "sub123") Samples.short_p_fields
           [JArr [JStr "e"; JStr "77aa"]; JArr [JStr "p"]]).
  - reflexivity.
  - reflexivity.
  - right. left.
Defined.

Lemma target_for_first_write_relay_witness :
  ∃ id event pre tag post,
    Some "nostr:npub1bob" = Some id ∧ String.prefix "nostr:npub" id = true
    ∧ Some Samples.relay_list = Some event
    ∧ Py.iterate (default (JArr []) (Py.assoc "tags" event)) = Some (pre ++ tag :: post)
    ∧ Forall (λ t, NostrClass.write_relay t = Some false) pre
    ∧ NostrClass.write_relay tag = Some true
    ∧ Py.subscript tag 1 = Some (JStr "wss://write.example").
Proof.
  apply (proj1 (target_for_first_write_relay (Some "nostr:npub1bob")
                  (λ _, Some Samples.relay_list) (JStr "wss://write.example"))).
  vm_compute. reflexivity.
Defined.

Lemma load_users_blocked_witness :
  let g := Loader.runs Samples.no_blocklist Samples.uri_to_id Samples.PROTOCOLS
             Samples.datastore_with_mallory Samples.no_failure [10; 20; 30]
             Samples.at_start in
  Loader.pubkeys_loaded_at g = Loader.pubkeys_loaded_at Samples.at_start
  ∧ Loader.bridged_pubkeys g = Loader.bridged_pubkeys Samples.at_start
  ∧ Loader.pubkeys_initialized g = Loader.pubkeys_initialized Samples.at_start.
Proof.
  apply (load_users_blocked Samples.no_blocklist Samples.uri_to_id Samples.PROTOCOLS
           Samples.datastore_with_mallory Samples.no_failure [10; 20; 30]
           Samples.at_start Samples.mallory "tag").
  - right. left.
  - repeat split; try reflexivity; discriminate.
  - reflexivity.
Defined.

Lemma nostr_create_for_once_witness :
  Models.get_copy Nostr.LABEL (NostrClass.user_copies Samples.eve_after)
  = Some ("nostr:" +:+ "npub1eve")
  ∧ NostrClass.PutUser ∈ NostrClass.log Samples.eve_after
  ∧ ∀ o', NostrClass.create_for Cases.prefix_of Cases.uri_of o' Samples.eve_after
          = (Return (), Samples.eve_after).
Proof.
  apply (nostr_create_for_once Cases.prefix_of Cases.uri_of Samples.eve_oracle
           Samples.eve_new "npub1eve" (Raise "user.obj.as1") Samples.eve_after).
  - reflexivity.
  - reflexivity.
  - reflexivity.
  - reflexivity.
  - vm_compute. reflexivity.
Defined.

Lemma nostr_create_for_then_nip_05_witness :
  Nostr.nip_05 Samples.eve_users Samples.eve_uri_to_id (Some "eve.fake") (Some "fake")
  = Nostr.Names "eve.fake" Cases.EVE_PUBKEY.
Proof.
  apply (nostr_create_for_then_nip_05 Cases.prefix_of Cases.uri_of Samples.eve_oracle
           Samples.eve_new "npub1eve" (Raise "user.obj.as1") Samples.eve_after
           Samples.eve_users Samples.eve_uri_to_id "fake" "fake:eve" "eve.fake"
           Cases.EVE_PUBKEY).
  - reflexivity.
  - reflexivity.
  - reflexivity.
  - reflexivity.
  - vm_compute. reflexivity.
  - discriminate.
  - discriminate.
  - vm_compute. reflexivity.
  - reflexivity.
Defined.


Lemma send_inactive_repo_witness :
  let run := ATProto.send Samples.delete_self Cases.delete_activity in
  (∃ did pre act,
      ATProto.effects run.2 = pre ++ act ∧ SendLog.lookups did pre
      ∧ (act = [] ∨ SendLog.deactivation act))
  ∧ (∀ d ws, ATProto.Commit d ws ∉ ATProto.effects run.2)
  ∧ (ATProto.CreateReport ∉ ATProto.effects run.2)
  ∧ (∀ d, ATProto.SendChat d ∉ ATProto.effects run.2)
  ∧ (run.1 = Return true →
     ATProto.as1_verb Samples.delete_self = Some "delete"
     ∧ ∃ did, ATProto.user_did Samples.delete_self = Some (Some did)
              ∧ ATProto.effects run.2
                = [ATProto.ConvertBase; ATProto.GetOrCreateUser;
                   ATProto.LoadDidDoc did; ATProto.DeactivateRepo did;
                   ATProto.RemoveDns (ATProto.user_handle Samples.delete_self)]).
Proof.
  intros run.
  apply (send_inactive_repo Samples.delete_self Cases.delete_activity
           (Some "deactivated") run.1 run.2).
  - reflexivity.
  - reflexivity.
  - vm_compute. reflexivity.
Defined.

Lemma send_commit_targets_witness :
  let writes := [ATProto.mkWrite ATProto.DELETE (Some "app.bsky.feed.post")
                                 (Some "3kpost") None] in
  ATProto.user_did Cases.delete_post = Some (Some "did:plc:alice")
  ∧ (SendLog.unblocks Cases.delete_post writes
     ∨ ∃ w, writes = w :: ATProto.send_derived_writes Cases.delete_post
            ∧ (ATProto.action w = ATProto.CREATE
               ∨ SendLog.changes_copy Cases.delete_post "did:plc:alice"
                   (ATProto.base_of Cases.delete_post Cases.delete_activity) w)).
Proof.
  intros writes.
  apply (send_commit_targets Cases.delete_post Cases.delete_activity (Return true)
           (ATProto.send Cases.delete_post Cases.delete_activity).2).
  - vm_compute. reflexivity.
  - vm_compute. right. right. right. left.
Defined.

Lemma create_for_tombstoned_wipes_witness :
  let run := ATProto.create_for Cases.all_ok Samples.alice_tombstoned in
  (ATProto.user_copies run.2 = []
   ∨ ∃ new, ATProto.create_plc Cases.all_ok = Some new
            ∧ ATProto.user_copies run.2 = [mkTarget new "atproto"])
  ∧ (run.1 = Return () →
     ∃ new, ATProto.create_plc Cases.all_ok = Some new
            ∧ ATProto.user_copies run.2 = [mkTarget new "atproto"]
            ∧ ATProto.repos run.2 !! new = Some None).
Proof.
  intros run.
  apply (create_for_tombstoned_wipes Cases.all_ok Samples.alice_tombstoned
           "alice.fa.brid.gy" "did:plc:old" run.1 run.2).
  - reflexivity.
  - reflexivity.
  - reflexivity.
  - vm_compute. reflexivity.
  - vm_compute. reflexivity.
Defined.

Lemma create_for_reactivates_witness :
  let run := ATProto.create_for Cases.all_ok Samples.alice_deactivated in
  ATProto.user_copies run.2 = ATProto.user_copies Samples.alice_deactivated
  ∧ ATProto.user_obj run.2 = ATProto.user_obj Samples.alice_deactivated
  ∧ (run.1 = Return () →
     ATProto.log run.2
     = ATProto.log Samples.alice_deactivated
       ++ [ATProto.ActivateRepo "did:plc:alice"; ATProto.CreateTask "atproto-commit"]
       ++ (if ATProto.handle_in_superdomain Cases.all_ok
           then [ATProto.SetDns "alice.fa.brid.gy" "did:plc:alice"] else [])
     ∧ ATProto.repos run.2
       = <["did:plc:alice" := None]> (ATProto.repos Samples.alice_deactivated)
     ∧ ATProto.repos run.2 !! "did:plc:alice" = Some None)
  ∧ (∀ site, run.1 = Raise site →
     (site = "storage.activate_repo"
      ∧ ATProto.log run.2 = ATProto.log Samples.alice_deactivated
      ∧ ATProto.repos run.2 = ATProto.repos Samples.alice_deactivated)
     ∨ (site = "create_task"
        ∧ ATProto.log run.2
          = ATProto.log Samples.alice_deactivated ++ [ATProto.ActivateRepo "did:plc:alice"]
        ∧ ATProto.repos run.2
          = <["did:plc:alice" := None]> (ATProto.repos Samples.alice_deactivated))
     ∨ (site = "set_dns" ∧ ATProto.handle_in_superdomain Cases.all_ok = true
        ∧ ATProto.log run.2
          = ATProto.log Samples.alice_deactivated
            ++ [ATProto.ActivateRepo "did:plc:alice"; ATProto.CreateTask "atproto-commit"]
        ∧ ATProto.repos run.2
          = <["did:plc:alice" := None]> (ATProto.repos Samples.alice_deactivated))).
Proof.
  intros run.
  apply (create_for_reactivates Cases.all_ok Samples.alice_deactivated
           "alice.fa.brid.gy" "did:plc:alice" (Some "deactivated") run.1 run.2).
  - reflexivity.
  - reflexivity.
  - reflexivity.
  - vm_compute. reflexivity.
  - reflexivity.
  - discriminate.
  - vm_compute. reflexivity.
Defined.

Lemma create_for_first_commit_witness :
  let run := ATProto.create_for Cases.all_ok Cases.alice_new in
  ∃ extra, ATProto.log run.2 = ATProto.log Cases.alice_new ++ extra
    ∧ ∀ before did writes,
        SendLog.first_commit extra = Some (before, did, writes) →
        ATProto.create_plc Cases.all_ok = Some did
        ∧ ATProto.PlcCreate "alice.fa.brid.gy" did ∈ before
        ∧ ATProto.RepoCreate did "alice.fa.brid.gy" ∈ before
        ∧ ∃ more, writes
                  = ATProto.mkWrite ATProto.CREATE (Some "chat.bsky.actor.declaration")
                                    (Some "self") (Some ATProto.chat_declaration) :: more.
Proof.
  intros run.
  apply (create_for_first_commit Cases.all_ok Cases.alice_new "alice.fa.brid.gy"
           run.1 run.2).
  - reflexivity.
  - vm_compute. reflexivity.
Defined.

Lemma remove_dns_removes_witness :
  let run := Dns.remove_dns false true true "alice.fa.brid.gy" Samples.zone in
  (run.1 = Return () →
   Dns.list_txt run.2 (Dns.name_of "alice.fa.brid.gy") = []
   ∧ ∀ n, n ≠ Dns.name_of "alice.fa.brid.gy" →
          Dns.list_txt run.2 n = Dns.list_txt Samples.zone n)
  ∧ (run.1 ≠ Return () → run.2 = Samples.zone).
Proof.
  intros run.
  apply (remove_dns_removes true true "alice.fa.brid.gy" Samples.zone run.1 run.2).
  vm_compute. reflexivity.
Defined.

Lemma set_dns_sets_witness :
  let z' := (Dns.set_dns false Samples.no_handle_domain true true
               "alice.fa.brid.gy" "did:plc:alice" Samples.zone).2 in
  Dns.list_txt z' (Dns.name_of "alice.fa.brid.gy")
  = [Dns.mkRrset (Dns.name_of "alice.fa.brid.gy") "TXT" 10800
                 [Dns.val_of "did:plc:alice"]]
  ∧ ∀ n, n ≠ Dns.name_of "alice.fa.brid.gy" →
         Dns.list_txt z' n = Dns.list_txt Samples.zone n.
Proof.
  intros z'.
  apply (set_dns_sets Samples.no_handle_domain true true "alice.fa.brid.gy"
           "did:plc:alice" Samples.zone z').
  - reflexivity.
  - vm_compute. reflexivity.
Defined.

Lemma set_username_checks_witness :
  let run := Username.set_username Samples.alice_username "@alice.com" in
  let name := Username.removeprefix_at "@alice.com" in
  (run.2 ≠ [] →
   ∃ did repo rest,
     Username.is_enabled Samples.alice_username = true
     ∧ Username.copy Samples.alice_username = Some did
     ∧ Username.load_repo Samples.alice_username did = Some repo
     ∧ ATProto.falsy (Username.status repo) = true
     ∧ Username.handle repo ≠ Some name
     ∧ Username.resolve_handle Samples.alice_username name = Return (Some did)
     ∧ run.2 = Username.UpdatePlc did name :: rest)
  ∧ (run.1 = Return (Some true) →
     run.2 = [] ∧ ∃ did repo, Username.copy Samples.alice_username = Some did
                              ∧ Username.load_repo Samples.alice_username did = Some repo
                              ∧ Username.handle repo = Some name)
  ∧ (run.1 = Return None →
     ∃ did, run.2 = [Username.UpdatePlc did name; Username.StoreRepo did name;
                     Username.WriteIdentity did name; Username.LoadDidDoc did]).
Proof.
  intros run.
  apply (set_username_checks Samples.alice_username "@alice.com" run.1 run.2).
  vm_compute. reflexivity.
Defined.

Lemma handle_to_id_local_first_witness :
  ∃ r, r ∈ Samples.repos ∧ "alice.com" ∈ Handles.handles r
       ∧ Handles.status r = None
       ∧ Handles.handle_to_id [] Samples.repos Samples.any_handle Samples.no_remote
           "alice.com"
         = Return (Some (Handles.repo_did r)).
Proof.
  assert ("alice.com" ≠ "") as Hne by discriminate.
  assert (∀ u : Handles.native, u ∈ [] → Handles.native_handle u ≠ Some "alice.com")
    as Hnone by (intros u Hu; by apply elem_of_nil in Hu).
  apply (proj1 (proj2 (proj2 (proj2 (handle_to_id_local_first [] Samples.repos
                                       Samples.any_handle Samples.no_remote
                                       "alice.com")) Hne eq_refl) Hnone)).
  exists (Handles.mkRepo "did:plc:alice" ["alice.com"] None).
  split; [right; left|]. split; [left|reflexivity].
Defined.

Lemma poll_chat_task_tasks_witness :
  let out := Chat.mkOutcome (Return "OK") (JStr "c2") [Samples.task_from_bob] in
  Forall (Chat.from_message Samples.at_uri Samples.task_ok "did:plc:bot")
         (Chat.enqueued out)
  ∧ (Chat.answer out ≠ Return "OK" → Chat.stored_cursor out = JStr "c1").
Proof.
  intros out.
  apply (poll_chat_task_tasks Samples.get_log Samples.to_as1 Samples.at_uri
           Samples.task_ok true "did:plc:bot" "fa.brid.gy" 5 (JStr "c1") out).
  vm_compute. reflexivity.
Defined.

Lemma derived_writes_wallet_witness :
  let f := Samples.bare_delete_of_actor in
  let writes := [Derived.wallet ATProto.CREATE] in
  Derived.derived_writes Samples.ACTOR_TYPES Samples.inner_object (JObj f)
  = Return writes
  ∧ (writes = [] ∨ writes = [Derived.wallet ATProto.CREATE]
     ∨ writes = [Derived.wallet ATProto.UPDATE])
  ∧ (writes ≠ [] →
     ∃ f', JObj f = JObj f'
       ∧ Derived.other_activity f' = false
       ∧ Derived.among (Py.get "objectType" (Derived.actor_of Samples.inner_object f'))
                       Samples.ACTOR_TYPES = true
       ∧ Py.truthy (Py.get "monetization" (Derived.actor_of Samples.inner_object f'))
         = true
       ∧ writes
         = [Derived.wallet
              (if Py.eq_str (Py.get "objectType" f') "activity"
                  && negb (Py.eq_str (Py.get "verb" f') "post")
               then ATProto.UPDATE else ATProto.CREATE)]).
Proof.
  intros f writes.
  assert (Derived.derived_writes Samples.ACTOR_TYPES Samples.inner_object (JObj f)
          = Return writes) as Hrun by (vm_compute; reflexivity).
  split; [exact Hrun|].
  exact (proj1 (derived_writes_wallet Samples.ACTOR_TYPES Samples.inner_object (JObj f))
           writes Hrun).
Defined.

Example derived_writes_update :
  Derived.derived_writes Samples.ACTOR_TYPES Samples.inner_object
    (JObj Samples.update_of_actor)
  = Return [Derived.wallet ATProto.UPDATE].
Proof. vm_compute. reflexivity. Qed.

Example derived_writes_delete_activity :
  Derived.derived_writes Samples.ACTOR_TYPES Samples.inner_object
    (JObj (("objectType", JStr "activity") :: Samples.bare_delete_of_actor))
  = Return [].
Proof. vm_compute. reflexivity. Qed.

Example derived_writes_unhashable_verb :
  Derived.derived_writes Samples.ACTOR_TYPES Samples.inner_object
    (JObj [("objectType", JStr "activity"); ("verb", JArr [JStr "post"])])
  = Raise "verb in as1.CRUD_VERBS".
Proof. vm_compute. reflexivity. Qed.

Lemma atproto_did_answers_witness :
  "did:plc:alice" ≠ ""
  ∧ ∃ p i users u,
      Some "fake" = Some p ∧ Some "fake:alice" = Some i
      ∧ Samples.did_users p = Some users ∧ u ∈ users
      ∧ Models.get_copy ATProto.LABEL (DidEndpoint.copies u) = Some "did:plc:alice"
      ∧ DidEndpoint.found_by Samples.no_url [] Samples.no_parent Samples.same p i u.
Proof.
  apply (proj1 (atproto_did_answers Samples.did_users Samples.no_url []
                  Samples.no_parent Samples.same (Some "fake") (Some "fake:alice"))
           "did:plc:alice").
  vm_compute. reflexivity.
Defined.

Lemma nostr_send_failure_witness :
  let copies := Cases.profile_copies in
  let kept := filter (λ c, protocol c ≠ "nostr") copies in
  let copy_uri event :=
    prefix ← Cases.prefix_of (JObj event);
    id ← Py.assoc "id" event;
    Cases.uri_of prefix id in
  let run := Nostr.send Cases.prefix_of Cases.uri_of copies
               (Some Cases.EVE_PUBKEY) (Some Cases.profile_event) Nostr.Answered false in
  (Nostr.stored run.2 = true ↔ run.1 = Return true)
  ∧ (Nostr.Answered ≠ Nostr.Answered →
     Nostr.copies_after run.2 = copies ∧ run.1 ≠ Return true)
  ∧ (run.1 = Return false →
     Nostr.Answered = Nostr.ClosedOK ∧ Nostr.copies_after run.2 = copies)
  ∧ (∀ site, run.1 = Raise site →
       (site ∈ ["assert from_user"; "convert"; "assert pubkey"; "assert sig";
                "websocket"]
        ∧ Nostr.copies_after run.2 = copies)
       ∨ (site ∈ ["bech32_prefix_for"; "event['id']"; "id_to_uri"]
          ∧ Nostr.Answered = Nostr.Answered
          ∧ (∃ event, Some Cases.profile_event = Some event ∧ copy_uri event = None)
          ∧ Nostr.copies_after run.2 = kept)
       ∨ (site = "obj.put" ∧ Nostr.Answered = Nostr.Answered ∧ false = false
          ∧ ∃ event uri,
              Some Cases.profile_event = Some event ∧ copy_uri event = Some uri
              ∧ Nostr.copies_after run.2 = kept ++ [mkTarget uri "nostr"]))
  ∧ (∀ hex_pubkey event,
       Some Cases.EVE_PUBKEY = Some hex_pubkey → Some Cases.profile_event = Some event →
       Py.eq_str (Py.get "pubkey" event) hex_pubkey = true →
       Py.truthy (Py.get "sig" event) = true →
       Nostr.Answered = Nostr.Answered →
       match copy_uri event with
       | Some uri =>
           run.1 = (if false then Return true else Raise "obj.put")
           ∧ run.2 = Nostr.mkAfter (kept ++ [mkTarget uri "nostr"]) false
       | None =>
           (∃ site, run.1 = Raise site) ∧ run.2 = Nostr.mkAfter kept false
       end).
Proof.
  intros copies kept copy_uri run.
  apply (nostr_send_failure Cases.prefix_of Cases.uri_of Cases.profile_copies
           (Some Cases.EVE_PUBKEY) (Some Cases.profile_event) Nostr.Answered false
           run.1 run.2).
  vm_compute. reflexivity.
Defined.

Example nostr_send_put_fails :
  Nostr.send Cases.prefix_of Cases.uri_of Cases.profile_copies
    (Some Cases.EVE_PUBKEY) (Some Cases.profile_event) Nostr.Answered false
  = (Raise "obj.put",
     Nostr.mkAfter
       [ mkTarget "at://did:plc:alice/app.bsky.actor.profile/self" "atproto";
         mkTarget "nostr:nprofile13d6" "nostr" ] false).
Proof. vm_compute. reflexivity. Qed.

Lemma load_users_same_size_witness :
  let g' := Loader._load_users Samples.no_blocklist Samples.uri_to_id
              Samples.PROTOCOLS Samples.datastore Samples.no_failure 10
              Samples.reloaded in
  (NostrHub.recheck Cases.SUPPORTED_KINDS Cases.token
     (NostrHub.mkSub (Loader.nostr_pubkeys g') (Loader.bridged_pubkeys g')
        (NostrHub.nostr_pubkeys_count Samples.open_sub)
        (NostrHub.bridged_pubkeys_count Samples.open_sub)
        (NostrHub.subscription Samples.open_sub) (NostrHub.queries Samples.open_sub)
        (NostrHub.received Samples.open_sub))).1 = []
  ↔ Loader.nostr_pubkeys g' = Loader.nostr_pubkeys Samples.reloaded
    ∧ Loader.bridged_pubkeys g' = Loader.bridged_pubkeys Samples.reloaded.
Proof.
  apply (load_users_same_size Samples.no_blocklist Samples.uri_to_id
           Samples.PROTOCOLS Samples.datastore Samples.no_failure
           Cases.SUPPORTED_KINDS Cases.token 10 Samples.reloaded Samples.open_sub).
  - vm_compute. reflexivity.
  - vm_compute. reflexivity.
Defined.

(** Bob and Eve were updated after the last load, so the loader selects
    them again; both are already in the sets, nothing is added and the
    check sends nothing. *)
Example load_users_reselects :
  let g' := Loader._load_users Samples.no_blocklist Samples.uri_to_id
              Samples.PROTOCOLS Samples.datastore Samples.no_failure 10
              Samples.reloaded in
  Loader.new_nostr Samples.datastore (Loader.pubkeys_loaded_at Samples.reloaded)
  = [Samples.bob]
  ∧ Loader.nostr_pubkeys g' = Loader.nostr_pubkeys Samples.reloaded
  ∧ Loader.bridged_pubkeys g' = Loader.bridged_pubkeys Samples.reloaded
  ∧ Loader.pubkeys_loaded_at g' = 10.
Proof. repeat split; vm_compute; reflexivity. Qed.
